(* ===== verification/_CoqProject ===== *)
-Q . S2P
Prelude.v
PyValue.v
Setup.v
Stream.v
Pafy.v
Lifecycle.v
Process.v
Effects.v
Progress.v
Transport.v
Download.v
Footprint.v
Session.v
