(* ===== verification/Prelude.v ===== *)
(** * Verification of pafy's youtube-dl backend (src/pafy/backend_youtube_dl.py)

    ** The program

    The source file is the youtube-dl/yt-dlp backend of pafy.  It has three
    classes:

    - [YtdlPafy] (lines 30-104), the video handle.  It owns the metadata of
      one video and the lists of its streams, and fills them lazily:
      [__init__] stores the extraction options, [_fetch_basic] calls the
      extraction backend once and copies the basic fields out of the
      returned info dict, [_fetch_gdata] asks the secondary metadata
      provider, [_process_streams] builds one [YtdlStream] per raw format
      descriptor and the five filtered lists.
    - [YtdlStream] (lines 107-208), one downloadable stream.  [__init__]
      classifies a raw format descriptor (audio, video, normal) and derives
      resolution, bitrate, quality, notes and the playable url;
      [get_filesize] is a two-tier lookup; [download] resolves the target
      path, drives the HTTP downloader with a progress hook, and optionally
      remuxes audio.
    - [ydl] (lines 211-228), a stub object handed to the HTTP downloader.

    Data flows handle -> info dict -> streams -> download.  The collaborators
    (the extraction backend, the metadata provider, the HTTP downloader, the
    remux tool, and [backend_shared]'s [BasePafy], [BaseStream],
    [get_size_done], [get_status_string], [generate_filename]) are not in
    the repository's sources: the development takes them as parameters of
    an interface, or models them from the specification and says so.

    ** Layout

    - [Prelude] (this file): outcomes of Python code ([result]: a value, a
      raised exception, or [Undef] for behaviour outside the modelled
      fragment), the state-and-exception monad [pym] in which the methods
      are written, their notations (scopes [res_scope] and [pym_scope]),
      loops ([sforeach]), the assertions [preserves] (an invariant kept on
      every outcome) and [triple] (a postcondition for the normal and one
      for the exceptional outcome) with one rule per statement form, the
      tactics [res_inv], [pym_run], [pym_step], [pym_inv_prim],
      [preserves_step] and [triple_step], the hint database [pafy], and
      the lemmas on traversals, filters and strings the components share.
    - [PyValue]: Python values as the source handles them ([pyval]: None,
      bool, int, float, str, list, dict with string keys as a [gmap]), the
      exceptions the code can raise ([pyexn]), and the built-in operations
      the source uses, each with Python's behaviour on every type:
      subscription, [dict.get], truth value, [or], comparison with a string
      literal, [* 1024], [* 1.0], [/], [is None], [str()], [startswith],
      [str.replace], iteration.
    - [Setup]: lines 1-27 and the class statements, the import of the
      module: its top-level statements in order, in a state monad over the
      module's namespace, against an interpreter (version, modules found,
      their members); the reference definition [load_spec] of what the
      import requires, and the proof that the import is equal to it.
    - [Stream]: [YtdlStream.__init__] and [get_filesize], with the
      classification, quality, resolution, bitrate and url-fallback
      theorems, the round trip of the resolution string, and the
      exceptions of malformed descriptors.
    - [Pafy]: the handle's state, [YtdlPafy.__init__] with the process-wide
      default options it aliases, [_fetch_basic], [_fetch_gdata] and
      [_process_streams] in the monad [pym], the collaborators as the
      class [Backend] (every theorem holds for any instance; [ex_backend]
      is the instance the witnesses run), the functional behaviour of the
      two fetches on their success and error paths, and the catalog
      theorems (filters preserve order, the three media kinds partition
      the list, construction is all-or-nothing and idempotent).
    - [Lifecycle]: sequences of calls.  A client's call of one of the three
      methods, at a time that is not before that of the last call, is a
      step on worlds, whatever its outcome; [frame] is what no step
      changes, [handle_inv] the invariant of every world reachable from a
      fresh handle (by induction on the sequence of calls, each method by
      its [preserves] and [triple] rules), and [phase_step] the abstract
      machine of fetch phases that every step refines.
    - [Process]: several handles in one process.  The heap of handles
      with the dict [g.def_ydl_opts] that line 33 makes every handle
      hold, the instantiation [new] (lines 31-36 on a new object), a
      method called on one handle at a given time ([on]), and schedules
      of such calls ([run]).
    - [Effects]: the world a download acts on ([io]: the regular files
      with their sizes, the directory paths, the trace of effects in
      order), and [os.path.isdir], [os.path.join] and [os.rename].
    - [Progress]: lines 158-187, the progress unit and the closure
      [progress_hook], against the class [Reporter] ([get_size_done],
      [get_status_string], [str.format]); what the hook reports, its
      exceptions on a total that is 0, absent or None, and the bounds of
      the fraction done.
    - [Transport]: the class [Transport] that stands for the HTTP
      downloader, the host object [ydl] of lines 211-228, and the chunked
      transport of the specification with its loop over the chunk offsets
      ([chunk_offsets], by well-founded recursion with Equations).
    - [Download]: lines 149-208, [download] against [Reporter],
      [Transport] and [Shared] ([generate_filename], [remux]): the target
      path and its length, the remux decision, the error paths (before,
      during and after the transfer), and the runs of a whole download and
      of a download whose connection breaks over the chunked transport.
    - [Footprint]: the file system that downloads share.  The laws
      [TransportLaws] and [SharedLaws] that [download] needs of the two
      interfaces it calls to touch no file but its own, the proof that
      the chunked transport is lawful, worlds up to the order of their
      events (an [Equivalence] with its [Proper] instances), and two
      downloads made one after the other.
    - [Session]: the components together.  The collaborators as the
      methods reach them, through the global name [yt_dlp] that the import
      binds or leaves unbound ([linked_backend], [linked_transport]), and
      the caller's flow of the specification on a handle paired with the
      file system ([download_from]): a list of the catalog through the
      accessor [streams_of] (modelled from section 4.1 of the
      specification), a stream of it by position, its download.

    ** Modelling choices

    - Integers are Python's unbounded ints: [Z], no wrap-around.
    - A float is the rational it stands for ([Qc]): arithmetic on floats
      is exact in the model and rounding is not modelled, so the fraction
      done is bytes done over total exactly.  Division is Python 3's true
      division.  [str()] of a float, of a list or of a dict (Python's
      [repr]) and iteration over a dict give [Undef]; the theorem
      [Stream.init_defined] states when [Undef] cannot occur in the
      constructor.
    - A method is a function from the state before to an outcome and the
      state after.  An exception keeps the assignments made before it, as
      in Python; theorems about error paths state what the handle or the
      file system holds afterwards.
    - The interpreter is an input of the import: the pair
      [sys.version_info[:2]], the outcome of finding each module, and the
      members each module has.  The file compiles from Python 3.8 on (line
      34 is an assignment expression), so the import raises [SyntaxError]
      on an older interpreter before any statement runs.  A global name is
      looked up when the statement that uses it runs, so a name the import
      left unbound raises [NameError] there.
    - The clock ([time.time()]) is an input in whole seconds.  Within a
      call it is read once; between the calls of a sequence it may
      advance and is assumed not to go back ([Lifecycle.step]), and in a
      process every call carries the time at which it is made.
    - The handles of a process are the elements of a list, in the order
      of their creation; a handle is never destroyed.  The log of a
      callback is kept with its handle.
    - A file is its size in bytes; a path is the string the caller gave
      (no normalisation, no working directory); [dirs] is the set of
      strings for which [os.path.isdir] answers true.
    - The effects on the terminal, the callback, the files and the remux
      tool are recorded in one trace, so that their order can be stated.
    - No fuel is used: every definition is structurally recursive, except
      [Transport.chunk_offsets], which recurses on the bytes that remain
      and is total by construction; [Transport.chunk_offsets_length]
      gives the number of its iterations.

    ** What the theorems show

    - Import (file [Setup]): the import refines its list of requirements;
      the library that the name [yt_dlp] stands for; the version tests of
      lines 6 and 27 are decided by the syntax the file uses.
    - Constructor (file [Stream]): the value of every attribute on every
      descriptor, and the exception on the descriptors that have none.
    - Handle (files [Pafy], [Lifecycle]): each method on its success and
      error paths; the invariant of all worlds reachable by any sequence
      of calls, failed calls included; refinement of the phase machine.
    - Several handles (file [Process]): as far as the three methods go a
      process is the product of its handles, so each handle keeps the
      invariant of the life cycle whatever is called on the others, and
      any two interleavings of the same calls lead to the same process;
      the instantiation is where handles interfere, because the options
      of a new handle are written into the dict that all handles hold.
    - Download (files [Progress], [Transport], [Download]): what the hook
      reports and when it raises; termination and progress of the chunk
      loop; the target path; that only audio is remuxed; that errors of
      the transport and of the remux tool are passed on with the files
      left as they were; that a download over the chunked transport
      completes with the whole file and the trace of its updates, and
      that one whose connection breaks keeps the partial file.
    - Shared files (file [Footprint]): with a lawful transport and remux
      tool a download changes no file but its target and the target plus
      ".temp", on every outcome; two downloads to different targets over
      the chunked transport commute up to the order of their events, and
      two downloads to the same target do not.
    - Composition (file [Session]): without an extraction library the
      import succeeds and the first fetch and every download raise
      [NameError], changing nothing; with one, the methods run on the
      module the import chose; on every handle that satisfies the
      invariant of the life cycle the catalog is built on the first
      access only, a failed extraction or a position past the end of a
      list ends the flow before a file is touched, and a stream taken
      from the audio list is remuxed while one taken from the normal or
      the video list never is; whatever its outcome the flow keeps the
      invariant of the handle and, with a lawful transport and remux
      tool, changes no file outside the footprint of the stream it
      selects ([Session.download_from_safe]).
    Theorems about the source are stated for every instance of the
    collaborator classes; the witnesses run them on the example instances
    ([Setup.ex_interpreter], [Pafy.ex_backend], [Process.ex_backend_format],
    [Progress.spec_reporter], [Download.ex_net], [Download.ex_shared],
    [Session.ex_site]).

    ** Plan

    + YtdlStream.__init__ and the catalog (done in [Stream], [Pafy]).
    + The handle: construction, lazy fetching and its state machine
      (done in [Pafy] and [Lifecycle]).
    + The progress hook (done in [Progress]).
    + [download], the transport and the host object (done in [Effects],
      [Transport], [Download]).
    + The import of the module and the composition of the components
      (done in [Setup] and [Session]).
    + Several handles and several downloads in one process (done in
      [Process] and [Footprint]).
    + Left: resumed and retried transfers of the HTTP library; the
      other accessors of [BasePafy] and [BaseStream] (code of
      [backend_shared]), among them the title that [generate_filename]
      reads through the handle.

    ** Not modelled

    - The extraction backend, the metadata provider, the HTTP downloader
      and the remux tool themselves (libraries the source only calls):
      they are parameters, see the classes [Backend], [Transport], [Net],
      [Reporter] and [Shared].
    - [backend_shared] ([BasePafy], [BaseStream], [generate_filename]):
      not in the sources.  [download] takes [generate_filename] as a
      function of the stream; the lazy fetch of the title that the real
      one triggers is therefore not composed with the handle.
    - [sys.stdout.flush()] (line 182), rounding of floats, and the bodies
      of the modules the import loads (an import is its outcome).
    - Transfers that the HTTP library resumes or retries, and threads
      that run two downloads at once: [Footprint] orders two downloads
      one after the other and shows when the order does not matter.
    - The lines of the source that no definition is mapped to are blank
      lines, docstrings and class headers. *)

From Stdlib Require Import ZArith Lia.
From stdpp Require Import base tactics option list strings.

(** ** Outcomes *)

(** The outcome of a piece of Python code: a value, an exception, or
    behaviour that the model does not cover. *)
Inductive result (E A : Type) : Type :=
| Ok (a : A)
| Raise (e : E)
| Undef.

Arguments Ok {E A} a.
Arguments Raise {E A} e.
Arguments Undef {E A}.

Definition rbind {E A B} (m : result E A) (k : A -> result E B) : result E B :=
  match m with
  | Ok a => k a
  | Raise e => Raise e
  | Undef => Undef
  end.

(** [try: m except: h] with a bare [except], which catches every exception. *)
Definition rcatch {E A} (m : result E A) (h : E -> result E A) : result E A :=
  match m with
  | Ok a => Ok a
  | Raise e => h e
  | Undef => Undef
  end.

Definition rmap {E A B} (f : A -> B) (m : result E A) : result E B :=
  rbind m (fun a => Ok (f a)).

Definition is_Ok {E A} (m : result E A) : bool :=
  match m with Ok _ => true | _ => false end.

Definition is_Raise {E A} (m : result E A) : bool :=
  match m with Raise _ => true | _ => false end.

Definition of_option {E A} (e : E) (o : option A) : result E A :=
  match o with Some a => Ok a | None => Raise e end.

Declare Scope res_scope.
Delimit Scope res_scope with res.

Notation "x <- m ;; k" := (rbind m (fun x => k))
  (at level 100, m at next level, right associativity) : res_scope.

(** A list comprehension whose body can raise: elements are evaluated left
    to right and the first exception aborts the whole comprehension. *)
Fixpoint mapM_res {E A B} (f : A -> result E B) (l : list A) : result E (list B) :=
  match l with
  | [] => Ok []
  | a :: l' =>
      (b <- f a ;;
       bs <- mapM_res f l' ;;
       Ok (b :: bs))%res
  end.

(** ** The state-and-exception monad of methods *)

(** A method runs from a state and ends in an outcome and a state: an
    exception leaves the object as the assignments before it made it. *)
Definition pym (S E A : Type) : Type := S -> result E A * S.

Definition sret {S E A} (a : A) : pym S E A := fun s => (Ok a, s).

Definition sbind {S E A B} (m : pym S E A) (k : A -> pym S E B) : pym S E B :=
  fun s =>
    match m s with
    | (Ok a, s') => k a s'
    | (Raise e, s') => (Raise e, s')
    | (Undef, s') => (Undef, s')
    end.

Definition sget {S E} : pym S E S := fun s => (Ok s, s).

Definition smodify {S E} (f : S -> S) : pym S E unit := fun s => (Ok tt, f s).

Definition sraise {S E A} (e : E) : pym S E A := fun s => (Raise e, s).

Definition slift {S E A} (r : result E A) : pym S E A := fun s => (r, s).

(** [try: m except: h]: the handler runs in the state the exception left. *)
Definition scatch {S E A} (m : pym S E A) (h : E -> pym S E A) : pym S E A :=
  fun s =>
    match m s with
    | (Raise e, s') => h e s'
    | r => r
    end.

(** [for a in l: f a]: the first exception ends the loop. *)
Fixpoint sforeach {S E A} (l : list A) (f : A -> pym S E unit) : pym S E unit :=
  match l with
  | [] => sret tt
  | a :: l' => sbind (f a) (fun _ => sforeach l' f)
  end.

(** Every run of [m] from a state in [I] ends in a state in [I], whatever
    the outcome: [I] also holds after an exception. *)
Definition preserves {S E A} (I : S -> Prop) (m : pym S E A) : Prop :=
  forall s, I s -> I (m s).2.

(** A successful run of [m] from a state in [P] ends in [Q]. *)
Definition ensures {S E A} (P : S -> Prop) (m : pym S E A) (Q : A -> S -> Prop) : Prop :=
  forall s a s', P s -> m s = (Ok a, s') -> Q a s'.

(** A run of [m] from a state in [P] that returns [a] ends in [Q a]; a
    run that does not return (an exception, or behaviour outside the
    model) ends in [R]. *)
Definition triple {S E A} (P : S -> Prop) (m : pym S E A)
    (Q : A -> S -> Prop) (R : S -> Prop) : Prop :=
  forall s, P s -> match m s with
                   | (Ok a, s') => Q a s'
                   | (_, s') => R s'
                   end.

Declare Scope pym_scope.
Delimit Scope pym_scope with pym.

Notation "x <- m ;; k" := (sbind m (fun x => k))
  (at level 100, m at next level, right associativity) : pym_scope.
Notation "m ;; k" := (sbind m (fun _ => k))
  (at level 100, right associativity) : pym_scope.

(** ** Tactics and hints *)

Create HintDb pafy.
Create Rewrite HintDb pafy_rw.

(** Invert hypotheses that say a bind or a traversal succeeded. *)
Ltac res_inv :=
  repeat match goal with
  | H : rbind ?m _ = _ |- _ =>
      let E := fresh "E" in destruct m eqn:E; simpl in H; try discriminate H
  | H : Ok _ = Ok _ |- _ => injection H as H; subst
  | H : Raise _ = Raise _ |- _ => injection H as H; subst
  | H : Ok _ = Raise _ |- _ => discriminate H
  | H : Raise _ = Ok _ |- _ => discriminate H
  | H : Undef = Ok _ |- _ => discriminate H
  | H : Ok _ = Undef |- _ => discriminate H
  | H : Undef = Raise _ |- _ => discriminate H
  | H : Raise _ = Undef |- _ => discriminate H
  end.

(** Run a method on a symbolic state as far as it computes. *)
Ltac pym_run :=
  unfold sbind, sret, sget, smodify, sraise, slift, scatch; simpl.

(** ** Lemmas on outcomes *)

Section Result.
Context {E A B C : Type}.
Implicit Types (m : result E A) (f : A -> result E B) (g : B -> result E C).

Lemma rbind_ret_r m : rbind m Ok = m.
Proof. by destruct m. Qed.

Lemma rbind_assoc m f g :
  rbind (rbind m f) g = rbind m (fun a => rbind (f a) g).
Proof. by destruct m. Qed.

Lemma rbind_Ok_inv m f b :
  rbind m f = Ok b <-> exists a, m = Ok a /\ f a = Ok b.
Proof.
  split; [intros H; res_inv; eauto | intros (a & -> & H); done].
Qed.

Lemma rbind_Raise_inv m f e :
  rbind m f = Raise e <-> m = Raise e \/ exists a, m = Ok a /\ f a = Raise e.
Proof.
  split.
  - intros H; res_inv; eauto.
  - intros [-> | (a & -> & H)]; done.
Qed.

Lemma is_Ok_true m : is_Ok m = true <-> exists a, m = Ok a.
Proof. destruct m; simpl; split; try done; eauto; by intros [? ?]. Qed.

End Result.

#[export] Hint Rewrite @rbind_ret_r @rbind_assoc : pafy_rw.

(** ** Lemmas on traversals *)

Section MapM.
Context {E A B : Type}.
Implicit Types (f : A -> result E B) (l : list A) (bs : list B).

Lemma mapM_res_Ok_iff f l bs :
  mapM_res f l = Ok bs <-> Forall2 (fun a b => f a = Ok b) l bs.
Proof.
  revert bs; induction l as [|a l IH]; intros bs; simpl.
  - split; [intros [= <-]; constructor | by inversion 1].
  - split.
    + intros H; res_inv. constructor; [done | by apply IH].
    + inversion 1 as [|? b ? bs' Ha Hl]; subst.
      rewrite Ha; simpl. apply IH in Hl. by rewrite Hl.
Qed.

Lemma mapM_res_length f l bs :
  mapM_res f l = Ok bs -> length bs = length l.
Proof. rewrite mapM_res_Ok_iff. intros H. symmetry. by eapply Forall2_length. Qed.

Lemma mapM_res_app f l1 l2 :
  mapM_res f (l1 ++ l2) =
  rbind (mapM_res f l1) (fun b1 => rbind (mapM_res f l2) (fun b2 => Ok (b1 ++ b2))).
Proof.
  induction l1 as [|a l1 IH]; simpl.
  - by rewrite rbind_ret_r.
  - destruct (f a); simpl; [|done..]. rewrite IH.
    destruct (mapM_res f l1); simpl; [|done..].
    by destruct (mapM_res f l2).
Qed.

(** The traversal succeeds exactly when every element does. *)
Lemma mapM_res_total f l :
  Forall (fun a => is_Ok (f a) = true) l <-> exists bs, mapM_res f l = Ok bs.
Proof.
  induction l as [|a l IH]; simpl.
  - split; [eauto | constructor].
  - rewrite Forall_cons, IH, is_Ok_true. split.
    + intros [[b ->] [bs ->]]; simpl; eauto.
    + intros [bs H]; res_inv; eauto.
Qed.

(** The first element that raises decides the exception. *)
Lemma mapM_res_Raise f l1 a l2 e :
  Forall (fun a => is_Ok (f a) = true) l1 -> f a = Raise e ->
  mapM_res f (l1 ++ a :: l2) = Raise e.
Proof.
  intros [bs Hbs]%mapM_res_total Ha.
  rewrite mapM_res_app, Hbs; simpl. by rewrite Ha.
Qed.

Lemma mapM_res_ext f g l :
  (forall a, a ∈ l -> f a = g a) -> mapM_res f l = mapM_res g l.
Proof.
  induction l as [|a l IH]; intros H; simpl; [done|].
  rewrite H by left. rewrite IH; [done|]. intros; apply H; by right.
Qed.

End MapM.

(** ** Lemmas on filters *)

Section Filter.
Context {A : Type}.
Implicit Types (l : list A).

(** Three exclusive and exhaustive predicates split a list three ways. *)
Lemma filter3_length (P Q R : A -> Prop)
    `{!forall x, Decision (P x), !forall x, Decision (Q x), !forall x, Decision (R x)} l :
  (forall x, (P x /\ ~ Q x /\ ~ R x) \/ (~ P x /\ Q x /\ ~ R x) \/ (~ P x /\ ~ Q x /\ R x)) ->
  length (filter P l) + length (filter Q l) + length (filter R l) = length l.
Proof.
  intros Hsplit; induction l as [|x l IH]; [done|].
  rewrite !filter_cons.
  destruct (Hsplit x) as [(?&?&?)|[(?&?&?)|(?&?&?)]];
    repeat case_decide; try done; simpl; lia.
Qed.

Lemma filter_filter_same (P : A -> Prop) `{!forall x, Decision (P x)} l :
  filter P (filter P l) = filter P l.
Proof. by apply list_filter_filter_l. Qed.

Lemma filter_disjoint_nil (P Q : A -> Prop)
    `{!forall x, Decision (P x), !forall x, Decision (Q x)} l :
  (forall x, P x -> Q x -> False) -> filter P (filter Q l) = [].
Proof.
  intros Hdisj. induction l as [|x l IH]; [done|].
  rewrite (filter_cons Q). case_decide; [|done].
  rewrite filter_cons. case_decide; [exfalso; eauto | done].
Qed.

End Filter.

(** ** Lemmas on strings *)

Lemma str_app_cons (c : Ascii.ascii) (s t : string) :
  String c s +:+ t = String c (s +:+ t).
Proof. reflexivity. Qed.

Lemma str_length_app (s1 s2 : string) :
  String.length (s1 +:+ s2) = String.length s1 + String.length s2.
Proof.
  induction s1 as [|c s1 IH]; [done|]. rewrite str_app_cons; simpl. by rewrite IH.
Qed.

Lemma str_app_nil_r (s : string) : s +:+ EmptyString = s.
Proof. induction s as [|c s IH]; [done|]. by rewrite str_app_cons, IH. Qed.

Lemma str_app_assoc (s1 s2 s3 : string) : (s1 +:+ s2) +:+ s3 = s1 +:+ (s2 +:+ s3).
Proof. induction s1 as [|c s1 IH]; [done|]. by rewrite !str_app_cons, IH. Qed.

Lemma str_prefix_app (p s : string) : String.prefix p (p +:+ s) = true.
Proof.
  induction p as [|c p IH]; [by destruct s|]. rewrite str_app_cons; simpl.
  destruct (Ascii.ascii_dec c c); [done | congruence].
Qed.

Lemma str_prefix_split (p s : string) :
  String.prefix p s = true <-> exists t, s = p +:+ t.
Proof.
  split; [|intros [t ->]; apply str_prefix_app].
  revert s; induction p as [|c p IH]; intros s H; [by exists s|].
  destruct s as [|c' s]; [done|]. simpl in H.
  destruct (Ascii.ascii_dec c c') as [<-|]; [|done].
  destruct (IH _ H) as [t ->]. by exists t.
Qed.

Lemma str_prefix_length (p s : string) :
  String.prefix p s = true -> String.length p <= String.length s.
Proof. intros [t ->]%str_prefix_split. rewrite str_length_app. lia. Qed.

#[export] Hint Rewrite str_length_app str_app_nil_r : pafy_rw.
#[export] Hint Resolve str_prefix_app str_prefix_length : pafy.

(** ** Lemmas on methods *)

Section Pym.
Context {S E : Type}.
Implicit Types (I : S -> Prop).

Lemma sbind_Ok {A B} (m : pym S E A) (k : A -> pym S E B) s a s' :
  m s = (Ok a, s') -> sbind m k s = k a s'.
Proof. unfold sbind. by intros ->. Qed.

Lemma sbind_Raise {A B} (m : pym S E A) (k : A -> pym S E B) s e s' :
  m s = (Raise e, s') -> sbind m k s = (Raise e, s').
Proof. unfold sbind. by intros ->. Qed.

(** A run whose outcome is known, with the state it leaves. *)
Lemma run_eta {A} (m : pym S E A) s r : (m s).1 = r -> m s = (r, (m s).2).
Proof. intros <-. by destruct (m s). Qed.

Lemma sbind_cong {A B} (m1 m2 : pym S E A) (k : A -> pym S E B) s :
  m1 s = m2 s -> sbind m1 k s = sbind m2 k s.
Proof. unfold sbind. by intros ->. Qed.

Lemma sbind_Ok_inv {A B} (m : pym S E A) (k : A -> pym S E B) s b s2 :
  sbind m k s = (Ok b, s2) <-> exists a s1, m s = (Ok a, s1) /\ k a s1 = (Ok b, s2).
Proof.
  unfold sbind. split.
  - destruct (m s) as [[a| |] s1]; [eauto | done..].
  - by intros (a & s1 & -> & ?).
Qed.

Lemma sbind_ret {A B} (a : A) (k : A -> pym S E B) s : sbind (sret a) k s = k a s.
Proof. reflexivity. Qed.

Lemma sbind_get {B} (k : S -> pym S E B) s : sbind sget k s = k s s.
Proof. reflexivity. Qed.

Lemma sbind_modify {B} (f : S -> S) (k : unit -> pym S E B) s :
  sbind (smodify f) k s = k tt (f s).
Proof. reflexivity. Qed.

Lemma sbind_lift_Ok {A B} (r : result E A) (k : A -> pym S E B) s a :
  r = Ok a -> sbind (slift r) k s = k a s.
Proof. by intros ->. Qed.

Lemma sbind_lift_Raise {A B} (r : result E A) (k : A -> pym S E B) s e :
  r = Raise e -> sbind (slift r) k s = (Raise e, s).
Proof. by intros ->. Qed.

Lemma sbind_if_modify {B} (b : bool) (f : S -> S) (k : unit -> pym S E B) s :
  sbind (if b then smodify f else sret tt) k s = k tt (if b then f s else s).
Proof. by destruct b. Qed.

Lemma slift_Ok_inv {A} (r : result E A) (s : S) a s' :
  slift r s = (Ok a, s') -> r = Ok a /\ s' = s.
Proof. unfold slift. by intros [= -> <-]. Qed.

Lemma smodify_Ok_inv (f : S -> S) s (a : unit) s' :
  smodify (E:=E) f s = (Ok a, s') -> s' = f s.
Proof. unfold smodify. by intros [= _ <-]. Qed.

Lemma sget_Ok_inv (s : S) a s' : sget (E:=E) s = (Ok a, s') -> a = s /\ s' = s.
Proof. unfold sget. by intros [= <- <-]. Qed.

Lemma sret_Ok_inv {A} (a a' : A) (s : S) s' :
  sret (E:=E) a s = (Ok a', s') -> a' = a /\ s' = s.
Proof. unfold sret. by intros [= <- <-]. Qed.

Lemma preserves_ret {A} I (a : A) : preserves I (sret (E:=E) a).
Proof. by intros s. Qed.

Lemma preserves_get I : preserves I (sget (E:=E)).
Proof. by intros s. Qed.

Lemma preserves_raise {A} I (e : E) : preserves I (sraise (S:=S) (A:=A) e).
Proof. by intros s. Qed.

Lemma preserves_lift {A} I (r : result E A) : preserves I (slift r).
Proof. by intros s. Qed.

Lemma preserves_modify I (f : S -> S) :
  (forall s, I s -> I (f s)) -> preserves I (smodify (E:=E) f).
Proof. intros Hf s. apply Hf. Qed.

Lemma preserves_bind {A B} I (m : pym S E A) (k : A -> pym S E B) :
  preserves I m -> (forall a, preserves I (k a)) -> preserves I (sbind m k).
Proof.
  intros Hm Hk s Hs. unfold sbind. specialize (Hm s Hs).
  destruct (m s) as [[a| |] s1]; simpl in *; [by apply Hk | done..].
Qed.

Lemma preserves_catch {A} I (m : pym S E A) (h : E -> pym S E A) :
  preserves I m -> (forall e, preserves I (h e)) -> preserves I (scatch m h).
Proof.
  intros Hm Hh s Hs. unfold scatch. specialize (Hm s Hs).
  destruct (m s) as [[a| |] s1]; simpl in *; [done | by apply Hh | done].
Qed.

Lemma preserves_if {A} I (b : bool) (m1 m2 : pym S E A) :
  preserves I m1 -> preserves I m2 -> preserves I (if b then m1 else m2).
Proof. by destruct b. Qed.

Lemma preserves_and {A} I J (m : pym S E A) :
  preserves I m -> preserves J m -> preserves (fun s => I s /\ J s) m.
Proof. intros HI HJ s [? ?]. split; [by apply HI | by apply HJ]. Qed.

(** *** Loops *)

Lemma preserves_foreach {A} I (l : list A) (f : A -> pym S E unit) :
  (forall a, a ∈ l -> preserves I (f a)) -> preserves I (sforeach l f).
Proof.
  induction l as [|a l IH]; intros Hf; [apply preserves_ret|].
  apply preserves_bind; [apply Hf; by left|].
  intros _. apply IH. intros b Hb. apply Hf. by right.
Qed.

(** A loop whose body, from the states of [I], returns and acts as the
    update [g] runs to its end and folds [g] over the list. *)
Lemma sforeach_Ok {A} I (l : list A) (f : A -> pym S E unit) (g : A -> S -> S) s :
  I s ->
  (forall a s', a ∈ l -> I s' -> f a s' = (Ok tt, g a s') /\ I (g a s')) ->
  sforeach l f s = (Ok tt, foldl (fun s a => g a s) s l) /\
  I (foldl (fun s a => g a s) s l).
Proof.
  revert s. induction l as [|a l IH]; intros s Hs Hf; [done|].
  destruct (Hf a s) as [Ha Hs']; [by left|done|].
  cbn [sforeach foldl]. rewrite (sbind_Ok _ _ _ _ _ Ha).
  apply IH; [done|]. intros b s' Hb. apply Hf. by right.
Qed.

(** A loop whose body raises at [a] after the elements of [l1] ran stops
    there: the elements after [a] are not visited. *)
Lemma sforeach_Raise {A} (l1 l2 : list A) (f : A -> pym S E unit) a s s1 e s2 :
  sforeach l1 f s = (Ok tt, s1) -> f a s1 = (Raise e, s2) ->
  sforeach (l1 ++ a :: l2) f s = (Raise e, s2).
Proof.
  revert s. induction l1 as [|b l1 IH]; intros s.
  - intros [= <-] Ha. cbn. by rewrite (sbind_Raise _ _ _ _ _ Ha).
  - cbn [sforeach app]. intros H Ha.
    apply sbind_Ok_inv in H as ([] & s' & Hb & H).
    rewrite (sbind_Ok _ _ _ _ _ Hb). by apply IH.
Qed.

(** *** Triples *)

Lemma triple_conseq {A} (P P' : S -> Prop) (m : pym S E A)
    (Q Q' : A -> S -> Prop) (R R' : S -> Prop) :
  triple P' m Q' R' -> (forall s, P s -> P' s) ->
  (forall a s, Q' a s -> Q a s) -> (forall s, R' s -> R s) -> triple P m Q R.
Proof.
  intros Hm HP HQ HR s Hs. specialize (Hm s (HP s Hs)).
  destruct (m s) as [[a| |] s']; auto.
Qed.

Lemma triple_ret {A} (P : S -> Prop) (a : A) (Q : A -> S -> Prop) R :
  (forall s, P s -> Q a s) -> triple P (sret (E:=E) a) Q R.
Proof. intros H s Hs. by apply H. Qed.

Lemma triple_get (P : S -> Prop) (Q : S -> S -> Prop) R :
  (forall s, P s -> Q s s) -> triple P (sget (E:=E)) Q R.
Proof. intros H s Hs. by apply H. Qed.

Lemma triple_modify (P : S -> Prop) (f : S -> S) (Q : unit -> S -> Prop) R :
  (forall s, P s -> Q tt (f s)) -> triple P (smodify (E:=E) f) Q R.
Proof. intros H s Hs. by apply H. Qed.

Lemma triple_raise {A} (P : S -> Prop) (e : E) (Q : A -> S -> Prop) (R : S -> Prop) :
  (forall s, P s -> R s) -> triple P (sraise e) Q R.
Proof. intros H s Hs. by apply H. Qed.

Lemma triple_lift {A} (P : S -> Prop) (r : result E A) (Q : A -> S -> Prop) (R : S -> Prop) :
  (forall s, P s -> match r with Ok a => Q a s | _ => R s end) ->
  triple P (slift r) Q R.
Proof. intros H s Hs. specialize (H s Hs). unfold slift. by destruct r. Qed.

Lemma triple_bind {A B} (P : S -> Prop) (m : pym S E A) (k : A -> pym S E B)
    (Q1 : A -> S -> Prop) (Q : B -> S -> Prop) (R : S -> Prop) :
  triple P m Q1 R -> (forall a, triple (Q1 a) (k a) Q R) -> triple P (sbind m k) Q R.
Proof.
  intros Hm Hk s Hs. specialize (Hm s Hs). unfold sbind.
  destruct (m s) as [[a| |] s']; [by apply Hk | done..].
Qed.

(** Sequencing when the statement keeps the assertion of its start. *)
Lemma triple_bind_same {A B} (I : S -> Prop) (m : pym S E A) (k : A -> pym S E B)
    (Q : B -> S -> Prop) (R : S -> Prop) :
  preserves I m -> (forall s, I s -> R s) -> (forall a, triple I (k a) Q R) ->
  triple I (sbind m k) Q R.
Proof.
  intros Hm HR Hk. apply triple_bind with (Q1 := fun _ => I); [|done].
  intros s Hs. specialize (Hm s Hs). destruct (m s) as [[a| |] s']; auto.
Qed.

Lemma triple_catch {A} (P : S -> Prop) (m : pym S E A) (h : E -> pym S E A)
    (Q : A -> S -> Prop) (R1 R : S -> Prop) :
  triple P m Q R1 -> (forall e, triple R1 (h e) Q R) -> (forall s, R1 s -> R s) ->
  triple P (scatch m h) Q R.
Proof.
  intros Hm Hh HR s Hs. specialize (Hm s Hs). unfold scatch.
  destruct (m s) as [[a| |] s']; [done | by apply Hh | by apply HR].
Qed.

Lemma triple_if {A} (P : S -> Prop) (b : bool) (m1 m2 : pym S E A) Q R :
  (b = true -> triple P m1 Q R) -> (b = false -> triple P m2 Q R) ->
  triple P (if b then m1 else m2) Q R.
Proof. destruct b; auto. Qed.

(** An invariant of every outcome is a triple with one assertion. *)
Lemma preserves_triple {A} I (m : pym S E A) :
  preserves I m <-> triple I m (fun _ => I) I.
Proof.
  unfold preserves, triple. split; intros H s Hs; specialize (H s Hs);
    by destruct (m s) as [[a| |] s'].
Qed.

Lemma triple_run {A} (P : S -> Prop) (m : pym S E A) Q R s :
  triple P m Q R -> P s ->
  (forall a, (m s).1 = Ok a -> Q a (m s).2) /\
  ((forall a, (m s).1 <> Ok a) -> R (m s).2).
Proof.
  intros Hm Hs. specialize (Hm s Hs). destruct (m s) as [[a| |] s']; simpl.
  - split; [by intros ? [= <-] | intros H; by destruct (H a)].
  - split; [done | auto].
  - split; [done | auto].
Qed.

End Pym.

#[export] Hint Resolve preserves_ret preserves_get preserves_raise
  preserves_lift preserves_bind preserves_catch preserves_if : pafy.

(** Execute the first statement of a method applied to a state, when it
    is an assignment, a read of the state, or an expression whose outcome
    is known from the context. *)
Ltac pym_step :=
  first [ rewrite sbind_get | rewrite sbind_ret | rewrite sbind_modify
        | rewrite sbind_if_modify
        | erewrite sbind_lift_Ok by eauto with pafy
        | erewrite sbind_lift_Raise by eauto with pafy
        | erewrite sbind_Ok by eauto with pafy
        | erewrite sbind_Raise by eauto with pafy ].

(** Invert a successful run of a sequence of statements in [H] down to
    the primitive statements, substituting the intermediate states. *)
Ltac pym_inv_prim :=
  repeat match goal with
  | H : sget _ = (Ok _, _) |- _ => apply sget_Ok_inv in H as [-> ->]
  | H : sret _ _ = (Ok _, _) |- _ => apply sret_Ok_inv in H as [-> ->]
  | H : smodify _ _ = (Ok _, _) |- _ => apply smodify_Ok_inv in H as ->
  | H : slift _ _ = (Ok _, _) |- _ => apply slift_Ok_inv in H as [H ->]
  | H : sbind _ _ _ = (Ok _, _) |- _ =>
      apply sbind_Ok_inv in H as (? & ? & ? & H)
  end.

(** Decompose a [triple] goal whose assertions are one invariant kept by
    every statement. *)
Ltac triple_step :=
  first [ apply triple_ret; intros ? ? | apply triple_get; intros ? ?
        | apply triple_raise; intros ? ? | apply triple_modify; intros ? ?
        | apply triple_lift; intros ? ?
        | eapply triple_bind; [|intros ?]
        | eapply triple_catch; [|intros ?|intros ? ?] ].

(** Decompose a [preserves] goal along the structure of the method. *)
Ltac preserves_step :=
  first [ apply preserves_ret | apply preserves_get | apply preserves_raise
        | apply preserves_lift | apply preserves_if
        | apply preserves_bind; [|intros ?] | apply preserves_catch; [|intros ?]
        | apply preserves_modify; intros ? ? ].
