(* ===== verification/PyValue.v ===== *)
(** * Python values and the built-in operations the backend uses

    The info dicts of the extraction backend are JSON-like Python values.
    [pyval] has the seven shapes the source can meet, [pyexn] the
    exceptions its expressions raise, and each operation below is one
    Python expression form of src/pafy/backend_youtube_dl.py with its
    behaviour on every shape of value: the result on the intended type, the
    exception Python raises on the others, and [Undef] in the corners the
    model leaves out ([str()] of a float or a container, iteration over a
    dict).  A float is the rational it stands for: arithmetic on floats is
    exact in the model, rounding is not modelled. *)

From Stdlib Require Import ZArith QArith Qcanon Lia Ascii DecimalString DecimalPos DecimalZ.
From stdpp Require Import base tactics option list numbers strings gmap.
From S2P Require Import Prelude.

(** ** Values and exceptions *)

#[warnings="-register-all"] Inductive pyval : Type :=
| VNone
| VBool (b : bool)
| VInt (z : Z)
| VFloat (q : Qc)
| VStr (s : string)
| VList (l : list pyval)
| VDict (d : gmap string pyval).

Inductive pyexn : Type :=
| KeyError (k : pyval)
| IndexError
| TypeError
| AttributeError
| ZeroDivisionError
| IOError (msg : string)
| FileNotFoundError (path : string)
| IsADirectoryError (path : string)
| DownloadError (msg : string)
| NameError (name : string)
| ModuleNotFoundError (name : string)
| ImportError (name : string)
| SyntaxError.

#[warnings="-notation-for-abbreviation"] Notation res := (result pyexn).

(** ** Strings *)

(** [str(z)] for an int. *)
Definition str_of_Z (z : Z) : string := NilZero.string_of_int (Z.to_int z).

(** The inverse reading of a decimal numeral, used to state round trips. *)
Definition Z_of_str (s : string) : option Z :=
  Z.of_int <$> NilZero.int_of_string s.

Fixpoint str_repeat (n : nat) (s : string) : string :=
  match n with
  | O => EmptyString
  | S n' => s +:+ str_repeat n' s
  end.

Fixpoint str_chars (s : string) : list string :=
  match s with
  | EmptyString => []
  | String c s' => String c EmptyString :: str_chars s'
  end.

(** The scan of [s.replace(old, new)] for a non-empty [old]: [skip]
    characters of a match just replaced are still to be dropped. *)
Fixpoint str_replace_aux (old new : string) (skip : nat) (s : string) : string :=
  match s with
  | EmptyString => EmptyString
  | String c s' =>
      match skip with
      | S k => str_replace_aux old new k s'
      | O =>
          if String.prefix old s
          then new +:+ str_replace_aux old new (String.length old - 1) s'
          else String c (str_replace_aux old new 0 s')
      end
  end.

(** [s.replace(old, new)]: every non-overlapping occurrence, left to
    right; an empty [old] matches before every character and at the end. *)
Definition str_replace (old new s : string) : string :=
  match old with
  | EmptyString =>
      new +:+ String.concat EmptyString (map (fun c => c +:+ new) (str_chars s))
  | _ => str_replace_aux old new 0 s
  end.

(** [old] occurs in [s] at some position. *)
Fixpoint str_occurs (old s : string) : bool :=
  String.prefix old s ||
  match s with
  | EmptyString => false
  | String _ s' => str_occurs old s'
  end.

(** ** Operations on values *)

(** [bool(v)]. *)
Definition py_truthy (v : pyval) : bool :=
  match v with
  | VNone => false
  | VBool b => b
  | VInt z => negb (Z.eqb z 0)
  | VFloat q => negb (bool_decide (q = 0%Qc))
  | VStr s => negb (String.eqb s EmptyString)
  | VList l => negb (Nat.eqb (length l) 0)
  | VDict d => negb (Nat.eqb (size d) 0)
  end.

(** [a or b]. *)
Definition py_or (a b : pyval) : pyval := if py_truthy a then a else b.

(** [v == "lit"] for a string literal: only an equal string is equal. *)
Definition py_eq_str (v : pyval) (lit : string) : bool :=
  match v with
  | VStr s => String.eqb s lit
  | _ => false
  end.

(** [v["key"]]. *)
Definition py_getitem (v : pyval) (k : string) : res pyval :=
  match v with
  | VDict d => of_option (KeyError (VStr k)) (d !! k)
  | _ => Raise TypeError
  end.

(** [v[i]] for a literal index [i >= 0]. *)
Definition py_getitem_int (v : pyval) (i : nat) : res pyval :=
  match v with
  | VList l => of_option IndexError (l !! i)
  | VStr s => of_option IndexError (str_chars s !! i ≫= fun c => Some (VStr c))
  | VDict _ => Raise (KeyError (VInt (Z.of_nat i)))
  | _ => Raise TypeError
  end.

(** [d.get("key", default)] on a dict. *)
Definition dict_get (d : gmap string pyval) (k : string) (default : pyval) : pyval :=
  match d !! k with
  | Some v => v
  | None => default
  end.

(** [v.get("key", default)]: only a dict has the method. *)
Definition py_get (v : pyval) (k : string) (default : pyval) : res pyval :=
  match v with
  | VDict d => Ok (dict_get d k default)
  | _ => Raise AttributeError
  end.

(** ["key" in d and d["key"] is not None]. *)
Definition dict_has_value (d : gmap string pyval) (k : string) : bool :=
  match d !! k with
  | Some VNone | None => false
  | Some _ => true
  end.

(** [v * n] for an int literal [n]: arithmetic on numbers, repetition on
    sequences, [TypeError] on None and dicts. *)
Definition py_mul_int (v : pyval) (n : Z) : res pyval :=
  match v with
  | VInt z => Ok (VInt (z * n))
  | VBool b => Ok (VInt (Z.b2z b * n))
  | VFloat q => Ok (VFloat (q * Qc_of_Z n))
  | VStr s => Ok (VStr (str_repeat (Z.to_nat n) s))
  | VList l => Ok (VList (concat (replicate (Z.to_nat n) l)))
  | VNone | VDict _ => Raise TypeError
  end.

(** [str(v)]. *)
Definition py_str (v : pyval) : res string :=
  match v with
  | VNone => Ok "None"
  | VBool true => Ok "True"
  | VBool false => Ok "False"
  | VInt z => Ok (str_of_Z z)
  | VStr s => Ok s
  | VFloat _ | VList _ | VDict _ => Undef
  end.

(** [v.startswith("lit")]: only a string has the method. *)
Definition py_startswith (v : pyval) (lit : string) : res bool :=
  match v with
  | VStr s => Ok (String.prefix lit s)
  | _ => Raise AttributeError
  end.

(** The elements [for z in v] visits. *)
Definition py_iter (v : pyval) : res (list pyval) :=
  match v with
  | VList l => Ok l
  | VStr s => Ok (VStr <$> str_chars s)
  | VDict _ => Undef
  | VNone | VBool _ | VInt _ | VFloat _ => Raise TypeError
  end.

(** [v is None]. *)
Definition py_is_none (v : pyval) : bool :=
  match v with VNone => true | _ => false end.

(** The number a value is in arithmetic; a bool counts as 0 or 1. *)
Definition py_num (v : pyval) : option Qc :=
  match v with
  | VInt z => Some (Qc_of_Z z)
  | VBool b => Some (Qc_of_Z (Z.b2z b))
  | VFloat q => Some q
  | _ => None
  end.

(** [v * f] for a float literal [f]: a float on numbers, [TypeError] on
    everything else (a sequence is repeated by ints only). *)
Definition py_mul_float (v : pyval) (f : Qc) : res pyval :=
  match py_num v with
  | Some q => Ok (VFloat (q * f))
  | None => Raise TypeError
  end.

(** [a / b], true division: a float on numbers, [ZeroDivisionError] on a
    zero divisor, [TypeError] when an operand is no number. *)
Definition py_truediv (a b : pyval) : res pyval :=
  match py_num a, py_num b with
  | Some x, Some y =>
      if decide (y = 0%Qc) then Raise ZeroDivisionError else Ok (VFloat (x / y))
  | _, _ => Raise TypeError
  end.

(** A value whose [str()] the model defines: None, a bool, an int or a
    string. *)
Definition is_scalar (v : pyval) : bool :=
  match v with
  | VFloat _ | VList _ | VDict _ => false
  | _ => true
  end.

Definition is_int (v : pyval) : bool :=
  match v with VInt _ => true | _ => false end.

(** ** Lemmas on strings *)

(** Printing an int and reading it back gives the int. *)
Lemma str_of_Z_roundtrip (z : Z) : Z_of_str (str_of_Z z) = Some z.
Proof.
  unfold Z_of_str, str_of_Z.
  rewrite NilZero.isi.
  - simpl. by rewrite DecimalZ.of_to.
  - destruct z; simpl; [done| |done].
    intros [= H]. by apply Unsigned.to_uint_nonnil in H.
  - destruct z; simpl; [done|done|].
    intros [= H]. by apply Unsigned.to_uint_nonnil in H.
Qed.

Lemma str_of_Z_inj (z1 z2 : Z) : str_of_Z z1 = str_of_Z z2 -> z1 = z2.
Proof.
  intros H. apply (f_equal Z_of_str) in H.
  rewrite !str_of_Z_roundtrip in H. by injection H.
Qed.

Lemma str_occurs_cons old c s :
  str_occurs old (String c s) = String.prefix old (String c s) || str_occurs old s.
Proof. reflexivity. Qed.

(** A string without an occurrence of [old] is left as it is. *)
Lemma str_replace_aux_absent old new s :
  str_occurs old s = false -> str_replace_aux old new 0 s = s.
Proof.
  induction s as [|c s IH]; [done|].
  rewrite str_occurs_cons. intros [Hp Hs]%orb_false_elim.
  cbn [str_replace_aux]. rewrite Hp. by rewrite IH.
Qed.

Lemma str_replace_absent old new s :
  str_occurs old s = false -> str_replace old new s = s.
Proof.
  destruct old as [|c old]; [by destruct s|].
  apply str_replace_aux_absent.
Qed.

(** Replacing by a string of the same length keeps the length: after a
    match, [skip] characters of the text are dropped. *)
Lemma str_replace_aux_length old new s skip :
  String.length new = String.length old -> 0 < String.length old ->
  String.length (str_replace_aux old new skip s) = String.length s - skip.
Proof.
  intros Hlen Hpos. revert skip. induction s as [|c s IH]; intros skip; [done|].
  cbn [str_replace_aux]. destruct skip as [|k]; [|by rewrite IH].
  destruct (String.prefix old (String c s)) eqn:Hp.
  - apply str_prefix_length in Hp; simpl in Hp.
    rewrite str_length_app, IH; simpl. lia.
  - simpl. rewrite IH. lia.
Qed.

Lemma str_replace_length old new s :
  String.length new = String.length old -> 0 < String.length old ->
  String.length (str_replace old new s) = String.length s.
Proof.
  intros Hlen Hpos. destruct old as [|c old]; [simpl in Hpos; lia|].
  unfold str_replace. rewrite str_replace_aux_length by done. lia.
Qed.

(** ** Lemmas on values *)

Lemma py_eq_str_spec v lit : py_eq_str v lit = true <-> v = VStr lit.
Proof.
  destruct v; simpl; try (split; [done | by intros [=]]).
  rewrite String.eqb_eq. split; [by intros -> | by intros [= ->]].
Qed.

Lemma py_eq_str_refl lit : py_eq_str (VStr lit) lit = true.
Proof. by apply py_eq_str_spec. Qed.

Lemma py_eq_str_false v lit : py_eq_str v lit = false <-> v <> VStr lit.
Proof. rewrite <-py_eq_str_spec. by destruct (py_eq_str v lit). Qed.

Lemma py_or_truthy a b : py_truthy a = true -> py_or a b = a.
Proof. unfold py_or. by intros ->. Qed.

Lemma py_or_falsy a b : py_truthy a = false -> py_or a b = b.
Proof. unfold py_or. by intros ->. Qed.

(** [str()] is defined exactly on the scalar values. *)
Lemma py_str_scalar v : is_scalar v = true <-> exists s, py_str v = Ok s.
Proof.
  destruct v as [|[]| | | | |]; simpl; split; eauto; try done; by intros [? ?].
Qed.

Lemma py_str_not_Raise v e : py_str v <> Raise e.
Proof. by destruct v as [|[]| | | | |]. Qed.

Lemma py_or_int_scalar v z : is_scalar v = true -> is_scalar (py_or v (VInt z)) = true.
Proof. unfold py_or. by destruct (py_truthy v). Qed.

Lemma dict_get_Some (d : gmap string pyval) k v default :
  d !! k = Some v -> dict_get d k default = v.
Proof. unfold dict_get. by intros ->. Qed.

Lemma dict_get_None (d : gmap string pyval) k default :
  d !! k = None -> dict_get d k default = default.
Proof. unfold dict_get. by intros ->. Qed.

Lemma py_getitem_Ok (d : gmap string pyval) k v :
  py_getitem (VDict d) k = Ok v <-> d !! k = Some v.
Proof. simpl. destruct (d !! k); simpl; split; congruence. Qed.

Lemma py_getitem_KeyError (d : gmap string pyval) k :
  d !! k = None -> py_getitem (VDict d) k = Raise (KeyError (VStr k)).
Proof. simpl. by intros ->. Qed.

Lemma py_getitem_defined v k : py_getitem v k <> Undef.
Proof. destruct v; try done. simpl. by destruct (d !! k). Qed.

Lemma dict_has_value_spec (d : gmap string pyval) k :
  dict_has_value d k = true <-> exists v, d !! k = Some v /\ v <> VNone.
Proof.
  unfold dict_has_value. destruct (d !! k) as [[]|]; split; try done; eauto;
    intros (? & [= <-] & ?); done.
Qed.

#[export] Hint Rewrite str_of_Z_roundtrip : pafy_rw.
#[export] Hint Resolve py_or_int_scalar : pafy.
