(* ===== verification/Setup.v ===== *)
(** * Module set-up: what importing the backend binds

    Lines 1-27 of src/pafy/backend_youtube_dl.py and the three class
    statements (lines 30, 107 and 211).  Importing the module runs its
    top-level statements in order against an interpreter: the imports of
    the standard library, the choice of [uni] by the interpreter's
    version, the import of the extraction library with its fallback
    ([yt_dlp], else [youtube_dl] under the name [yt_dlp], else nothing),
    the imports from the package, [dbg], [early_py_version] and the
    classes.  The state is the module's namespace, a map from global
    names to what they are bound to.

    The interpreter is a parameter: its version, which modules it finds,
    and which members they have.  The file does not compile on an
    interpreter older than 3.8 (the assignment expression of line 34), so
    [load_module] raises [SyntaxError] there before any statement runs.

    The theorems give the namespace of a successful import, show that the
    two version tests are decided by the syntax the file uses, state the
    fallback rule of the extraction library, and the exceptions of a
    missing dependency. *)

From Stdlib Require Import ZArith Lia.
From stdpp Require Import base tactics option list strings gmap lexico.
From S2P Require Import Prelude PyValue.

Local Open Scope Z_scope.

(** ** The interpreter and the namespace *)

(** What a global name is bound to: a module, a member of a module, a
    built-in, a bool, or a class with its base. *)
Inductive binding : Type :=
| BModule (m : string)
| BMember (m name : string)
| BBuiltin (name : string)
| BBool (b : bool)
| BClass (name : string) (base : binding).

#[export] Instance binding_eq_dec : EqDecision binding.
Proof. solve_decision. Defined.

#[warnings="-notation-for-abbreviation"] Notation namespace := (gmap string binding).

(** The interpreter that imports the module: [sys.version_info[:2]], the
    outcome of finding and running a module, and the members a module
    has. *)
Record interpreter : Type := mkInterpreter {
  version_info : Z * Z;
  find_module : string -> res unit;
  has_member : string -> string -> bool
}.

#[warnings="-notation-for-abbreviation"] Notation loader := (pym namespace pyexn).

(** ** Comparison of version tuples *)

(** [a < b] and [a >= b] on pairs of ints: Python compares tuples
    lexicographically. *)
Definition version_ltb (a b : Z * Z) : bool :=
  (a.1 <? b.1) || ((a.1 =? b.1) && (a.2 <? b.2)).

Definition version_geb (a b : Z * Z) : bool := negb (version_ltb a b).

(** The oldest interpreter that compiles the file: line 34 is an
    assignment expression. *)
Definition min_version : Z * Z := (3, 8).

(** The built-in names the module evaluates, by version. *)
Definition is_builtin (v : Z * Z) (x : string) : bool :=
  if String.eqb x "unicode" then version_ltb v (3, 0)
  else if String.eqb x "ModuleNotFoundError" then version_geb v (3, 6)
  else String.eqb x "str" || String.eqb x "object".

Section Load.
Variable py : interpreter.

(** ** Statements *)

(** [x = b] at top level. *)
Definition bind_name (x : string) (b : binding) : loader unit :=
  smodify <[x := b]>.

(** A name is looked up in the globals, then in the built-ins. *)
Definition eval_name (x : string) : loader binding :=
  (ns <- sget ;;
   match ns !! x with
   | Some b => sret b
   | None => if is_builtin (version_info py) x then sret (BBuiltin x)
             else sraise (NameError x)
   end)%pym.

(** [x.attr] for a module [x]. *)
Definition eval_attr (x attr : string) : loader binding :=
  (b <- eval_name x ;;
   match b with
   | BModule m => if has_member py m attr then sret (BMember m attr)
                  else sraise AttributeError
   | _ => slift Undef
   end)%pym.

(** [import m as x]; [import m] is [import m as m]. *)
Definition import_as (m x : string) : loader unit :=
  (slift (find_module py m) ;; bind_name x (BModule m))%pym.

(** [from m import n1, ..., nk]: the names are bound one by one. *)
Definition from_import (m : string) (names : list string) : loader unit :=
  (slift (find_module py m) ;;
   sforeach names (fun n =>
     if has_member py m n then bind_name n (BMember m n)
     else sraise (ImportError n)))%pym.

(** [try: body except ModuleNotFoundError: handler]: the class is looked
    up when an exception arrives, and other exceptions pass. *)
Definition except_ModuleNotFoundError (body handler : loader unit) : loader unit :=
  scatch body (fun e =>
    cls <- eval_name "ModuleNotFoundError" ;;
    match cls, e with
    | BBuiltin _, ModuleNotFoundError _ => handler
    | BBuiltin _, _ => sraise e
    | _, _ => slift Undef
    end)%pym.

(** [class name(base): ...] *)
Definition class_stmt (name : string) (base : string) : loader unit :=
  (b <- eval_name base ;; bind_name name (BClass name b))%pym.

(** [sys.version_info[:2]] *)
Definition sys_version : loader (Z * Z) :=
  (eval_attr "sys" "version_info" ;; sret (version_info py))%pym.

(** ** The module body *)

(** Lines 1-4. *)
Definition stdlib_imports : loader unit :=
  (import_as "logging" "logging" ;; import_as "os" "os" ;;
   import_as "sys" "sys" ;; import_as "time" "time")%pym.

(** Line 6. *)
Definition bind_uni : loader unit :=
  (v <- sys_version ;;
   t <- eval_name (if version_geb v (3, 0) then "str" else "unicode") ;;
   bind_name "uni" t)%pym.

(** Lines 7-13. *)
Definition import_backend : loader unit :=
  except_ModuleNotFoundError (import_as "yt_dlp" "yt_dlp")
    (except_ModuleNotFoundError (import_as "youtube_dl" "yt_dlp") (sret tt)).

(** Lines 15-22. *)
Definition package_imports : loader unit :=
  (from_import "." ["g"] ;;
   from_import ".backend_shared"
     ["BasePafy"; "BaseStream"; "get_size_done"; "get_status_string"; "remux"])%pym.

(** Line 24. *)
Definition bind_dbg : loader unit :=
  (d <- eval_attr "logging" "debug" ;; bind_name "dbg" d)%pym.

(** Line 27. *)
Definition bind_early_py_version : loader unit :=
  (v <- sys_version ;; bind_name "early_py_version" (BBool (version_ltb v (2, 7))))%pym.

(** Lines 30, 107 and 211. *)
Definition class_statements : loader unit :=
  (class_stmt "YtdlPafy" "BasePafy" ;; class_stmt "YtdlStream" "BaseStream" ;;
   class_stmt "ydl" "object")%pym.

Definition module_body : loader unit :=
  (stdlib_imports ;; bind_uni ;; import_backend ;; package_imports ;;
   bind_dbg ;; bind_early_py_version ;; class_statements)%pym.

(** Importing the module: the file is compiled, then its body runs in an
    empty namespace; the namespace exists only when the body returns. *)
Definition load_module : res namespace :=
  if version_ltb (version_info py) min_version then Raise SyntaxError
  else match module_body ∅ with
       | (Ok _, ns) => Ok ns
       | (Raise e, _) => Raise e
       | (Undef, _) => Undef
       end.

(** [exec m ns] is the namespace a run of [m] leaves when it returns. *)
Definition exec (m : loader unit) (ns : namespace) : res namespace :=
  match m ns with
  | (Ok _, ns') => Ok ns'
  | (Raise e, _) => Raise e
  | (Undef, _) => Undef
  end.

(** ** The reference definition *)

(** What the import needs of the interpreter, in the order in which it
    asks: a module that is found, a member that exists. *)
Definition need_module (m : string) : res unit := find_module py m.

Definition need_member (m n : string) (e : pyexn) : res unit :=
  if has_member py m n then Ok tt else Raise e.

Definition requires (l : list (res unit)) : res unit :=
  foldr (fun r k => rbind r (fun _ => k)) (Ok tt) l.

(** The extraction library: [yt_dlp], else [youtube_dl], else none; only
    a module that is not found falls through. *)
Definition backend_choice : res (option string) :=
  match find_module py "yt_dlp" with
  | Ok _ => Ok (Some "yt_dlp")
  | Raise (ModuleNotFoundError _) =>
      match find_module py "youtube_dl" with
      | Ok _ => Ok (Some "youtube_dl")
      | Raise (ModuleNotFoundError _) => Ok None
      | Raise e => Raise e
      | Undef => Undef
      end
  | Raise e => Raise e
  | Undef => Undef
  end.

Definition bind_backend (b : option string) (ns : namespace) : namespace :=
  match b with
  | Some m => <["yt_dlp" := BModule m]> ns
  | None => ns
  end.

Definition stdlib_names (ns : namespace) : namespace :=
  <["time" := BModule "time"]> (<["sys" := BModule "sys"]>
    (<["os" := BModule "os"]> (<["logging" := BModule "logging"]> ns))).

Definition package_names (ns : namespace) : namespace :=
  <["remux" := BMember ".backend_shared" "remux"]>
    (<["get_status_string" := BMember ".backend_shared" "get_status_string"]>
    (<["get_size_done" := BMember ".backend_shared" "get_size_done"]>
    (<["BaseStream" := BMember ".backend_shared" "BaseStream"]>
    (<["BasePafy" := BMember ".backend_shared" "BasePafy"]>
    (<["g" := BMember "." "g"]> ns))))).

Definition class_names (ns : namespace) : namespace :=
  <["ydl" := BClass "ydl" (BBuiltin "object")]>
    (<["YtdlStream" := BClass "YtdlStream" (BMember ".backend_shared" "BaseStream")]>
    (<["YtdlPafy" := BClass "YtdlPafy" (BMember ".backend_shared" "BasePafy")]> ns)).

(** The namespace of the imported module, given the extraction library
    that was found. *)
Definition module_namespace (b : option string) : namespace :=
  class_names
    (<["early_py_version" := BBool false]>
    (<["dbg" := BMember "logging" "debug"]>
    (package_names (bind_backend b (<["uni" := BBuiltin "str"]> (stdlib_names ∅)))))).

(** The import as a list of requirements: the first one that fails gives
    the exception, and when all hold the namespace is
    [module_namespace]. *)
Definition load_spec : res namespace :=
  if version_ltb (version_info py) min_version then Raise SyntaxError else
  (_ <- requires [need_module "logging"; need_module "os"; need_module "sys";
             need_module "time"; need_member "sys" "version_info" AttributeError] ;;
   b <- backend_choice ;;
   _ <- requires [need_module "."; need_member "." "g" (ImportError "g");
             need_module ".backend_shared";
             need_member ".backend_shared" "BasePafy" (ImportError "BasePafy");
             need_member ".backend_shared" "BaseStream" (ImportError "BaseStream");
             need_member ".backend_shared" "get_size_done" (ImportError "get_size_done");
             need_member ".backend_shared" "get_status_string"
               (ImportError "get_status_string");
             need_member ".backend_shared" "remux" (ImportError "remux");
             need_member "logging" "debug" AttributeError] ;;
   Ok (module_namespace b))%res.

(** The value of a global name when a method runs: [NameError] when the
    module never bound it. *)
Definition global_name (ns : namespace) (x : string) : res binding :=
  match ns !! x with
  | Some b => Ok b
  | None => Raise (NameError x)
  end.

End Load.

(** The module that the name [yt_dlp] stands for after the import. *)
Definition backend_of (py : interpreter) : option string :=
  match find_module py "yt_dlp" with
  | Ok _ => Some "yt_dlp"
  | _ => match find_module py "youtube_dl" with
         | Ok _ => Some "youtube_dl"
         | _ => None
         end
  end.

(** ** Version tuples *)

Lemma version_ltb_spec a b :
  version_ltb a b = true <-> a.1 < b.1 \/ (a.1 = b.1 /\ a.2 < b.2).
Proof.
  unfold version_ltb. by rewrite orb_true_iff, andb_true_iff, !Z.ltb_lt, Z.eqb_eq.
Qed.

(** The comparison is the lexicographic order on pairs. *)
Lemma version_ltb_lexico a b : version_ltb a b = true <-> lexico a b.
Proof. apply version_ltb_spec. Qed.

Lemma version_geb_spec a b :
  version_geb a b = true <-> b.1 < a.1 \/ (a.1 = b.1 /\ b.2 <= a.2).
Proof.
  unfold version_geb. rewrite negb_true_iff, <-not_true_iff_false, version_ltb_spec. lia.
Qed.

Lemma version_geb_trans a b c :
  version_geb a b = true -> version_geb b c = true -> version_geb a c = true.
Proof. rewrite !version_geb_spec. lia. Qed.

(** An interpreter that compiles the file decides the version tests of
    lines 6 and 27 and knows [ModuleNotFoundError]. *)
Lemma version_since_min v :
  version_ltb v min_version = false ->
  version_geb v (3, 0) = true /\ version_geb v (3, 6) = true /\
  version_ltb v (2, 7) = false.
Proof.
  intros H. assert (version_geb v min_version = true) as Hv
    by (unfold version_geb; by rewrite H).
  split; [|split]; [| |apply negb_true_iff];
    by apply (version_geb_trans _ _ _ Hv).
Qed.

(** ** Tactics *)

Lemma bind_backend_lookup b ns x :
  "yt_dlp" <> x -> bind_backend b ns !! x = ns !! x.
Proof. intros H. destruct b; [by apply lookup_insert_ne | done]. Qed.

(** Looks a name up in a namespace built by the statements. *)
Ltac ns_lookup :=
  unfold module_namespace, class_names, package_names, stdlib_names;
  repeat first [ rewrite lookup_insert_ne by discriminate
               | rewrite bind_backend_lookup by discriminate ];
  first [ apply lookup_insert_eq | apply lookup_empty ].

(** Destructs the outcome of the requirement at the head of the goal and
    closes the cases in which it does not hold. *)
Ltac need_step :=
  unfold need_module, need_member;
  match goal with
  | |- context [find_module ?py ?m] =>
      destruct (find_module py m) as [[]| |]; [|reflexivity..]
  | H : has_member ?py ?m ?n = true |- context [has_member ?py ?m ?n] =>
      rewrite H
  | |- context [has_member ?py ?m ?n] =>
      destruct (has_member py m n) eqn:?; [|reflexivity]
  end; cbn [rbind rmap].

(** ** Runs of the statements *)

Section LoadFacts.
Variable py : interpreter.
Implicit Types (ns : namespace) (m x : string).

Lemma exec_bind (m1 m2 : loader unit) ns :
  exec (m1 ;; m2)%pym ns = (ns' <- exec m1 ns ;; exec m2 ns')%res.
Proof. unfold exec, sbind. by destruct (m1 ns) as [[[]| |] ns']. Qed.

Lemma load_module_exec :
  load_module py =
  if version_ltb (version_info py) min_version then Raise SyntaxError
  else exec (module_body py) ∅.
Proof. reflexivity. Qed.

Lemma exec_import_as m x ns :
  exec (import_as py m x) ns =
  (_ <- need_module py m ;; Ok (<[x := BModule m]> ns))%res.
Proof.
  unfold exec, import_as, need_module, sbind, slift.
  by destruct (find_module py m) as [[]| |].
Qed.

Lemma exec_bind_name x b ns : exec (bind_name x b) ns = Ok (<[x := b]> ns).
Proof. reflexivity. Qed.

Lemma eval_name_global x b ns : ns !! x = Some b -> eval_name py x ns = (Ok b, ns).
Proof. intros H. unfold eval_name. by rewrite sbind_get, H. Qed.

Lemma eval_name_builtin x ns :
  ns !! x = None -> is_builtin (version_info py) x = true ->
  eval_name py x ns = (Ok (BBuiltin x), ns).
Proof. intros H Hb. unfold eval_name. by rewrite sbind_get, H, Hb. Qed.

Lemma eval_attr_module x m attr ns :
  ns !! x = Some (BModule m) ->
  eval_attr py x attr ns =
  (rmap (fun _ => BMember m attr) (need_member py m attr AttributeError), ns).
Proof.
  intros H. unfold eval_attr. rewrite (sbind_Ok _ _ _ _ _ (eval_name_global _ _ _ H)).
  unfold need_member. by destruct (has_member py m attr).
Qed.

Lemma sys_version_run ns :
  ns !! "sys" = Some (BModule "sys") ->
  sys_version py ns =
  (rmap (fun _ => version_info py) (need_member py "sys" "version_info" AttributeError),
   ns).
Proof.
  intros H. unfold sys_version, sbind. rewrite (eval_attr_module _ _ _ _ H).
  unfold need_member. by destruct (has_member py "sys" "version_info").
Qed.

Lemma exec_stdlib_imports ns :
  exec (stdlib_imports py) ns =
  (_ <- requires [need_module py "logging"; need_module py "os";
                  need_module py "sys"; need_module py "time"] ;;
   Ok (stdlib_names ns))%res.
Proof.
  unfold stdlib_imports, requires. cbn [foldr].
  by repeat (rewrite ?exec_bind, ?exec_import_as; need_step).
Qed.

Lemma exec_bind_uni ns :
  version_geb (version_info py) (3, 0) = true ->
  ns !! "sys" = Some (BModule "sys") -> ns !! "str" = None ->
  exec (bind_uni py) ns =
  (_ <- need_member py "sys" "version_info" AttributeError ;;
   Ok (<["uni" := BBuiltin "str"]> ns))%res.
Proof.
  intros Hv Hsys Hstr. unfold exec, bind_uni, sbind. rewrite (sys_version_run _ Hsys).
  need_step. rewrite Hv. by rewrite (eval_name_builtin "str" _ Hstr eq_refl).
Qed.

Lemma except_ModuleNotFoundError_run body handler ns :
  version_geb (version_info py) (3, 6) = true ->
  (body ns).2 !! "ModuleNotFoundError" = None ->
  except_ModuleNotFoundError py body handler ns =
  match body ns with
  | (Raise (ModuleNotFoundError _), ns') => handler ns'
  | r => r
  end.
Proof.
  intros Hv Hn. unfold except_ModuleNotFoundError, scatch.
  destruct (body ns) as [[a|e|] ns']; [done| |done]. cbn [snd] in Hn.
  rewrite (sbind_Ok _ _ _ _ _ (eval_name_builtin "ModuleNotFoundError" _ Hn Hv)).
  by destruct e.
Qed.

Lemma import_as_run m x ns :
  import_as py m x ns =
  match find_module py m with
  | Ok _ => (Ok tt, <[x := BModule m]> ns)
  | Raise e => (Raise e, ns)
  | Undef => (Undef, ns)
  end.
Proof. unfold import_as, sbind, slift. by destruct (find_module py m) as [[]| |]. Qed.

Lemma import_as_keeps m x y ns : x <> y -> (import_as py m x ns).2 !! y = ns !! y.
Proof.
  intros H. rewrite import_as_run. destruct (find_module py m); [|done..].
  by apply lookup_insert_ne.
Qed.

Lemma exec_import_backend ns :
  version_geb (version_info py) (3, 6) = true ->
  ns !! "ModuleNotFoundError" = None ->
  exec (import_backend py) ns = (b <- backend_choice py ;; Ok (bind_backend b ns))%res.
Proof.
  intros Hv Hn. unfold exec, import_backend, backend_choice.
  rewrite except_ModuleNotFoundError_run
    by first [by rewrite import_as_keeps | done].
  rewrite import_as_run.
  destruct (find_module py "yt_dlp") as [[]|e|]; [done| |done].
  destruct e; try done.
  rewrite except_ModuleNotFoundError_run
    by first [by rewrite import_as_keeps | done].
  rewrite import_as_run.
  destruct (find_module py "youtube_dl") as [[]|e|]; [done| |done].
  by destruct e.
Qed.

Lemma exec_from_import m names ns :
  exec (from_import py m names) ns =
  (_ <- need_module py m ;;
   _ <- requires (map (fun n => need_member py m n (ImportError n)) names) ;;
   Ok (foldl (fun ns n => <[n := BMember m n]> ns) ns names))%res.
Proof.
  unfold from_import. rewrite exec_bind. unfold need_module, exec at 1, slift.
  destruct (find_module py m) as [[]| |]; [|done..]. cbn [rbind].
  revert ns. induction names as [|n names IH]; intros ns; [done|].
  cbn [sforeach map foldl requires foldr]. rewrite exec_bind.
  unfold need_member at 1, exec at 1. destruct (has_member py m n); [|done].
  cbn [rbind bind_name smodify]. apply IH.
Qed.

Lemma exec_package_imports ns :
  exec (package_imports py) ns =
  (_ <- requires
          [need_module py "."; need_member py "." "g" (ImportError "g");
           need_module py ".backend_shared";
           need_member py ".backend_shared" "BasePafy" (ImportError "BasePafy");
           need_member py ".backend_shared" "BaseStream" (ImportError "BaseStream");
           need_member py ".backend_shared" "get_size_done"
             (ImportError "get_size_done");
           need_member py ".backend_shared" "get_status_string"
             (ImportError "get_status_string");
           need_member py ".backend_shared" "remux" (ImportError "remux")] ;;
   Ok (package_names ns))%res.
Proof.
  unfold package_imports. rewrite exec_bind, exec_from_import.
  unfold requires. cbn [foldr map foldl]. do 2 need_step.
  rewrite exec_from_import. unfold requires. cbn [foldr map foldl].
  by repeat need_step.
Qed.

Lemma exec_bind_dbg ns :
  ns !! "logging" = Some (BModule "logging") ->
  exec (bind_dbg py) ns =
  (_ <- need_member py "logging" "debug" AttributeError ;;
   Ok (<["dbg" := BMember "logging" "debug"]> ns))%res.
Proof.
  intros H. unfold exec, bind_dbg, sbind. rewrite (eval_attr_module _ _ _ _ H).
  by need_step.
Qed.

Lemma exec_bind_early_py_version ns :
  version_ltb (version_info py) (2, 7) = false ->
  ns !! "sys" = Some (BModule "sys") ->
  exec (bind_early_py_version py) ns =
  (_ <- need_member py "sys" "version_info" AttributeError ;;
   Ok (<["early_py_version" := BBool false]> ns))%res.
Proof.
  intros Hv H. unfold exec, bind_early_py_version, sbind.
  rewrite (sys_version_run _ H). need_step. by rewrite Hv.
Qed.

Lemma exec_class_stmt name base b ns :
  eval_name py base ns = (Ok b, ns) ->
  exec (class_stmt py name base) ns = Ok (<[name := BClass name b]> ns).
Proof. intros H. unfold exec, class_stmt. by rewrite (sbind_Ok _ _ _ _ _ H). Qed.

Lemma exec_class_statements ns :
  ns !! "BasePafy" = Some (BMember ".backend_shared" "BasePafy") ->
  ns !! "BaseStream" = Some (BMember ".backend_shared" "BaseStream") ->
  ns !! "object" = None ->
  exec (class_statements py) ns = Ok (class_names ns).
Proof.
  intros Hp Hs Ho. unfold class_statements.
  rewrite exec_bind, (exec_class_stmt _ _ _ _ (eval_name_global _ _ _ Hp)).
  cbn [rbind]. rewrite exec_bind.
  rewrite (exec_class_stmt _ _ (BMember ".backend_shared" "BaseStream"));
    [|apply eval_name_global; by rewrite lookup_insert_ne by discriminate].
  cbn [rbind].
  rewrite (exec_class_stmt _ _ (BBuiltin "object")); [done|].
  apply eval_name_builtin; [|done].
  by rewrite !lookup_insert_ne by discriminate.
Qed.

(** ** Equivalence with the reference definition *)

Lemma load_module_eq : load_module py = load_spec py.
Proof.
  rewrite load_module_exec. unfold load_spec.
  destruct (version_ltb _ min_version) eqn:Hv; [done|].
  destruct (version_since_min _ Hv) as (H30 & H36 & H27).
  unfold module_body, requires. cbn [foldr].
  rewrite exec_bind, exec_stdlib_imports. unfold requires. cbn [foldr].
  do 4 need_step.
  rewrite exec_bind, exec_bind_uni by first [done | ns_lookup]. need_step.
  rewrite exec_bind, exec_import_backend by first [done | ns_lookup].
  destruct (backend_choice py) as [b| |]; [|done..]. cbn [rbind].
  rewrite exec_bind, exec_package_imports. unfold requires. cbn [foldr].
  do 8 need_step.
  rewrite exec_bind, exec_bind_dbg by ns_lookup. need_step.
  rewrite exec_bind, exec_bind_early_py_version by first [done | ns_lookup].
  need_step. by rewrite exec_class_statements by ns_lookup.
Qed.

End LoadFacts.

(** ** Properties of the import *)

Section LoadProperties.
Variable py : interpreter.

Lemma backend_choice_of b : backend_choice py = Ok b -> b = backend_of py.
Proof.
  unfold backend_choice, backend_of.
  destruct (find_module py "yt_dlp") as [[]|e|]; [by intros [= <-]| |done].
  destruct e; try done.
  destruct (find_module py "youtube_dl") as [[]|e|]; [by intros [= <-]| |done].
  destruct e; try done. by intros [= <-].
Qed.

(** A successful import: the interpreter compiles the file and the
    namespace is that of the library found. *)
Lemma load_module_Ok ns :
  load_module py = Ok ns ->
  version_ltb (version_info py) min_version = false /\
  ns = module_namespace (backend_of py).
Proof.
  rewrite load_module_eq. unfold load_spec.
  destruct (version_ltb _ _); [done|]. intros H. split; [done|].
  apply rbind_Ok_inv in H as ([] & _ & H).
  apply rbind_Ok_inv in H as (b & Hb & H).
  apply rbind_Ok_inv in H as ([] & _ & [= <-]).
  by rewrite (backend_choice_of _ Hb).
Qed.

Lemma module_namespace_backend b :
  module_namespace b !! "yt_dlp" = BModule <$> b.
Proof.
  unfold module_namespace, class_names, package_names.
  rewrite !lookup_insert_ne by discriminate.
  destruct b; [apply lookup_insert_eq|]. cbn [bind_backend fmap option_fmap option_map].
  rewrite lookup_insert_ne by discriminate. unfold stdlib_names.
  rewrite !lookup_insert_ne by discriminate. apply lookup_empty.
Qed.

(** C14 (import refines its requirements).  Importing the module gives
    the outcome of the reference definition: [SyntaxError] on an
    interpreter older than 3.8, else the exception of the first
    requirement that fails, in the order in which the statements ask
    (the four standard modules, [sys.version_info], the extraction
    library, the package and its six names, [logging.debug]), else the
    namespace [module_namespace] of the library found. *)
Theorem load_module_refines : load_module py = load_spec py.
Proof. apply load_module_eq. Qed.

(** C27 (version tests).  Whenever the import succeeds, [uni] is [str]
    and [early_py_version] is [False]: the interpreter is at least 3.8,
    because the file uses an assignment expression, so the tests of
    lines 6 and 27 never take their other branch. *)
Theorem version_tests_decided ns :
  load_module py = Ok ns ->
  version_geb (version_info py) min_version = true /\
  ns !! "uni" = Some (BBuiltin "str") /\
  ns !! "early_py_version" = Some (BBool false).
Proof.
  intros [Hv ->]%load_module_Ok.
  split; [unfold version_geb; by rewrite Hv|]. split; ns_lookup.
Qed.

(** C26 (fallback of the extraction library).  After a successful import
    the name [yt_dlp] stands for the module [yt_dlp] when it is found,
    else for [youtube_dl] when that is found, and is unbound otherwise:
    the import does not fail for a missing library, the first use of the
    name does. *)
Theorem backend_fallback_rule ns :
  load_module py = Ok ns ->
  ns !! "yt_dlp" = BModule <$> backend_of py /\
  (backend_of py = None -> global_name ns "yt_dlp" = Raise (NameError "yt_dlp")).
Proof.
  intros [_ ->]%load_module_Ok. split; [apply module_namespace_backend|].
  intros H. unfold global_name. by rewrite module_namespace_backend, H.
Qed.

End LoadProperties.

(** ** Example interpreters *)

(** An interpreter 3.11 that finds the modules of [installed], each with
    every member asked for. *)
Definition ex_interpreter (installed : list string) : interpreter :=
  {| version_info := (3, 11);
     find_module := fun m =>
       if bool_decide (m ∈ installed) then Ok tt
       else Raise (ModuleNotFoundError m);
     has_member := fun _ _ => true |}.

Definition ex_base : list string :=
  ["logging"; "os"; "sys"; "time"; "."; ".backend_shared"].

Lemma version_tests_decided_witness :
  module_namespace (Some "youtube_dl") !! "uni" = Some (BBuiltin "str").
Proof.
  apply (version_tests_decided (ex_interpreter ("youtube_dl" :: ex_base))).
  rewrite load_module_eq. reflexivity.
Defined.

Lemma backend_fallback_rule_witness :
  module_namespace None !! "yt_dlp" = None.
Proof.
  apply (backend_fallback_rule (ex_interpreter ex_base)
           (module_namespace None)).
  rewrite load_module_eq. reflexivity.
Defined.
