(* ===== verification/Stream.v ===== *)
(** * YtdlStream: one stream built from a raw format descriptor

    Models class [YtdlStream] of src/pafy/backend_youtube_dl.py, lines
    107-147: the constructor, which classifies the descriptor and derives
    every attribute of the stream, and [get_filesize].  The record
    [YtdlStream] has the attributes the constructor assigns, under their
    source names.  The constructor is written statement by statement in
    the outcome monad, so that the first failing expression decides the
    exception, as in Python. *)

From Stdlib Require Import ZArith Lia Ascii.
From stdpp Require Import base tactics option list strings gmap.
From S2P Require Import Prelude PyValue.

(** ** Data *)

(** The three values of [_mediatype]. *)
Inductive mediatype : Type := audio | video | normal.

#[export] Instance mediatype_eq_dec : EqDecision mediatype.
Proof. solve_decision. Defined.

(** The string the source stores for each kind. *)
Definition mediatype_str (m : mediatype) : string :=
  match m with
  | audio => "audio"
  | video => "video"
  | normal => "normal"
  end.

Record YtdlStream : Type := mkYtdlStream {
  _parent : string;
  _itag : pyval;
  _mediatype : mediatype;
  _threed : bool;
  _rawbitrate : pyval;
  _resolution : string;
  _dimensions : pyval * pyval;
  _bitrate : string;
  _quality : string;
  _extension : pyval;
  _notes : pyval;
  _url : pyval;
  _info : gmap string pyval
}.

(** The host prefix of a streaming-manifest url (line 134). *)
Definition manifest_prefix : string := "https://manifest.googlevideo.com".

(** ** The constructor *)

(** Lines 112-117: the media kind from the two codec fields. *)
Definition classify (d : gmap string pyval) : mediatype :=
  let acodec := dict_get d "acodec" VNone in
  let vcodec := dict_get d "vcodec" VNone in
  if negb (py_eq_str acodec "none") && py_eq_str vcodec "none" then audio
  else if py_eq_str acodec "none" && negb (py_eq_str vcodec "none") then video
  else normal.

(** Lines 133-135: the playable url, with the manifest fallback. *)
Definition resolve_url (d : gmap string pyval) : res pyval :=
  (let url := dict_get d "url" VNone in
   manifest <- py_startswith url manifest_prefix ;;
   Ok (if manifest : bool then dict_get d "fragment_base_url" url else url))%res.

(** Lines 127-129: the display quality. *)
Definition quality_of (mt : mediatype) (bitrate resolution : string) : string :=
  if decide (mt = audio) then bitrate else resolution.

(** Lines 108-137 on a dict descriptor. *)
Definition YtdlStream_of_dict (d : gmap string pyval) (parent : string) : res YtdlStream :=
  (itag <- py_getitem (VDict d) "format_id" ;;
   let mt := classify d in
   let threed := py_eq_str (dict_get d "format_note" VNone) "3D" in
   rawbitrate <- py_mul_int (dict_get d "abr" (VInt 0)) 1024 ;;
   let height := py_or (dict_get d "height" VNone) (VInt 0) in
   let width := py_or (dict_get d "width" VNone) (VInt 0) in
   sw <- py_str width ;;
   sh <- py_str height ;;
   let resolution := sw +:+ "x" +:+ sh in
   sabr <- py_str (dict_get d "abr" (VInt 0)) ;;
   let bitrate := sabr +:+ "k" in
   let quality := quality_of mt bitrate resolution in
   ext <- py_getitem (VDict d) "ext" ;;
   let notes := py_or (dict_get d "format_note" VNone) (VStr EmptyString) in
   url <- resolve_url d ;;
   Ok {| _parent := parent; _itag := itag; _mediatype := mt;
         _threed := threed; _rawbitrate := rawbitrate;
         _resolution := resolution; _dimensions := (width, height);
         _bitrate := bitrate; _quality := quality; _extension := ext;
         _notes := notes; _url := url; _info := d |})%res.

(** [YtdlStream(info, parent)]: the first statement subscripts [info] with
    a string, which raises [TypeError] on anything but a dict. *)
Definition YtdlStream_init (info : pyval) (parent : string) : res YtdlStream :=
  match info with
  | VDict d => YtdlStream_of_dict d parent
  | _ => Raise TypeError
  end.

(** ** get_filesize *)

(** Lines 139-147.  [fallback] is the outcome of the inherited network
    probe, run only when the descriptor has no usable [filesize]. *)
Definition get_filesize (s : YtdlStream) (fallback : res pyval) : res pyval :=
  if dict_has_value (_info s) "filesize"
  then py_getitem (VDict (_info s)) "filesize"
  else fallback.

(** ** Well-formed descriptors *)

(** The integer a numeric field contributes: its value, or 0 when the
    field is absent, None or 0. *)
Definition int_field (d : gmap string pyval) (k : string) : Z :=
  match d !! k with
  | Some (VInt z) => z
  | _ => 0
  end.

(** The field is absent or an int (a bitrate the constructor can scale). *)
Definition int_or_absent (d : gmap string pyval) (k : string) : bool :=
  match d !! k with
  | None | Some (VInt _) => true
  | Some _ => false
  end.

(** The fields the constructor prints are absent, None or ints. *)
Definition printable_field (d : gmap string pyval) (k : string) : bool :=
  match d !! k with
  | None | Some VNone | Some (VInt _) => true
  | Some _ => false
  end.

(** A descriptor as the extraction backend documents it: an id and an
    extension, integer dimensions and bitrate where present, a string url. *)
Definition wf_descriptor (d : gmap string pyval) : bool :=
  bool_decide (is_Some (d !! "format_id")) &&
  bool_decide (is_Some (d !! "ext")) &&
  printable_field d "width" && printable_field d "height" &&
  int_or_absent d "abr" &&
  match d !! "url" with Some (VStr _) => true | _ => false end.

(** ** Reading a resolution back *)

Fixpoint str_has (c : Ascii.ascii) (s : string) : bool :=
  match s with
  | EmptyString => false
  | String a s' => Ascii.eqb a c || str_has c s'
  end.

(** The text before and the text after the first [c]. *)
Fixpoint str_split_at (c : Ascii.ascii) (s : string) : option (string * string) :=
  match s with
  | EmptyString => None
  | String a s' =>
      if Ascii.eqb a c then Some (EmptyString, s')
      else (fun p => (String a p.1, p.2)) <$> str_split_at c s'
  end.

(** The pair of ints that a resolution "<width>x<height>" denotes. *)
Definition parse_resolution (s : string) : option (Z * Z) :=
  p ← str_split_at "x"%char s; w ← Z_of_str p.1; h ← Z_of_str p.2; Some (w, h).

(** ** Example descriptors *)

Definition mk_descriptor (fields : list (string * pyval)) : gmap string pyval :=
  list_to_map fields.

(** A video-only format, as in the scenario of the specification. *)
Definition ex_vp9 : gmap string pyval :=
  mk_descriptor [("format_id", VStr "248"); ("acodec", VStr "none");
                 ("vcodec", VStr "vp9"); ("height", VInt 1080);
                 ("width", VInt 1920); ("ext", VStr "webm");
                 ("url", VStr "https://r1.googlevideo.com/videoplayback")].

(** An audio-only format. *)
Definition ex_opus : gmap string pyval :=
  mk_descriptor [("format_id", VStr "251"); ("acodec", VStr "opus");
                 ("vcodec", VStr "none"); ("abr", VInt 160);
                 ("ext", VStr "ogg");
                 ("url", VStr "https://r1.googlevideo.com/audio")].

(** A muxed format served through a manifest, with a fragment base url. *)
Definition ex_manifest : gmap string pyval :=
  mk_descriptor [("format_id", VStr "18"); ("acodec", VStr "mp4a");
                 ("vcodec", VStr "avc1"); ("height", VInt 360);
                 ("width", VInt 640); ("abr", VInt 96); ("ext", VStr "mp4");
                 ("format_note", VStr "3D");
                 ("url", VStr "https://manifest.googlevideo.com/api/manifest/dash/x");
                 ("fragment_base_url", VStr "https://r2.googlevideo.com/frag/")].

(** A video-only format whose bitrate field is present and None. *)
Definition ex_abr_none : gmap string pyval := <["abr" := VNone]> ex_vp9.

(** ** What a successful construction computed *)

Lemma YtdlStream_of_dict_Ok d parent s :
  YtdlStream_of_dict d parent = Ok s <->
  exists itag rb sw sh sabr ext url,
    d !! "format_id" = Some itag /\
    py_mul_int (dict_get d "abr" (VInt 0)) 1024 = Ok rb /\
    py_str (py_or (dict_get d "width" VNone) (VInt 0)) = Ok sw /\
    py_str (py_or (dict_get d "height" VNone) (VInt 0)) = Ok sh /\
    py_str (dict_get d "abr" (VInt 0)) = Ok sabr /\
    d !! "ext" = Some ext /\
    resolve_url d = Ok url /\
    s = {| _parent := parent; _itag := itag; _mediatype := classify d;
           _threed := py_eq_str (dict_get d "format_note" VNone) "3D";
           _rawbitrate := rb;
           _resolution := sw +:+ "x" +:+ sh;
           _dimensions := (py_or (dict_get d "width" VNone) (VInt 0),
                           py_or (dict_get d "height" VNone) (VInt 0));
           _bitrate := sabr +:+ "k";
           _quality := quality_of (classify d) (sabr +:+ "k") (sw +:+ "x" +:+ sh);
           _extension := ext;
           _notes := py_or (dict_get d "format_note" VNone) (VStr EmptyString);
           _url := url; _info := d |}.
Proof.
  unfold YtdlStream_of_dict. split.
  - intros H. res_inv. do 7 eexists. repeat split; try done; by apply py_getitem_Ok.
  - intros (itag & rb & sw & sh & sabr & ext & url &
            Hid & -> & -> & -> & -> & Hext & -> & ->).
    apply py_getitem_Ok in Hid, Hext. by rewrite Hid, Hext.
Qed.

(** Destructure a successful construction in hypothesis [H]. *)
Ltac stream_inv H :=
  apply YtdlStream_of_dict_Ok in H;
  destruct H as (?itag & ?rb & ?sw & ?sh & ?sabr & ?ext & ?url &
                 ?Hid & ?Hrb & ?Hsw & ?Hsh & ?Hsabr & ?Hext & ?Hurl & ->).

Lemma classify_spec d :
  let a := dict_get d "acodec" VNone in
  let v := dict_get d "vcodec" VNone in
  (classify d = audio <-> a <> VStr "none" /\ v = VStr "none") /\
  (classify d = video <-> a = VStr "none" /\ v <> VStr "none") /\
  (classify d = normal <-> (a = VStr "none" <-> v = VStr "none")).
Proof.
  intros a v. unfold classify. fold a v.
  pose proof (py_eq_str_spec a "none") as Ha.
  pose proof (py_eq_str_spec v "none") as Hv.
  destruct (py_eq_str a "none"), (py_eq_str v "none"); simpl;
    intuition congruence.
Qed.

Lemma resolve_url_Ok d url :
  resolve_url d = Ok url <->
  exists u, d !! "url" = Some (VStr u) /\
    url = if String.prefix manifest_prefix u
          then dict_get d "fragment_base_url" (VStr u) else VStr u.
Proof.
  unfold resolve_url, dict_get at 1 3 4.
  destruct (d !! "url") as [[]|]; simpl; split;
    try done; try (by intros (? & [=] & _)).
  - intros [= <-]. eauto.
  - intros (u & [= <-] & ->). done.
Qed.

(** ** Properties of the constructor *)

(** C1 (classification).  A stream is audio exactly when the descriptor
    has an audio codec other than "none" and the video codec "none", video
    in the symmetric case, and normal in every other case (both present,
    both "none", fields absent): the three kinds are exclusive and cover
    every descriptor the constructor accepts. *)
Theorem classification_rule d parent s :
  YtdlStream_init (VDict d) parent = Ok s ->
  let a := dict_get d "acodec" VNone in
  let v := dict_get d "vcodec" VNone in
  (_mediatype s = audio <-> a <> VStr "none" /\ v = VStr "none") /\
  (_mediatype s = video <-> a = VStr "none" /\ v <> VStr "none") /\
  (_mediatype s = normal <-> (a = VStr "none" <-> v = VStr "none")).
Proof. simpl. intros H. stream_inv H. apply classify_spec. Qed.

Lemma classification_rule_witness :
  exists s, YtdlStream_init (VDict ex_vp9) "vid" = Ok s /\ _mediatype s = video.
Proof.
  eexists. split; [vm_compute; reflexivity|].
  apply (classification_rule ex_vp9 "vid"); [vm_compute; reflexivity|].
  split; [reflexivity | discriminate].
Defined.

(** C4 (quality).  The display quality of a stream is its bitrate string
    when the stream is audio and its resolution string otherwise. *)
Theorem quality_rule d parent s :
  YtdlStream_init (VDict d) parent = Ok s ->
  _quality s = match _mediatype s with
               | audio => _bitrate s
               | video | normal => _resolution s
               end.
Proof.
  simpl. intros H. stream_inv H. simpl. unfold quality_of.
  by destruct (classify d).
Qed.

Lemma quality_rule_witness :
  exists s, YtdlStream_init (VDict ex_opus) "vid" = Ok s /\ _quality s = "160k".
Proof.
  eexists. split; [vm_compute; reflexivity|].
  rewrite (quality_rule ex_opus "vid"); [|vm_compute; reflexivity].
  vm_compute; reflexivity.
Defined.

Lemma printable_field_or d k :
  printable_field d k = true ->
  py_or (dict_get d k VNone) (VInt 0) = VInt (int_field d k).
Proof.
  unfold printable_field, dict_get, int_field, py_or.
  destruct (d !! k) as [[| |z| | | |]|]; try done. simpl.
  by destruct (Z.eqb_spec z 0) as [->|].
Qed.

Lemma int_or_absent_get d k :
  int_or_absent d k = true -> dict_get d k (VInt 0) = VInt (int_field d k).
Proof.
  unfold int_or_absent, dict_get, int_field.
  by destruct (d !! k) as [[]|].
Qed.

Lemma resolution_fields d parent s :
  printable_field d "width" = true -> printable_field d "height" = true ->
  YtdlStream_init (VDict d) parent = Ok s ->
  _resolution s = str_of_Z (int_field d "width") +:+ "x" +:+
                  str_of_Z (int_field d "height") /\
  _dimensions s = (VInt (int_field d "width"), VInt (int_field d "height")).
Proof.
  simpl. intros Hw Hh H. stream_inv H. simpl.
  rewrite (printable_field_or _ _ Hw) in *. rewrite (printable_field_or _ _ Hh) in *.
  simpl in *. by res_inv.
Qed.

(** C32 (resolution).  With integer, None or absent dimensions, the
    resolution string is "<width>x<height>" in decimal and the dimensions
    are the pair of ints, 0 standing for a missing or zero dimension. *)
Theorem resolution_rule d parent s :
  printable_field d "width" = true -> printable_field d "height" = true ->
  YtdlStream_init (VDict d) parent = Ok s ->
  _resolution s = str_of_Z (int_field d "width") +:+ "x" +:+
                  str_of_Z (int_field d "height") /\
  _dimensions s = (VInt (int_field d "width"), VInt (int_field d "height")).
Proof. apply resolution_fields. Qed.

(** A decimal numeral has no "x" in it. *)
Lemma string_of_uint_no_x (u : Decimal.uint) :
  str_has "x"%char (DecimalString.NilEmpty.string_of_uint u) = false.
Proof. induction u; simpl; auto. Qed.

Lemma str_of_Z_no_x z : str_has "x"%char (str_of_Z z) = false.
Proof.
  unfold str_of_Z, DecimalString.NilZero.string_of_int, DecimalString.NilZero.string_of_uint.
  destruct (Z.to_int z) as [u|u]; destruct u; simpl; auto using string_of_uint_no_x.
Qed.

Lemma str_split_at_app c s t :
  str_has c s = false -> str_split_at c (s +:+ String c t) = Some (s, t).
Proof.
  induction s as [|a s IH]; simpl.
  - intros _. by rewrite Ascii.eqb_refl.
  - intros [Ha Hs]%orb_false_elim. rewrite ?str_app_cons. simpl.
    rewrite Ha, (IH Hs). reflexivity.
Qed.

Lemma parse_resolution_print w h :
  parse_resolution (str_of_Z w +:+ "x" +:+ str_of_Z h) = Some (w, h).
Proof.
  unfold parse_resolution.
  change ("x" +:+ str_of_Z h) with (String "x" (str_of_Z h)).
  rewrite (str_split_at_app "x"%char (str_of_Z w) (str_of_Z h)) by apply str_of_Z_no_x.
  simpl. by rewrite !str_of_Z_roundtrip.
Qed.

(** C33 (resolution round trip).  Reading the resolution string of a
    stream back as two decimal ints separated by "x" gives the dimensions
    of the stream: the string loses nothing of the pair, for negative
    dimensions too. *)
Theorem resolution_roundtrip d parent s :
  printable_field d "width" = true -> printable_field d "height" = true ->
  YtdlStream_init (VDict d) parent = Ok s ->
  exists w h, parse_resolution (_resolution s) = Some (w, h) /\
              _dimensions s = (VInt w, VInt h).
Proof.
  intros Hw Hh H. destruct (resolution_fields d parent s Hw Hh H) as [-> ->].
  eexists _, _. split; [apply parse_resolution_print | done].
Qed.

Lemma resolution_roundtrip_witness :
  exists s, YtdlStream_init (VDict ex_vp9) "vid" = Ok s /\
            parse_resolution (_resolution s) = Some (1920, 1080)%Z.
Proof.
  eexists. split; [vm_compute; reflexivity|].
  destruct (resolution_roundtrip ex_vp9 "vid" _ eq_refl eq_refl eq_refl)
    as (w & h & Hp & Hd).
  injection Hd as <- <-. exact Hp.
Defined.

Lemma resolution_rule_witness :
  exists s, YtdlStream_init (VDict ex_vp9) "vid" = Ok s /\
            _resolution s = "1920x1080" /\ _dimensions s = (VInt 1920, VInt 1080).
Proof.
  eexists. split; [vm_compute; reflexivity|].
  apply (resolution_rule ex_vp9 "vid"); vm_compute; reflexivity.
Defined.

(** With an integer or absent [abr], the raw bitrate is
    [abr * 1024] and the bitrate string is [abr] in decimal followed by
    "k"; an absent [abr] counts as 0. *)
Theorem bitrate_rule d parent s :
  int_or_absent d "abr" = true ->
  YtdlStream_init (VDict d) parent = Ok s ->
  _rawbitrate s = VInt (int_field d "abr" * 1024) /\
  _bitrate s = str_of_Z (int_field d "abr") +:+ "k".
Proof.
  simpl. intros Ha H. stream_inv H. simpl.
  rewrite (int_or_absent_get _ _ Ha) in *. simpl in *. by res_inv.
Qed.

Lemma bitrate_rule_witness :
  exists s, YtdlStream_init (VDict ex_opus) "vid" = Ok s /\
            _rawbitrate s = VInt 163840 /\ _bitrate s = "160k".
Proof.
  eexists. split; [vm_compute; reflexivity|].
  apply (bitrate_rule ex_opus "vid"); vm_compute; reflexivity.
Defined.

(** C3 (manifest fallback).  The url of a constructed stream is the
    descriptor's url, except that a url on the manifest host is replaced by
    the descriptor's [fragment_base_url] when that key is present. *)
Theorem url_fallback_rule d parent s :
  YtdlStream_init (VDict d) parent = Ok s ->
  exists u, d !! "url" = Some (VStr u) /\
    (String.prefix manifest_prefix u = false -> _url s = VStr u) /\
    (String.prefix manifest_prefix u = true ->
       forall f, d !! "fragment_base_url" = Some f -> _url s = f) /\
    (String.prefix manifest_prefix u = true ->
       d !! "fragment_base_url" = None -> _url s = VStr u).
Proof.
  simpl. intros H. stream_inv H. simpl.
  apply resolve_url_Ok in Hurl as (u & Hu & ->). exists u. split; [done|].
  unfold dict_get. repeat split; intros ->; [done | by intros f -> | by intros ->].
Qed.

Lemma url_fallback_rule_witness :
  exists s, YtdlStream_init (VDict ex_manifest) "vid" = Ok s /\
            _url s = VStr "https://r2.googlevideo.com/frag/".
Proof.
  eexists. split; [vm_compute; reflexivity|].
  destruct (url_fallback_rule ex_manifest "vid" _ eq_refl) as (u & Hu & _ & Hm & _).
  injection Hu as <-. by apply Hm.
Defined.

(** ** Totality and error paths *)

Lemma wf_descriptor_fields d :
  wf_descriptor d = true ->
  is_Some (d !! "format_id") /\ is_Some (d !! "ext") /\
  printable_field d "width" = true /\ printable_field d "height" = true /\
  int_or_absent d "abr" = true /\ exists u, d !! "url" = Some (VStr u).
Proof.
  unfold wf_descriptor. rewrite !andb_true_iff, !bool_decide_eq_true.
  intros (((((?&?)&?)&?)&?)&Hu). repeat split; try done.
  destruct (d !! "url") as [[]|]; try done. eauto.
Qed.

(** C17 (totality).  On a well-formed descriptor (an id, an extension,
    integer or missing dimensions and bitrate, a string url) the
    constructor returns a stream: it neither raises nor leaves the model. *)
Theorem init_total_wf d parent :
  wf_descriptor d = true -> exists s, YtdlStream_init (VDict d) parent = Ok s.
Proof.
  intros ([itag Hid] & [ext Hext] & Hw & Hh & Ha & u & Hu)%wf_descriptor_fields.
  eexists. apply YtdlStream_of_dict_Ok.
  exists itag, (VInt (int_field d "abr" * 1024)),
    (str_of_Z (int_field d "width")), (str_of_Z (int_field d "height")),
    (str_of_Z (int_field d "abr")), ext.
  eexists. rewrite (printable_field_or _ _ Hw), (printable_field_or _ _ Hh),
    (int_or_absent_get _ _ Ha).
  repeat split; try done. apply resolve_url_Ok. eauto.
Qed.

Lemma init_total_wf_witness :
  exists s, YtdlStream_init (VDict ex_manifest) "vid" = Ok s.
Proof. apply (init_total_wf ex_manifest "vid"). vm_compute; reflexivity. Defined.

(** C18 (bitrate None).  A descriptor whose [abr] key is present with the
    value None makes the constructor raise [TypeError]: only an absent key
    is defaulted to 0. *)
Theorem abr_none_raises d parent :
  is_Some (d !! "format_id") -> d !! "abr" = Some VNone ->
  YtdlStream_init (VDict d) parent = Raise TypeError.
Proof.
  intros [itag Hid] Ha. simpl. unfold YtdlStream_of_dict.
  rewrite (proj2 (py_getitem_Ok _ _ _) Hid); simpl.
  by rewrite (dict_get_Some _ _ _ _ Ha).
Qed.

Lemma abr_none_raises_witness :
  YtdlStream_init (VDict ex_abr_none) "vid" = Raise TypeError.
Proof. apply abr_none_raises; [vm_compute; eauto | vm_compute; reflexivity]. Defined.

(** A descriptor without [format_id] raises [KeyError] before anything
    else is looked at. *)
Lemma init_missing_format_id d parent :
  d !! "format_id" = None ->
  YtdlStream_init (VDict d) parent = Raise (KeyError (VStr "format_id")).
Proof.
  intros Hid. simpl. unfold YtdlStream_of_dict.
  by rewrite (py_getitem_KeyError _ _ Hid).
Qed.

(** Anything but a dict raises [TypeError] at the first subscript. *)
Lemma init_non_dict info parent :
  (forall d, info <> VDict d) -> YtdlStream_init info parent = Raise TypeError.
Proof. destruct info; try done. intros H. by destruct (H d). Qed.

(** C36 (url not a string).  When every other field is well formed and
    the [url] key is absent or holds something that is not a string, the
    constructor raises [AttributeError] at [startswith]. *)
Theorem url_not_str_raises d parent :
  is_Some (d !! "format_id") -> is_Some (d !! "ext") ->
  printable_field d "width" = true -> printable_field d "height" = true ->
  int_or_absent d "abr" = true ->
  (forall u, d !! "url" <> Some (VStr u)) ->
  YtdlStream_init (VDict d) parent = Raise AttributeError.
Proof.
  intros [itag Hid] [ext Hext] Hw Hh Ha Hu. simpl. unfold YtdlStream_of_dict.
  rewrite (proj2 (py_getitem_Ok _ _ _) Hid), (proj2 (py_getitem_Ok _ _ _) Hext).
  rewrite (printable_field_or _ _ Hw), (printable_field_or _ _ Hh),
    (int_or_absent_get _ _ Ha). simpl.
  unfold resolve_url, dict_get.
  destruct (d !! "url") as [[| | | |u| |]|]; try done. by destruct (Hu u).
Qed.

Lemma url_not_str_raises_witness :
  YtdlStream_init (VDict (delete "url" ex_vp9)) "vid" = Raise AttributeError.
Proof.
  apply url_not_str_raises; try (vm_compute; eauto; fail).
  intros u. vm_compute. discriminate.
Defined.

(** When the dimensions and the bitrate are None, bools,
    ints or strings (no float, list or dict), the constructor's outcome is
    a stream or a Python exception, never [Undef]: the model covers every
    such descriptor. *)
Theorem init_defined d parent :
  is_scalar (dict_get d "width" VNone) = true ->
  is_scalar (dict_get d "height" VNone) = true ->
  is_scalar (dict_get d "abr" (VInt 0)) = true ->
  YtdlStream_init (VDict d) parent <> Undef.
Proof.
  intros Hw%(py_or_int_scalar _ 0) Hh%(py_or_int_scalar _ 0) Ha.
  apply py_str_scalar in Hw as [sw Hw], Hh as [sh Hh], Ha as [sa Ha].
  simpl. unfold YtdlStream_of_dict. rewrite Hw, Hh, Ha.
  destruct (py_getitem (VDict d) "format_id") eqn:Hid; simpl;
    [|done|by apply py_getitem_defined in Hid].
  destruct (py_mul_int _ _) as [| |] eqn:Hm; simpl; [|done|].
  - destruct (d !! "ext"); simpl; [|done].
    unfold resolve_url. by destruct (dict_get d "url" VNone).
  - by destruct (dict_get d "abr" (VInt 0)).
Qed.

Lemma init_defined_witness :
  YtdlStream_init (VDict ex_abr_none) "vid" <> Undef.
Proof. apply init_defined; vm_compute; reflexivity. Defined.

(** ** get_filesize *)

(** [get_filesize] answers from the descriptor when it
    has a [filesize] that is not None, without running the fallback probe;
    otherwise its outcome is the probe's. *)
Theorem get_filesize_rule s fallback :
  (forall v, _info s !! "filesize" = Some v -> v <> VNone ->
     get_filesize s fallback = Ok v) /\
  (_info s !! "filesize" = None -> get_filesize s fallback = fallback) /\
  (_info s !! "filesize" = Some VNone -> get_filesize s fallback = fallback).
Proof.
  unfold get_filesize, dict_has_value. repeat split.
  - intros v Hv Hn. rewrite Hv. destruct v; try done; simpl; by rewrite Hv.
  - by intros ->.
  - by intros ->.
Qed.
