(* ===== verification/Pafy.v ===== *)
(** * YtdlPafy: the video handle and its stream catalog

    Models class [YtdlPafy] of src/pafy/backend_youtube_dl.py, lines
    30-104.  A handle is a Python object: its flags, its info dict and its
    expiry are fields of the record [YtdlPafy], its metadata attributes
    ([_title], [_author], ...) live in the attribute store [attrs] under
    their source names, and its six stream lists in [lists].  The methods
    run in the monad [pym] over a [world]: the handle, the process-wide
    default options that every handle aliases ([g.def_ydl_opts]), the
    clock, and the log of callback invocations.

    The collaborators are the fields of the class [Backend]: the
    extraction backend, the secondary metadata provider, and the constants
    of module [g].  Every theorem holds for any instance. *)

From Stdlib Require Import ZArith Lia Ascii.
From stdpp Require Import base tactics option list strings gmap.
From S2P Require Import Prelude PyValue Stream.

(** ** The collaborators *)

Class Backend : Type := {
  (** [yt_dlp.YoutubeDL(opts).extract_info(videoid, download=False)] *)
  extract_info : gmap string pyval -> string -> res pyval;
  (** [self._get_video_gdata(videoid)] *)
  get_video_gdata : string -> res pyval;
  (** [g.urls] and [g.lifespan] *)
  g_urls : gmap string string;
  g_lifespan : Z
}.

(** ** State *)

Record YtdlPafy : Type := mkYtdlPafy {
  videoid : string;
  callback : bool;
  _have_basic : bool;
  _have_gdata : bool;
  _ydl_info : pyval;
  attrs : gmap string pyval;
  lists : gmap string (list YtdlStream);
  expiry : option Z
}.

Record world : Type := mkWorld {
  self : YtdlPafy;
  def_ydl_opts : gmap string pyval;
  clock : Z;
  cb_log : list string
}.

#[warnings="-notation-for-abbreviation"] Notation method := (pym world pyexn).

(** Attribute assignments [self.x = v]. *)
Definition set_self (f : YtdlPafy -> YtdlPafy) (w : world) : world :=
  {| self := f (self w); def_ydl_opts := def_ydl_opts w;
     clock := clock w; cb_log := cb_log w |}.

Definition set_have_basic (b : bool) (h : YtdlPafy) : YtdlPafy :=
  {| videoid := videoid h; callback := callback h; _have_basic := b;
     _have_gdata := _have_gdata h; _ydl_info := _ydl_info h;
     attrs := attrs h; lists := lists h; expiry := expiry h |}.

Definition set_have_gdata (b : bool) (h : YtdlPafy) : YtdlPafy :=
  {| videoid := videoid h; callback := callback h; _have_basic := _have_basic h;
     _have_gdata := b; _ydl_info := _ydl_info h;
     attrs := attrs h; lists := lists h; expiry := expiry h |}.

Definition set_ydl_info (v : pyval) (h : YtdlPafy) : YtdlPafy :=
  {| videoid := videoid h; callback := callback h; _have_basic := _have_basic h;
     _have_gdata := _have_gdata h; _ydl_info := v;
     attrs := attrs h; lists := lists h; expiry := expiry h |}.

Definition set_attr (k : string) (v : pyval) (h : YtdlPafy) : YtdlPafy :=
  {| videoid := videoid h; callback := callback h; _have_basic := _have_basic h;
     _have_gdata := _have_gdata h; _ydl_info := _ydl_info h;
     attrs := <[k := v]> (attrs h); lists := lists h; expiry := expiry h |}.

Definition set_list (k : string) (l : list YtdlStream) (h : YtdlPafy) : YtdlPafy :=
  {| videoid := videoid h; callback := callback h; _have_basic := _have_basic h;
     _have_gdata := _have_gdata h; _ydl_info := _ydl_info h;
     attrs := attrs h; lists := <[k := l]> (lists h); expiry := expiry h |}.

Definition set_expiry (t : Z) (h : YtdlPafy) : YtdlPafy :=
  {| videoid := videoid h; callback := callback h; _have_basic := _have_basic h;
     _have_gdata := _have_gdata h; _ydl_info := _ydl_info h;
     attrs := attrs h; lists := lists h; expiry := Some t |}.

(** [self.callback(msg)], recorded in the log. *)
Definition call_callback (msg : string) (w : world) : world :=
  {| self := self w; def_ydl_opts := def_ydl_opts w;
     clock := clock w; cb_log := cb_log w ++ [msg] |}.

Definition assign (k : string) (v : pyval) : method unit :=
  smodify (set_self (set_attr k v)).

Definition assign_list (k : string) (l : list YtdlStream) : method unit :=
  smodify (set_self (set_list k l)).

(** A stream list of the handle; a list never assigned is empty. *)
Definition get_list (h : YtdlPafy) (k : string) : list YtdlStream :=
  default [] (lists h !! k).

(** ** String formatting *)

(** [template % arg] for a string argument: [%s] is replaced by [arg],
    [%%] by a percent sign, and exactly one [%s] must occur.  Other
    conversions are outside the model. *)
Fixpoint percent_scan (template arg : string) : result pyexn (nat * string) :=
  match template with
  | EmptyString => Ok (0, EmptyString)
  | String "%" (String "s" rest) =>
      rbind (percent_scan rest arg) (fun '(n, out) => Ok (S n, arg +:+ out))
  | String "%" (String "%" rest) =>
      rbind (percent_scan rest arg) (fun '(n, out) => Ok (n, String "%" out))
  | String "%" _ => Undef
  | String c rest =>
      rbind (percent_scan rest arg) (fun '(n, out) => Ok (n, String c out))
  end.

Definition py_percent (template arg : string) : res string :=
  rbind (percent_scan template arg) (fun '(n, out) =>
    if Nat.eqb n 1 then Ok out else Raise TypeError).

(** ** Construction *)

(** The handle [BasePafy.__init__] leaves, before any fetch: flags
    cleared, nothing cached. *)
Definition BasePafy_init (vid : string) (cb : bool) : YtdlPafy :=
  {| videoid := vid; callback := cb; _have_basic := false;
     _have_gdata := false; _ydl_info := VNone; attrs := ∅; lists := ∅;
     expiry := None |}.

(** Lines 31-36.  [self._ydl_opts] is the dict [g.def_ydl_opts] itself,
    so [update] writes the caller's options into the process-wide
    defaults. *)
Definition YtdlPafy_init (vid : string) (cb : bool)
    (ydl_opts : option (gmap string pyval)) (g_opts : gmap string pyval)
    (now : Z) : world :=
  let g_opts' :=
    match ydl_opts with
    | Some o => if py_truthy (VDict o) then o ∪ g_opts else g_opts
    | None => g_opts
    end in
  {| self := BasePafy_init vid cb; def_ydl_opts := g_opts';
     clock := now; cb_log := [] |}.

(** [self._ydl_opts]: the shared defaults. *)
Definition _ydl_opts (w : world) : gmap string pyval := def_ydl_opts w.

(** The six assignments of lines 99-104, as one update of the handle. *)
Definition install_catalog (allstreams : list YtdlStream) (h : YtdlPafy) : YtdlPafy :=
  set_list "_allstreams" allstreams
    (set_list "_oggstreams"
       (filter (fun i => py_eq_str (_extension i) "ogg" = true) allstreams)
    (set_list "_m4astreams"
       (filter (fun i => py_eq_str (_extension i) "m4a" = true) allstreams)
    (set_list "_videostreams" (filter (fun i => _mediatype i = video) allstreams)
    (set_list "_audiostreams" (filter (fun i => _mediatype i = audio) allstreams)
    (set_list "_streams" (filter (fun i => _mediatype i = normal) allstreams) h))))).

(** The names of the five filtered lists. *)
Definition filtered_lists : list string :=
  ["_streams"; "_audiostreams"; "_videostreams"; "_m4astreams"; "_oggstreams"].

(** The attributes lines 52-74 assign from a dict [d], in order, given
    the values of the four expressions that can fail. *)
Definition basic_fields (d : gmap string pyval) (cat thumb big bighd : pyval) :
    list (string * pyval) :=
  [("_title", dict_get d "title" (VStr "NA"));
   ("_author", dict_get d "uploader" (VStr "NA"));
   ("_rating", dict_get d "average_rating" (VStr "NA"));
   ("_length", dict_get d "duration" (VInt 0));
   ("_viewcount", dict_get d "view_count" VNone);
   ("_likes", dict_get d "like_count" (VInt 0));
   ("_username", dict_get d "uploader_id" VNone);
   ("_subtitles", dict_get d "subtitles" (VDict ∅));
   ("_category", cat); ("_bestthumb", thumb);
   ("_bigthumb", big); ("_bigthumbhd", bighd)].

Definition assign_all (fs : list (string * pyval)) (h : YtdlPafy) : YtdlPafy :=
  foldl (fun h kv => set_attr kv.1 kv.2 h) h fs.

(** The callback's log after the message of line 51. *)
Definition log_fetched (w : world) : list string :=
  if callback (self w) then cb_log w ++ ["Fetched video info"] else cb_log w.

(** ** Example collaborators *)

(** The info dict of a video with three formats. *)
Definition ex_info_dict : gmap string pyval :=
  list_to_map
    [("title", VStr "Song"); ("uploader", VStr "Band");
     ("view_count", VInt 10); ("uploader_id", VStr "band");
     ("categories", VList [VStr "Music"]);
     ("thumbnails", VList [VDict {[ "url" := VStr "http://t/0.jpg" ]}]);
     ("formats", VList [VDict ex_vp9; VDict ex_opus; VDict ex_manifest])].

(** The same video with a format whose bitrate is None in second place. *)
Definition ex_info_bad_format : gmap string pyval :=
  <["formats" := VList [VDict ex_vp9; VDict ex_abr_none; VDict ex_opus]]> ex_info_dict.

(** A backend that knows the videos "vid" and "bad", reports a third,
    "thin", without its view count, and fails on every other id. *)
Definition ex_backend : Backend :=
  {| extract_info := fun opts vid =>
       if String.eqb vid "vid" then Ok (VDict ex_info_dict)
       else if String.eqb vid "bad" then Ok (VDict ex_info_bad_format)
       else if String.eqb vid "thin" then Ok (VDict (delete "view_count" ex_info_dict))
       else Raise (DownloadError "ERROR: YouTube said: Video unavailable");
     get_video_gdata := fun vid =>
       Ok (VDict {[ "items" := VList [VDict {[ "snippet" := VDict
         (list_to_map [("publishedAt", VStr "2020-01-01T00:00:00Z");
                       ("description", VStr "A song")]) ]}] ]});
     g_urls := list_to_map
       [("bigthumb", "http://i.ytimg.com/vi/%s/mqdefault.jpg");
        ("bigthumbhd", "http://i.ytimg.com/vi/%s/hqdefault.jpg")];
     g_lifespan := 18000 |}.

(** A provider whose answer has no item. *)
Definition ex_backend_no_items : Backend :=
  {| extract_info := @extract_info ex_backend;
     get_video_gdata := fun vid => Ok (VDict {[ "items" := VList [] ]});
     g_urls := @g_urls ex_backend; g_lifespan := 18000 |}.

(** The snippet [ex_backend]'s provider returns. *)
Definition ex_snippet : gmap string pyval :=
  list_to_map [("publishedAt", VStr "2020-01-01T00:00:00Z");
               ("description", VStr "A song")].

(** Fresh handles with a callback, created at time 1000 with no options. *)
Definition ex_world (vid : string) : world := YtdlPafy_init vid true None ∅ 1000.

Section Methods.
Context `{B : Backend}.

Local Open Scope pym_scope.

(** ** _fetch_basic *)

(** Lines 43-48: the call of the extraction backend; a [DownloadError]
    becomes an [IOError] with the phrase substituted. *)
Definition fetch_info : method pyval :=
  w <- sget ;;
  scatch (slift (extract_info (_ydl_opts w) (videoid (self w))))
    (fun e =>
       match e with
       | DownloadError msg =>
           sraise (IOError (str_replace "YouTube said" "Youtube says" msg))
       | _ => sraise e
       end).

(** [try: self.x = info[key] except: self.x = "NA"] *)
Definition assign_or_NA (attr key : string) (info : pyval) : method unit :=
  scatch (v <- slift (py_getitem info key) ;; assign attr v)
    (fun _ => assign attr (VStr "NA")).

(** Lines 69-71. *)
Definition first_category (info : pyval) : res pyval :=
  (cats <- py_getitem info "categories" ;;
   if py_truthy cats
   then (cats' <- py_getitem info "categories" ;; py_getitem_int cats' 0)
   else Ok (VStr EmptyString))%res.

(** Line 72. *)
Definition best_thumbnail (info : pyval) : res pyval :=
  (thumbs <- py_getitem info "thumbnails" ;;
   t0 <- py_getitem_int thumbs 0 ;;
   py_getitem t0 "url")%res.

(** Lines 73-74. *)
Definition thumb_url (name : string) (vid : string) : res pyval :=
  (template <- of_option (KeyError (VStr name)) (g_urls !! name) ;;
   s <- py_percent template vid ;;
   Ok (VStr s))%res.

(** Lines 38-77. *)
Definition _fetch_basic : method unit :=
  w <- sget ;;
  if _have_basic (self w) then sret tt else
  info <- fetch_info ;;
  smodify (set_self (set_ydl_info info)) ;;
  (if callback (self w) then smodify (call_callback "Fetched video info")
   else sret tt) ;;
  assign_or_NA "_title" "title" info ;;
  assign_or_NA "_author" "uploader" info ;;
  assign_or_NA "_rating" "average_rating" info ;;
  v <- slift (py_get info "duration" (VInt 0)) ;; assign "_length" v ;;
  v <- slift (py_getitem info "view_count") ;; assign "_viewcount" v ;;
  v <- slift (py_get info "like_count" (VInt 0)) ;; assign "_likes" v ;;
  v <- slift (py_getitem info "uploader_id") ;; assign "_username" v ;;
  v <- slift (py_get info "subtitles" (VDict ∅)) ;; assign "_subtitles" v ;;
  v <- slift (first_category info) ;; assign "_category" v ;;
  v <- slift (best_thumbnail info) ;; assign "_bestthumb" v ;;
  v <- slift (thumb_url "bigthumb" (videoid (self w))) ;; assign "_bigthumb" v ;;
  v <- slift (thumb_url "bigthumbhd" (videoid (self w))) ;; assign "_bigthumbhd" v ;;
  smodify (set_self (set_expiry (clock w + g_lifespan))) ;;
  smodify (set_self (set_have_basic true)).

(** ** _fetch_gdata *)

(** [uni(v)] is [str(v)]. *)
Definition uni (v : pyval) : res pyval := rmap VStr (py_str v).

(** Lines 79-90. *)
Definition _fetch_gdata : method unit :=
  w <- sget ;;
  if _have_gdata (self w) then sret tt else
  gdata <- slift (get_video_gdata (videoid (self w))) ;;
  items <- slift (py_getitem gdata "items") ;;
  item <- slift (py_getitem_int items 0) ;;
  snippet <- slift (py_getitem item "snippet") ;;
  v <- slift (rbind (py_getitem snippet "publishedAt") uni) ;;
  assign "_published" v ;;
  v <- slift (rbind (py_getitem snippet "description") uni) ;;
  assign "_description" v ;;
  tags <- slift (py_get snippet "tags" (VList [])) ;;
  ts <- slift (py_iter tags) ;;
  ks <- slift (mapM_res uni ts) ;;
  assign "_keywords" (VList ks) ;;
  smodify (set_self (set_have_gdata true)).

(** ** _process_streams *)

(** The list comprehension of line 98. *)
Definition build_streams (info : pyval) (parent : string) : res (list YtdlStream) :=
  (formats <- py_getitem info "formats" ;;
   zs <- py_iter formats ;;
   mapM_res (fun z => YtdlStream_init z parent) zs)%res.

(** Lines 92-104. *)
Definition _process_streams : method unit :=
  w <- sget ;;
  (if negb (_have_basic (self w)) then _fetch_basic else sret tt) ;;
  w <- sget ;;
  allstreams <- slift (build_streams (_ydl_info (self w)) (videoid (self w))) ;;
  assign_list "_streams" (filter (fun i => _mediatype i = normal) allstreams) ;;
  assign_list "_audiostreams" (filter (fun i => _mediatype i = audio) allstreams) ;;
  assign_list "_videostreams" (filter (fun i => _mediatype i = video) allstreams) ;;
  assign_list "_m4astreams"
    (filter (fun i => py_eq_str (_extension i) "m4a" = true) allstreams) ;;
  assign_list "_oggstreams"
    (filter (fun i => py_eq_str (_extension i) "ogg" = true) allstreams) ;;
  assign_list "_allstreams" allstreams.


(** The world after lines 43-63 on a dict: info stored, callback invoked,
    the three defaulted attributes assigned. *)
Definition after_defaults (d : gmap string pyval) (w : world) : world :=
  set_self (set_attr "_rating" (dict_get d "average_rating" (VStr "NA")))
    (set_self (set_attr "_author" (dict_get d "uploader" (VStr "NA")))
    (set_self (set_attr "_title" (dict_get d "title" (VStr "NA")))
    (let w1 := set_self (set_ydl_info (VDict d)) w in
     if callback (self w) then call_callback "Fetched video info" w1 else w1))).

(** The world after a successful basic fetch on a dict [d]. *)
Definition fetched (d : gmap string pyval) (cat thumb big bighd : pyval)
    (w : world) : world :=
  {| self := set_have_basic true
       (set_expiry (clock w + g_lifespan)
          (assign_all (basic_fields d cat thumb big bighd)
             (set_ydl_info (VDict d) (self w))));
     def_ydl_opts := def_ydl_opts w; clock := clock w;
     cb_log := log_fetched w |}.

(** ** The catalog *)

(** [_process_streams] is the fetch when needed, then the comprehension,
    then the six assignments; a failure of the comprehension assigns
    nothing. *)
Lemma process_streams_run w :
  _process_streams w =
  let '(r1, w1) := if _have_basic (self w) then (Ok tt, w) else _fetch_basic w in
  match r1 with
  | Ok _ =>
      match build_streams (_ydl_info (self w1)) (videoid (self w1)) with
      | Ok all => (Ok tt, set_self (install_catalog all) w1)
      | Raise e => (Raise e, w1)
      | Undef => (Undef, w1)
      end
  | Raise e => (Raise e, w1)
  | Undef => (Undef, w1)
  end.
Proof.
  unfold _process_streams. unfold sbind at 1. unfold sget at 1.
  destruct (_have_basic (self w)); cbn [negb]; unfold sbind at 1.
  - unfold sret at 1, sbind, sget, slift. by destruct (build_streams _ _).
  - destruct (_fetch_basic w) as [[[]| |] w1]; [|done..].
    unfold sbind, sget, slift. by destruct (build_streams _ _).
Qed.

Lemma install_catalog_lists all h :
  let h' := install_catalog all h in
  get_list h' "_allstreams" = all /\
  get_list h' "_streams" = filter (fun i => _mediatype i = normal) all /\
  get_list h' "_audiostreams" = filter (fun i => _mediatype i = audio) all /\
  get_list h' "_videostreams" = filter (fun i => _mediatype i = video) all /\
  get_list h' "_m4astreams" = filter (fun i => py_eq_str (_extension i) "m4a" = true) all /\
  get_list h' "_oggstreams" = filter (fun i => py_eq_str (_extension i) "ogg" = true) all.
Proof. unfold get_list, install_catalog; simpl. by simplify_map_eq. Qed.

Lemma YtdlPafy_eq (h1 h2 : YtdlPafy) :
  videoid h1 = videoid h2 -> callback h1 = callback h2 ->
  _have_basic h1 = _have_basic h2 -> _have_gdata h1 = _have_gdata h2 ->
  _ydl_info h1 = _ydl_info h2 -> attrs h1 = attrs h2 ->
  lists h1 = lists h2 -> expiry h1 = expiry h2 -> h1 = h2.
Proof. destruct h1, h2; cbn; intros; by subst. Qed.

Lemma install_catalog_frame all h :
  let h' := install_catalog all h in
  videoid h' = videoid h /\ callback h' = callback h /\
  _have_basic h' = _have_basic h /\ _have_gdata h' = _have_gdata h /\
  _ydl_info h' = _ydl_info h /\ attrs h' = attrs h /\ expiry h' = expiry h.
Proof. cbn. repeat split; reflexivity. Qed.

Lemma lists_set_list k l h : lists (set_list k l h) = <[k := l]> (lists h).
Proof. reflexivity. Qed.

Lemma attrs_set_attr k v h : attrs (set_attr k v h) = <[k := v]> (attrs h).
Proof. reflexivity. Qed.

Lemma install_catalog_idemp all h :
  install_catalog all (install_catalog all h) = install_catalog all h.
Proof.
  apply YtdlPafy_eq; [reflexivity..| |reflexivity].
  apply map_eq; intros k. unfold install_catalog.
  rewrite !lists_set_list, !lookup_insert. repeat case_decide; reflexivity.
Qed.

(** A successful [_process_streams]: the state after the fetch, the
    streams built, and the handle with the catalog installed. *)
Lemma process_streams_Ok w w' :
  _process_streams w = (Ok tt, w') <->
  exists w1 all,
    (if _have_basic (self w) then w1 = w else _fetch_basic w = (Ok tt, w1)) /\
    build_streams (_ydl_info (self w1)) (videoid (self w1)) = Ok all /\
    w' = set_self (install_catalog all) w1.
Proof.
  rewrite process_streams_run. split.
  - destruct (_have_basic (self w)).
    + destruct (build_streams _ _) eqn:Hb; intros [= <-]. eauto.
    + destruct (_fetch_basic w) as [[[]| |] w1]; [|done..].
      destruct (build_streams _ _) eqn:Hb; intros [= <-]. eauto.
  - intros (w1 & all & H1 & Hb & ->).
    destruct (_have_basic (self w)); [subst w1|rewrite H1]; by rewrite Hb.
Qed.

(** ** The basic fetch *)

(** Invert a successful run of a sequence of statements in [H]. *)
Ltac pym_inv H :=
  repeat (apply sbind_Ok_inv in H as (? & ? & ? & H)).

(** When the basic data is already there,
    [_fetch_basic] returns at once: the world is unchanged, so the backend
    is not asked again and the callback is not invoked. *)
Theorem fetch_basic_cached w :
  _have_basic (self w) = true -> _fetch_basic w = (Ok tt, w).
Proof. intros H. unfold _fetch_basic, sbind at 1, sget at 1. by rewrite H. Qed.

Lemma fetch_basic_Ok_flag w w' :
  _fetch_basic w = (Ok tt, w') -> _have_basic (self w') = true.
Proof.
  destruct (_have_basic (self w)) eqn:Hb.
  - unfold _fetch_basic, sbind at 1, sget at 1. rewrite Hb. by intros [= <-].
  - unfold _fetch_basic, sbind at 1, sget at 1. rewrite Hb.
    intros H. pym_inv H. by injection H as <-.
Qed.

(** ** Properties of the catalog *)

(** The media kind and the container decide the lists a stream of the
    catalog is in. *)
Lemma catalog_kind w w' s :
  _process_streams w = (Ok tt, w') ->
  s ∈ get_list (self w') "_allstreams" ->
  (s ∈ get_list (self w') "_streams" <-> _mediatype s = normal) /\
  (s ∈ get_list (self w') "_audiostreams" <-> _mediatype s = audio) /\
  (s ∈ get_list (self w') "_videostreams" <-> _mediatype s = video) /\
  (s ∈ get_list (self w') "_m4astreams" <-> py_eq_str (_extension s) "m4a" = true) /\
  (s ∈ get_list (self w') "_oggstreams" <-> py_eq_str (_extension s) "ogg" = true).
Proof.
  intros (w1 & all & _ & _ & ->)%process_streams_Ok.
  destruct (install_catalog_lists all (self w1)) as (Ha & Hn & Hau & Hv & Hm & Ho).
  change (self (set_self _ w1)) with (install_catalog all (self w1)).
  rewrite Ha, Hn, Hau, Hv, Hm, Ho, !list_elem_of_filter. naive_solver.
Qed.

(** C2 (partition).  After [_process_streams], every stream of
    [_allstreams] is in exactly one of [_streams], [_audiostreams] and
    [_videostreams], the one of its media kind, and the three lists
    together have as many elements as [_allstreams]; it is in
    [_m4astreams] exactly when its container is "m4a" and in
    [_oggstreams] exactly when it is "ogg", whatever its kind. *)
Theorem catalog_partition w w' :
  _process_streams w = (Ok tt, w') ->
  let h := self w' in
  length (get_list h "_streams") + length (get_list h "_audiostreams") +
    length (get_list h "_videostreams") = length (get_list h "_allstreams") /\
  forall s, s ∈ get_list h "_allstreams" ->
    (s ∈ get_list h "_streams" <-> _mediatype s = normal) /\
    (s ∈ get_list h "_audiostreams" <-> _mediatype s = audio) /\
    (s ∈ get_list h "_videostreams" <-> _mediatype s = video) /\
    (s ∈ get_list h "_m4astreams" <-> py_eq_str (_extension s) "m4a" = true) /\
    (s ∈ get_list h "_oggstreams" <-> py_eq_str (_extension s) "ogg" = true).
Proof.
  intros Hrun h. split; [|intros s; apply (catalog_kind w w' s Hrun)].
  apply process_streams_Ok in Hrun as (w1 & all & _ & _ & ->).
  destruct (install_catalog_lists all (self w1)) as (Ha & Hn & Hau & Hv & _).
  subst h. change (self (set_self _ w1)) with (install_catalog all (self w1)).
  rewrite Ha, Hn, Hau, Hv.
  apply filter3_length. intros s. destruct (_mediatype s); naive_solver.
Qed.

(** C9 (order).  After [_process_streams], [_allstreams] holds the
    streams of the raw descriptors in the descriptors' order, and each of
    the five filtered lists is a sublist of [_allstreams]: filtering never
    reorders. *)
Theorem catalog_order w w' :
  _process_streams w = (Ok tt, w') ->
  let h := self w' in
  (exists zs, rbind (py_getitem (_ydl_info h) "formats") py_iter = Ok zs /\
     Forall2 (fun z s => YtdlStream_init z (videoid h) = Ok s) zs
       (get_list h "_allstreams")) /\
  Forall (fun k => get_list h k `sublist_of` get_list h "_allstreams") filtered_lists.
Proof.
  intros (w1 & all & _ & Hb & ->)%process_streams_Ok h.
  destruct (install_catalog_lists all (self w1)) as (Ha & Hn & Hau & Hv & Hm & Ho).
  subst h. change (self (set_self _ w1)) with (install_catalog all (self w1)).
  split.
  - unfold build_streams in Hb. rewrite Ha.
    change (_ydl_info (install_catalog all (self w1))) with (_ydl_info (self w1)).
    change (videoid (install_catalog all (self w1))) with (videoid (self w1)).
    destruct (py_getitem _ _) as [f| |]; [simpl in *|done..].
    destruct (py_iter f) as [zs| |]; [simpl in *|done..].
    exists zs. split; [done|]. by apply mapM_res_Ok_iff.
  - unfold filtered_lists. rewrite Ha.
    repeat (apply Forall_cons; split); [..|by apply Forall_nil];
      rewrite ?Hn, ?Hau, ?Hv, ?Hm, ?Ho; apply sublist_filter.
Qed.

(** C34 (all or nothing).  When the basic data is there and the
    constructor raises on one descriptor, with every earlier descriptor
    accepted, [_process_streams] raises that exception and assigns
    nothing: the world is unchanged. *)
Theorem catalog_atomic w l1 z l2 e :
  _have_basic (self w) = true ->
  rbind (py_getitem (_ydl_info (self w)) "formats") py_iter = Ok (l1 ++ z :: l2) ->
  Forall (fun z' => is_Ok (YtdlStream_init z' (videoid (self w))) = true) l1 ->
  YtdlStream_init z (videoid (self w)) = Raise e ->
  _process_streams w = (Raise e, w).
Proof.
  intros Hb Hf Hl1 Hz. rewrite process_streams_run, Hb.
  unfold build_streams. rewrite <-rbind_assoc, Hf. cbn [rbind].
  by rewrite (mapM_res_Raise _ _ _ _ _ Hl1 Hz).
Qed.

(** C35 (idempotence).  Running [_process_streams] again after a
    successful run changes nothing: the catalog is a function of the raw
    descriptor list. *)
Theorem catalog_idempotent w w' :
  _process_streams w = (Ok tt, w') -> _process_streams w' = (Ok tt, w').
Proof.
  intros (w1 & all & H1 & Hb & ->)%process_streams_Ok.
  assert (_have_basic (self w1) = true) as Hflag.
  { destruct (_have_basic (self w)) eqn:?; [by subst|by eapply fetch_basic_Ok_flag]. }
  apply process_streams_Ok. exists (set_self (install_catalog all) w1), all.
  change (_have_basic (self (set_self (install_catalog all) w1)))
    with (_have_basic (self w1)).
  rewrite Hflag. split; [done|]. split; [exact Hb|].
  unfold set_self. cbn [self def_ydl_opts clock cb_log].
  by rewrite install_catalog_idemp.
Qed.

(** ** Running the basic fetch *)

Lemma fetch_info_Ok w info :
  extract_info (_ydl_opts w) (videoid (self w)) = Ok info ->
  fetch_info w = (Ok info, w).
Proof. intros H. unfold fetch_info, sbind, sget, scatch, slift. by rewrite H. Qed.

(** The three defaulted attributes: the value of the key, or "NA" when
    the subscript raises (a missing key, or an info that is no dict). *)
Lemma assign_or_NA_run attr key info w :
  assign_or_NA attr key info w =
  (Ok tt, set_self (set_attr attr
     (match py_getitem info key with Ok v => v | _ => VStr "NA" end)) w).
Proof.
  unfold assign_or_NA, scatch, sbind, slift, assign, smodify.
  destruct (py_getitem info key) eqn:H; [done..|].
  by apply py_getitem_defined in H.
Qed.

Lemma assign_or_NA_dict attr key d w :
  assign_or_NA attr key (VDict d) w =
  (Ok tt, set_self (set_attr attr (dict_get d key (VStr "NA"))) w).
Proof.
  rewrite assign_or_NA_run. unfold py_getitem, dict_get.
  by destruct (d !! key).
Qed.

(** C22 (resolution error).  When the backend raises [DownloadError],
    [_fetch_basic] raises [IOError] with the backend's message in which
    "YouTube said" is replaced by "Youtube says", and leaves the world as it
    was: the flag stays cleared and the callback is not invoked. *)
Theorem fetch_basic_download_error w msg :
  _have_basic (self w) = false ->
  extract_info (_ydl_opts w) (videoid (self w)) = Raise (DownloadError msg) ->
  _fetch_basic w =
  (Raise (IOError (str_replace "YouTube said" "Youtube says" msg)), w).
Proof.
  intros Hb He. unfold _fetch_basic, sbind at 1, sget at 1. rewrite Hb.
  unfold sbind at 1, fetch_info, sbind at 1, sget at 1, scatch, slift.
  by rewrite He.
Qed.

Lemma py_getitem_dict_get (d : gmap string pyval) k default :
  is_Some (d !! k) -> py_getitem (VDict d) k = Ok (dict_get d k default).
Proof. intros [v Hv]. unfold py_getitem, dict_get. by rewrite Hv. Qed.

Lemma world_eq (w1 w2 : world) :
  self w1 = self w2 -> def_ydl_opts w1 = def_ydl_opts w2 ->
  clock w1 = clock w2 -> cb_log w1 = cb_log w2 -> w1 = w2.
Proof. destruct w1, w2; cbn; intros; by subst. Qed.

Lemma after_defaults_run d w :
  _have_basic (self w) = false ->
  extract_info (_ydl_opts w) (videoid (self w)) = Ok (VDict d) ->
  _fetch_basic w =
  (v <- slift (py_get (VDict d) "duration" (VInt 0)) ;; assign "_length" v ;;
   v <- slift (py_getitem (VDict d) "view_count") ;; assign "_viewcount" v ;;
   v <- slift (py_get (VDict d) "like_count" (VInt 0)) ;; assign "_likes" v ;;
   v <- slift (py_getitem (VDict d) "uploader_id") ;; assign "_username" v ;;
   v <- slift (py_get (VDict d) "subtitles" (VDict ∅)) ;; assign "_subtitles" v ;;
   v <- slift (first_category (VDict d)) ;; assign "_category" v ;;
   v <- slift (best_thumbnail (VDict d)) ;; assign "_bestthumb" v ;;
   v <- slift (thumb_url "bigthumb" (videoid (self w))) ;; assign "_bigthumb" v ;;
   v <- slift (thumb_url "bigthumbhd" (videoid (self w))) ;; assign "_bigthumbhd" v ;;
   smodify (set_self (set_expiry (clock w + g_lifespan))) ;;
   smodify (set_self (set_have_basic true))) (after_defaults d w).
Proof.
  intros Hb He. unfold _fetch_basic. rewrite sbind_get, Hb.
  rewrite (sbind_Ok _ _ _ _ _ (fetch_info_Ok _ _ He)).
  rewrite sbind_modify, sbind_if_modify.
  by rewrite 3!(sbind_Ok _ _ _ _ _ (assign_or_NA_dict _ _ _ _)).
Qed.

(** C21 (basic fetch).  On a cleared handle, when the backend returns a
    dict that has [view_count] and [uploader_id] and whose category,
    thumbnail and the two thumbnail templates evaluate, [_fetch_basic]
    succeeds and leaves exactly the world [fetched]: the info stored, the
    twelve attributes assigned with "NA" or 0 for the optional keys that are
    missing, the expiry at clock plus lifespan, the flag set, the callback
    invoked once if there is one, the default options untouched. *)
Theorem fetch_basic_Ok w d cat thumb big bighd :
  _have_basic (self w) = false ->
  extract_info (_ydl_opts w) (videoid (self w)) = Ok (VDict d) ->
  is_Some (d !! "view_count") -> is_Some (d !! "uploader_id") ->
  first_category (VDict d) = Ok cat -> best_thumbnail (VDict d) = Ok thumb ->
  thumb_url "bigthumb" (videoid (self w)) = Ok big ->
  thumb_url "bigthumbhd" (videoid (self w)) = Ok bighd ->
  _fetch_basic w = (Ok tt, fetched d cat thumb big bighd w).
Proof.
  intros Hb He Hvc Huid Hcat Hth Hbig Hbighd.
  rewrite (after_defaults_run d w Hb He). unfold assign.
  rewrite (py_getitem_dict_get _ _ VNone Hvc), (py_getitem_dict_get _ _ VNone Huid).
  rewrite Hcat, Hth, Hbig, Hbighd. cbn [py_get].
  repeat pym_step. unfold smodify. f_equal.
  unfold after_defaults, fetched, log_fetched.
  destruct (callback (self w)); apply world_eq; reflexivity.
Qed.

(** C37 (missing view count).  When the backend's dict has no
    [view_count], [_fetch_basic] raises [KeyError] after it has stored the
    info, invoked the callback and assigned the first four attributes: the
    handle is left half populated with its flag cleared, so that the next
    call asks the backend again. *)
Theorem fetch_basic_missing_view_count w d :
  _have_basic (self w) = false ->
  extract_info (_ydl_opts w) (videoid (self w)) = Ok (VDict d) ->
  d !! "view_count" = None ->
  exists w',
    _fetch_basic w = (Raise (KeyError (VStr "view_count")), w') /\
    _have_basic (self w') = false /\ _ydl_info (self w') = VDict d /\
    cb_log w' = log_fetched w /\
    attrs (self w') !! "_title" = Some (dict_get d "title" (VStr "NA")) /\
    attrs (self w') !! "_viewcount" = attrs (self w) !! "_viewcount".
Proof.
  intros Hb He Hvc. eexists. split.
  - rewrite (after_defaults_run d w Hb He). unfold assign. cbn [py_get].
    rewrite (py_getitem_KeyError _ _ Hvc). by repeat pym_step.
  - unfold after_defaults, log_fetched.
    destruct (callback (self w)); repeat split; try done;
      unfold set_self; cbn [self]; rewrite !attrs_set_attr; by simplify_map_eq.
Qed.

End Methods.

(** ** Construction and the shared defaults *)

(** The options a handle is created with are
    written into the process-wide defaults: a handle created afterwards
    with no options of its own extracts with the first handle's options,
    which override the original defaults key by key. *)
Theorem init_shares_defaults vid1 cb1 now1 vid2 cb2 now2 (o g : gmap string pyval) :
  o <> ∅ ->
  let w1 := YtdlPafy_init vid1 cb1 (Some o) g now1 in
  let w2 := YtdlPafy_init vid2 cb2 None (def_ydl_opts w1) now2 in
  _ydl_opts w2 = o ∪ g /\
  forall k v, o !! k = Some v -> _ydl_opts w2 !! k = Some v.
Proof.
  intros Ho. cbn. unfold _ydl_opts; cbn.
  assert (Nat.eqb (size o) 0 = false) as ->.
  { apply Nat.eqb_neq. by apply map_size_non_empty_iff. }
  cbn. split; [done|]. intros k v Hk. by apply lookup_union_Some_l.
Qed.

Lemma init_shares_defaults_witness :
  _ydl_opts (YtdlPafy_init "b" false None
     (def_ydl_opts (YtdlPafy_init "a" false (Some {[ "quiet" := VBool false ]})
                       {[ "quiet" := VBool true ]} 0)) 1) !! "quiet"
  = Some (VBool false).
Proof.
  apply (init_shares_defaults "a" false 0 "b" false 1
           {[ "quiet" := VBool false ]} {[ "quiet" := VBool true ]}).
  - apply insert_non_empty.
  - apply lookup_singleton_eq.
Defined.

Section Gdata.
Context `{B : Backend}.

(** ** The secondary fetch *)

(** When the secondary data is already there,
    [_fetch_gdata] returns at once and changes nothing. *)
Theorem fetch_gdata_cached w :
  _have_gdata (self w) = true -> _fetch_gdata w = (Ok tt, w).
Proof. intros H. unfold _fetch_gdata. by rewrite sbind_get, H. Qed.

(** C38 (gdata).  With a provider answer whose first item has a snippet
    with string [publishedAt] and [description] and no [tags],
    [_fetch_gdata] stores the two strings, an empty keyword list, and sets
    its flag; nothing else changes. *)
Theorem fetch_gdata_no_tags w (snippet : gmap string pyval) rest pub descr :
  _have_gdata (self w) = false ->
  get_video_gdata (videoid (self w)) =
    Ok (VDict {[ "items" := VList (VDict {[ "snippet" := VDict snippet ]} :: rest) ]}) ->
  snippet !! "publishedAt" = Some (VStr pub) ->
  snippet !! "description" = Some (VStr descr) ->
  snippet !! "tags" = None ->
  _fetch_gdata w =
  (Ok tt, set_self (fun h => set_have_gdata true
     (set_attr "_keywords" (VList [])
     (set_attr "_description" (VStr descr)
     (set_attr "_published" (VStr pub) h)))) w).
Proof.
  intros Hg Hd Hp Hde Ht. unfold _fetch_gdata. rewrite sbind_get, Hg.
  rewrite (sbind_lift_Ok _ _ _ _ Hd).
  erewrite sbind_lift_Ok by (cbn; by rewrite lookup_singleton_eq).
  erewrite sbind_lift_Ok by (cbn; reflexivity).
  erewrite sbind_lift_Ok by (cbn; by rewrite lookup_singleton_eq).
  erewrite sbind_lift_Ok by (cbn; rewrite Hp; cbn; reflexivity).
  unfold assign. rewrite sbind_modify.
  erewrite sbind_lift_Ok by (cbn; rewrite Hde; cbn; reflexivity).
  rewrite sbind_modify.
  erewrite sbind_lift_Ok by (cbn; unfold dict_get; rewrite Ht; reflexivity).
  erewrite sbind_lift_Ok by reflexivity.
  erewrite sbind_lift_Ok by reflexivity.
  rewrite sbind_modify. reflexivity.
Qed.

(** When the provider's item list is empty,
    [_fetch_gdata] raises [IndexError] and changes nothing: the item list
    is required although the tags are optional. *)
Theorem fetch_gdata_no_items w :
  _have_gdata (self w) = false ->
  get_video_gdata (videoid (self w)) = Ok (VDict {[ "items" := VList [] ]}) ->
  _fetch_gdata w = (Raise IndexError, w).
Proof.
  intros Hg Hd. unfold _fetch_gdata. rewrite sbind_get, Hg.
  rewrite (sbind_lift_Ok _ _ _ _ Hd).
  erewrite sbind_lift_Ok by (cbn; by rewrite lookup_singleton_eq).
  by erewrite sbind_lift_Raise by reflexivity.
Qed.

End Gdata.

(** ** Witnesses on the example backend *)

Lemma fetch_basic_cached_witness :
  let w := (@_fetch_basic ex_backend (ex_world "vid")).2 in
  @_fetch_basic ex_backend w = (Ok tt, w).
Proof. apply (@fetch_basic_cached ex_backend). vm_compute; reflexivity. Defined.

Lemma catalog_partition_witness :
  let h := self (@_process_streams ex_backend (ex_world "vid")).2 in
  length (get_list h "_streams") + length (get_list h "_audiostreams") +
    length (get_list h "_videostreams") = 3 /\
  length (get_list h "_allstreams") = 3.
Proof.
  destruct (@catalog_partition ex_backend (ex_world "vid")
              (@_process_streams ex_backend (ex_world "vid")).2) as [Hlen _];
    [vm_compute; reflexivity|].
  split; [rewrite Hlen|]; vm_compute; reflexivity.
Defined.

Lemma catalog_order_witness :
  let h := self (@_process_streams ex_backend (ex_world "vid")).2 in
  Forall (fun k => get_list h k `sublist_of` get_list h "_allstreams") filtered_lists.
Proof.
  apply (@catalog_order ex_backend (ex_world "vid")). vm_compute; reflexivity.
Defined.

Lemma catalog_atomic_witness :
  let w := (@_fetch_basic ex_backend (ex_world "bad")).2 in
  @_process_streams ex_backend w = (Raise TypeError, w).
Proof.
  apply (@catalog_atomic ex_backend _ [VDict ex_vp9] (VDict ex_abr_none) [VDict ex_opus]).
  - vm_compute; reflexivity.
  - vm_compute; reflexivity.
  - repeat constructor.
  - vm_compute; reflexivity.
Defined.

Lemma catalog_idempotent_witness :
  let w' := (@_process_streams ex_backend (ex_world "vid")).2 in
  @_process_streams ex_backend w' = (Ok tt, w').
Proof.
  apply (@catalog_idempotent ex_backend (ex_world "vid")). vm_compute; reflexivity.
Defined.

Lemma fetch_basic_download_error_witness :
  @_fetch_basic ex_backend (ex_world "gone") =
  (Raise (IOError "ERROR: Youtube says: Video unavailable"), ex_world "gone").
Proof.
  apply (@fetch_basic_download_error ex_backend (ex_world "gone")
           "ERROR: YouTube said: Video unavailable"); vm_compute; reflexivity.
Defined.

Lemma fetch_basic_Ok_witness :
  exists w', @_fetch_basic ex_backend (ex_world "vid") = (Ok tt, w') /\
    expiry (self w') = Some 19000%Z /\ cb_log w' = ["Fetched video info"].
Proof.
  eexists. split; [|split].
  - apply (@fetch_basic_Ok ex_backend (ex_world "vid") ex_info_dict);
      try (vm_compute; eauto; fail).
  - vm_compute; reflexivity.
  - vm_compute; reflexivity.
Defined.

Lemma fetch_basic_missing_view_count_witness :
  exists w', @_fetch_basic ex_backend (ex_world "thin") =
               (Raise (KeyError (VStr "view_count")), w') /\
    _have_basic (self w') = false /\ cb_log w' = ["Fetched video info"].
Proof.
  destruct (@fetch_basic_missing_view_count ex_backend (ex_world "thin")
              (delete "view_count" ex_info_dict))
    as (w' & Hrun & Hflag & _ & Hlog & _); try (vm_compute; reflexivity).
  exists w'. split; [exact Hrun|]. split; [exact Hflag|]. rewrite Hlog.
  vm_compute; reflexivity.
Defined.

Lemma fetch_gdata_cached_witness :
  let w := (@_fetch_gdata ex_backend (ex_world "vid")).2 in
  @_fetch_gdata ex_backend w = (Ok tt, w).
Proof. apply (@fetch_gdata_cached ex_backend). vm_compute; reflexivity. Defined.

Lemma fetch_gdata_no_tags_witness :
  exists w', @_fetch_gdata ex_backend (ex_world "vid") = (Ok tt, w') /\
    attrs (self w') !! "_keywords" = Some (VList []) /\
    _have_gdata (self w') = true.
Proof.
  eexists. split.
  - apply (@fetch_gdata_no_tags ex_backend (ex_world "vid") ex_snippet []
             "2020-01-01T00:00:00Z" "A song"); vm_compute; reflexivity.
  - split; vm_compute; reflexivity.
Defined.

Lemma fetch_gdata_no_items_witness :
  @_fetch_gdata ex_backend_no_items (ex_world "vid") = (Raise IndexError, ex_world "vid").
Proof. apply (@fetch_gdata_no_items ex_backend_no_items); vm_compute; reflexivity. Defined.
