(* ===== verification/Lifecycle.v ===== *)
(** * The life cycle of a handle

    A client uses a handle by calling its three methods in any order, and
    keeps using it after a call raised.  This file states what every
    sequence of calls preserves: the calls as steps of a transition
    system on worlds, each made at a time that is not before that of the
    last one ([at_time]), the invariant [handle_inv] of the worlds
    reachable from a fresh handle, and the abstract machine of fetch
    phases that the handle refines (section 9 of the specification names
    three phases; the code has a fourth, secondary data without basic
    data). *)

From Stdlib Require Import ZArith Lia.
From stdpp Require Import base tactics option list strings gmap relations.
From S2P Require Import Prelude PyValue Stream Pafy.

(** ** Calls and steps *)

Inductive call : Type := CallFetchBasic | CallFetchGdata | CallProcessStreams.

#[export] Instance call_eq_dec : EqDecision call.
Proof. solve_decision. Defined.

(** The attributes the two fetches assign. *)
Definition basic_attr_names : list string :=
  ["_title"; "_author"; "_rating"; "_length"; "_viewcount"; "_likes";
   "_username"; "_subtitles"; "_category"; "_bestthumb"; "_bigthumb";
   "_bigthumbhd"].

Definition gdata_attr_names : list string :=
  ["_published"; "_description"; "_keywords"].

(** What no call changes, and what only grows: the identity of the
    handle and the shared options stay, time does not go back, the
    callback log is a prefix of the later log, and an attribute once
    assigned stays assigned. *)
Record frame (w w' : world) : Prop := mkFrame {
  frame_videoid : videoid (self w') = videoid (self w);
  frame_callback : callback (self w') = callback (self w);
  frame_opts : def_ydl_opts w' = def_ydl_opts w;
  frame_clock : (clock w <= clock w')%Z;
  frame_log : cb_log w `prefix_of` cb_log w';
  frame_attrs : forall k, is_Some (attrs (self w) !! k) ->
                          is_Some (attrs (self w') !! k)
}.

(** The six lists of a catalog built from [all], as a map. *)
Definition catalog_map (all : list YtdlStream) : gmap string (list YtdlStream) :=
  lists (install_catalog all (BasePafy_init EmptyString false)).

(** ** Fetch phases *)

(** The phases of lazy population.  The specification's design note has
    the first, second and fourth. *)
Inductive phase : Type := Unresolved | BasicReady | GdataOnly | FullyReady.

Definition phase_of (h : YtdlPafy) : phase :=
  match _have_basic h, _have_gdata h with
  | false, false => Unresolved
  | true, false => BasicReady
  | false, true => GdataOnly
  | true, true => FullyReady
  end.

Definition with_basic (p : phase) : phase :=
  match p with
  | Unresolved | BasicReady => BasicReady
  | GdataOnly | FullyReady => FullyReady
  end.

Definition with_gdata (p : phase) : phase :=
  match p with
  | Unresolved | GdataOnly => GdataOnly
  | BasicReady | FullyReady => FullyReady
  end.

(** The abstract machine: a call leaves the phase as it is (it failed, or
    had nothing to do), or adds the data it fetches. *)
Inductive phase_step : call -> phase -> phase -> Prop :=
| phase_stutter c p : phase_step c p p
| phase_basic c p : c <> CallFetchGdata -> phase_step c p (with_basic p)
| phase_gdata p : phase_step CallFetchGdata p (with_gdata p).

Section Lifecycle.
Context `{B : Backend}.

Definition run_call (c : call) : method unit :=
  match c with
  | CallFetchBasic => _fetch_basic
  | CallFetchGdata => _fetch_gdata
  | CallProcessStreams => _process_streams
  end.

(** The world when [time.time()] has come to return [t]. *)
Definition at_time (t : Z) (w : world) : world :=
  {| self := self w; def_ydl_opts := def_ydl_opts w; clock := t;
     cb_log := cb_log w |}.

(** One call on the handle, at a time that is not before the last one,
    whatever its outcome. *)
Definition step (w w' : world) : Prop :=
  exists c t, (clock w <= t)%Z /\ w' = (run_call c (at_time t w)).2.

(** The worlds a client can bring a handle to. *)
Definition reachable (w0 w : world) : Prop := rtc step w0 w.

(** A handle on which nothing was fetched or built. *)
Definition fresh (w : world) : Prop :=
  _have_basic (self w) = false /\ _have_gdata (self w) = false /\
  lists (self w) = ∅.

(** The invariant of the worlds reachable from [w0]. *)
Record handle_inv (w0 w : world) : Prop := mkHandleInv {
  inv_frame : frame w0 w;
  inv_basic : _have_basic (self w) = true ->
    extract_info (def_ydl_opts w0) (videoid (self w0)) = Ok (_ydl_info (self w)) /\
    (exists t, (clock w0 <= t <= clock w)%Z /\
               expiry (self w) = Some (t + g_lifespan)%Z) /\
    Forall (fun k => is_Some (attrs (self w) !! k)) basic_attr_names;
  inv_gdata : _have_gdata (self w) = true ->
    Forall (fun k => is_Some (attrs (self w) !! k)) gdata_attr_names;
  inv_catalog : lists (self w) = ∅ \/
    (_have_basic (self w) = true /\
     exists all, build_streams (_ydl_info (self w)) (videoid (self w)) = Ok all /\
                 lists (self w) = catalog_map all)
}.

(** ** The frame *)

Lemma frame_refl w : frame w w.
Proof. by split. Qed.

Lemma frame_trans w1 w2 w3 : frame w1 w2 -> frame w2 w3 -> frame w1 w3.
Proof.
  intros [] []. split; try congruence; [lia | by etrans | auto].
Qed.

(** Time passes between two calls. *)
Lemma frame_at_time w0 w t : frame w0 w -> (clock w <= t)%Z -> frame w0 (at_time t w).
Proof. intros [] Ht. split; try done. cbn. lia. Qed.

(** Updates of the handle that touch neither its identity nor its
    attributes keep the frame. *)
Lemma frame_set_self w0 w (f : YtdlPafy -> YtdlPafy) :
  (forall h, videoid (f h) = videoid h /\ callback (f h) = callback h /\
             attrs (f h) = attrs h) ->
  frame w0 w -> frame w0 (set_self f w).
Proof.
  intros Hf []. destruct (Hf (self w)) as (Hv & Hc & Ha).
  split; try done; unfold set_self; cbn [self]; try congruence.
  intros k Hk. rewrite Ha. auto.
Qed.

Lemma frame_set_attr w0 w k v :
  frame w0 w -> frame w0 (set_self (set_attr k v) w).
Proof.
  intros []. split; try done. intros k' Hk'. unfold set_self; cbn [self].
  rewrite attrs_set_attr, lookup_insert_is_Some'. auto.
Qed.

Lemma frame_call_callback w0 w msg : frame w0 w -> frame w0 (call_callback msg w).
Proof.
  intros []. split; try done. unfold call_callback; cbn [cb_log].
  by apply prefix_app_r.
Qed.

Lemma fetch_info_state w : (fetch_info w).2 = w.
Proof.
  unfold fetch_info, sbind, sget, scatch, slift, sraise.
  by destruct (extract_info _ _) as [|[]|].
Qed.

Lemma preserves_fetch_info (I : world -> Prop) : preserves I fetch_info.
Proof. intros w Hw. by rewrite fetch_info_state. Qed.

Create HintDb frame.
#[local] Hint Resolve frame_set_attr frame_call_callback frame_refl : frame.
#[local] Hint Extern 1 (frame _ (set_self _ _)) =>
  apply frame_set_self; [by intros ?|] : frame.

(** Split a method into its statements and discharge the assignments. *)
Ltac frame_tac :=
  unfold assign_or_NA, assign, assign_list;
  repeat first [ apply preserves_fetch_info | preserves_step ];
  eauto with frame.

Lemma fetch_basic_frame w0 : preserves (frame w0) _fetch_basic.
Proof. unfold _fetch_basic. frame_tac. Qed.

Lemma fetch_gdata_frame w0 : preserves (frame w0) _fetch_gdata.
Proof. unfold _fetch_gdata. frame_tac. Qed.

Lemma process_streams_frame w0 : preserves (frame w0) _process_streams.
Proof.
  unfold _process_streams.
  repeat first [ apply fetch_basic_frame | preserves_step ]; frame_tac.
Qed.

Lemma frame_run_call w0 c : preserves (frame w0) (run_call c).
Proof.
  destruct c; [apply fetch_basic_frame | apply fetch_gdata_frame
              | apply process_streams_frame].
Qed.

(** ** Flags *)

(** Evaluate the projections of an updated world. *)
Ltac proj_simpl :=
  unfold set_self, call_callback;
  cbn [self def_ydl_opts clock cb_log set_attr set_list set_ydl_info set_expiry
       set_have_basic set_have_gdata videoid callback _have_basic _have_gdata
       _ydl_info attrs lists expiry].

(** Split a method into its statements for an invariant that is a
    condition on the projections of the handle. *)
Ltac proj_tac :=
  unfold assign_or_NA, assign, assign_list;
  repeat first [ apply preserves_fetch_info | preserves_step ];
  proj_simpl; intuition auto.

(** What [_fetch_basic] leaves alone, and its flag only ever set. *)
Lemma fetch_basic_keeps hb hg L :
  preserves (fun s => (_have_basic (self s) = hb \/ _have_basic (self s) = true) /\
                      _have_gdata (self s) = hg /\ lists (self s) = L)
    _fetch_basic.
Proof. unfold _fetch_basic. proj_tac. Qed.

Lemma fetch_gdata_keeps hb hg i e L :
  preserves (fun s => _have_basic (self s) = hb /\
                      (_have_gdata (self s) = hg \/ _have_gdata (self s) = true) /\
                      _ydl_info (self s) = i /\ expiry (self s) = e /\
                      lists (self s) = L)
    _fetch_gdata.
Proof. unfold _fetch_gdata. proj_tac. Qed.

Lemma process_streams_keeps hb hg :
  preserves (fun s => (_have_basic (self s) = hb \/ _have_basic (self s) = true) /\
                      _have_gdata (self s) = hg)
    _process_streams.
Proof.
  intros w Hw. rewrite process_streams_run.
  assert ((_have_basic (self (_fetch_basic w).2) = hb \/
           _have_basic (self (_fetch_basic w).2) = true) /\
          _have_gdata (self (_fetch_basic w).2) = hg) as Hf.
  { destruct (fetch_basic_keeps hb hg (lists (self w)) w) as (? & ? & _); tauto. }
  destruct (_have_basic (self w)) eqn:Hb.
  - destruct (build_streams _ _); cbn [snd]; [|by rewrite Hb..].
    unfold install_catalog. proj_simpl. by rewrite Hb.
  - destruct (_fetch_basic w) as [[[]| |] w1]; cbn [snd] in *; [|done..].
    destruct (build_streams _ _); cbn [snd]; [|done..].
    unfold install_catalog. by proj_simpl.
Qed.

(** No method sets the clock. *)
Lemma fetch_basic_clock t : preserves (fun s => clock s = t) _fetch_basic.
Proof. unfold _fetch_basic. proj_tac. Qed.

Lemma call_clock c t : preserves (fun s => clock s = t) (run_call c).
Proof.
  destruct c; cbn [run_call]; [apply fetch_basic_clock| |].
  - unfold _fetch_gdata. proj_tac.
  - unfold _process_streams.
    repeat first [ apply fetch_basic_clock | preserves_step ]; proj_tac.
Qed.

(** No call changes the video id, the callback, the shared
    default options or the clock of a handle; the callback log only grows
    at its end, and an attribute once assigned stays assigned. *)
Theorem call_frame c w :
  frame w (run_call c w).2 /\ clock (run_call c w).2 = clock w.
Proof. split; [apply frame_run_call, frame_refl | by apply call_clock]. Qed.

(** C39 (phases).  Every call is a step of the abstract machine of fetch
    phases: it leaves the phase as it is, or adds the basic data (the two
    calls that fetch it) or the secondary data; a flag once set is never
    cleared. *)
Theorem lifecycle_refines c w :
  phase_step c (phase_of (self w)) (phase_of (self (run_call c w).2)).
Proof.
  unfold phase_of. destruct c; simpl.
  - destruct (fetch_basic_keeps (_have_basic (self w)) (_have_gdata (self w))
                (lists (self w)) w) as ([->| ->] & -> & _); [tauto|..].
    + apply phase_stutter.
    + destruct (_have_basic (self w)), (_have_gdata (self w));
        first [apply phase_stutter | by apply (phase_basic _ Unresolved)
              | by apply (phase_basic _ GdataOnly)].
  - destruct (fetch_gdata_keeps (_have_basic (self w)) (_have_gdata (self w))
                (_ydl_info (self w)) (expiry (self w)) (lists (self w)) w)
      as (-> & [->| ->] & _); [tauto|..].
    + apply phase_stutter.
    + destruct (_have_basic (self w)), (_have_gdata (self w));
        first [apply phase_stutter | apply (phase_gdata Unresolved)
              | apply (phase_gdata BasicReady)].
  - destruct (process_streams_keeps (_have_basic (self w)) (_have_gdata (self w)) w)
      as ([->| ->] & ->); [tauto|..].
    + apply phase_stutter.
    + destruct (_have_basic (self w)), (_have_gdata (self w));
        first [apply phase_stutter | by apply (phase_basic _ Unresolved)
              | by apply (phase_basic _ GdataOnly)].
Qed.

(** ** What a fetch establishes *)

Lemma fetch_info_Ok_inv w info w' :
  fetch_info w = (Ok info, w') ->
  extract_info (_ydl_opts w) (videoid (self w)) = Ok info /\ w' = w.
Proof.
  unfold fetch_info, sbind, sget, scatch, slift, sraise.
  destruct (extract_info _ _) as [|[]|]; by intros [= <- <-].
Qed.

(** A call of [_fetch_basic] that does not return leaves the flag
    cleared. *)
Lemma fetch_basic_fail_flag :
  triple (fun s => _have_basic (self s) = false) _fetch_basic
    (fun _ _ => True) (fun s => _have_basic (self s) = false).
Proof.
  unfold _fetch_basic.
  apply triple_bind_same; [apply preserves_get | done | intros w].
  apply triple_if; intros _; [by apply triple_ret|].
  repeat (apply triple_bind_same; [by proj_tac | done | intros ?]).
  by apply triple_modify.
Qed.

Lemma fetch_gdata_fail_flag :
  triple (fun s => _have_gdata (self s) = false) _fetch_gdata
    (fun _ _ => True) (fun s => _have_gdata (self s) = false).
Proof.
  unfold _fetch_gdata.
  apply triple_bind_same; [apply preserves_get | done | intros w].
  apply triple_if; intros _; [by apply triple_ret|].
  repeat (apply triple_bind_same; [by proj_tac | done | intros ?]).
  by apply triple_modify.
Qed.

(** Projections of an updated world, as rewrite rules: unfolding the
    setters instead would copy the world once per field. *)
Lemma self_set_self f w : self (set_self f w) = f (self w).
Proof. reflexivity. Qed.

Lemma attrs_set_other h :
  (forall t, attrs (set_expiry t h) = attrs h) /\
  (forall b, attrs (set_have_basic b h) = attrs h) /\
  (forall b, attrs (set_have_gdata b h) = attrs h).
Proof. done. Qed.

Lemma ydl_info_set_other h :
  (forall k v, _ydl_info (set_attr k v h) = _ydl_info h) /\
  (forall t, _ydl_info (set_expiry t h) = _ydl_info h) /\
  (forall b, _ydl_info (set_have_basic b h) = _ydl_info h).
Proof. done. Qed.

Lemma expiry_set_have_basic b h : expiry (set_have_basic b h) = expiry h.
Proof. reflexivity. Qed.

Lemma expiry_set_expiry t h : expiry (set_expiry t h) = Some t.
Proof. reflexivity. Qed.

Ltac proj_rw :=
  rewrite ?self_set_self;
  repeat first
    [ rewrite (proj1 (attrs_set_other _))
    | rewrite (proj1 (proj2 (attrs_set_other _)))
    | rewrite (proj2 (proj2 (attrs_set_other _)))
    | rewrite (proj1 (ydl_info_set_other _))
    | rewrite (proj1 (proj2 (ydl_info_set_other _)))
    | rewrite (proj2 (proj2 (ydl_info_set_other _)))
    | rewrite expiry_set_have_basic | rewrite expiry_set_expiry ].

(** An attribute among the keys just inserted is assigned. *)
Lemma attr_here k v h : is_Some (attrs (set_attr k v h) !! k).
Proof. rewrite attrs_set_attr, lookup_insert_eq. by eexists. Qed.

Lemma attr_later k v h k' :
  is_Some (attrs h !! k') -> is_Some (attrs (set_attr k v h) !! k').
Proof. rewrite attrs_set_attr, lookup_insert_is_Some'. auto. Qed.

Ltac is_Some_insert := repeat first [apply attr_here | apply attr_later].

(** What a call of [_fetch_basic] on a cleared handle that returns has
    done: the backend's answer stored, the expiry set and the twelve
    attributes assigned. *)
Definition basic_facts (w w' : world) : Prop :=
  extract_info (_ydl_opts w) (videoid (self w)) = Ok (_ydl_info (self w')) /\
  expiry (self w') = Some (clock w + g_lifespan)%Z /\
  Forall (fun k => is_Some (attrs (self w') !! k)) basic_attr_names.

Lemma fetch_basic_Ok_facts w w' :
  _have_basic (self w) = false -> _fetch_basic w = (Ok tt, w') -> basic_facts w w'.
Proof.
  intros Hb H. unfold _fetch_basic in H.
  apply sbind_Ok_inv in H as (? & ? & [-> ->]%sget_Ok_inv & H). rewrite Hb in H.
  apply sbind_Ok_inv in H as (info & ? & [He ->]%fetch_info_Ok_inv & H).
  unfold assign in H.
  apply sbind_Ok_inv in H as (? & ? & ->%smodify_Ok_inv & H).
  apply sbind_Ok_inv in H as (? & w1 & Hcb & H).
  assert (_ydl_info (self w1) = info /\ clock w1 = clock w) as [Hi Hc].
  { destruct (callback (self w)); [apply smodify_Ok_inv in Hcb as ->
                                  | apply sret_Ok_inv in Hcb as [_ ->]]; done. }
  do 3 (rewrite (sbind_Ok _ _ _ _ _ (assign_or_NA_run _ _ _ _)) in H).
  pym_inv_prim. unfold basic_facts. proj_rw. rewrite Hi.
  split; [done|]. split; [done|].
  repeat (constructor; [solve [is_Some_insert]|]). constructor.
Qed.

(** The same for [_fetch_gdata] and its three attributes. *)
Lemma fetch_gdata_Ok_facts w w' :
  _have_gdata (self w) = false -> _fetch_gdata w = (Ok tt, w') ->
  Forall (fun k => is_Some (attrs (self w') !! k)) gdata_attr_names.
Proof.
  intros Hg H. unfold _fetch_gdata, assign in H.
  apply sbind_Ok_inv in H as (? & ? & [-> ->]%sget_Ok_inv & H). rewrite Hg in H.
  pym_inv_prim. proj_rw.
  repeat (constructor; [solve [is_Some_insert]|]). constructor.
Qed.

(** The three outcomes of a call of [_fetch_basic]: nothing to do, a
    failure that leaves the flag cleared, or a fetch. *)
Inductive basic_outcome (w w' : world) : Prop :=
| basic_skipped : _have_basic (self w) = true -> w' = w -> basic_outcome w w'
| basic_failed :
    _have_basic (self w) = false -> _have_basic (self w') = false ->
    basic_outcome w w'
| basic_fetched :
    _have_basic (self w) = false -> _have_basic (self w') = true ->
    basic_facts w w' -> basic_outcome w w'.

Lemma fetch_basic_outcome w : basic_outcome w (_fetch_basic w).2.
Proof.
  destruct (_have_basic (self w)) eqn:Hb.
  { apply basic_skipped; [done|]. unfold _fetch_basic. by rewrite sbind_get, Hb. }
  pose proof (fetch_basic_fail_flag w Hb) as Hf.
  destruct (_fetch_basic w) as [[[]| |] w'] eqn:Hr; cbn [snd];
    [|by apply basic_failed..].
  apply basic_fetched; [done| |by apply fetch_basic_Ok_facts].
  by apply (fetch_basic_Ok_flag w).
Qed.

Inductive gdata_outcome (w w' : world) : Prop :=
| gdata_skipped : _have_gdata (self w) = true -> w' = w -> gdata_outcome w w'
| gdata_failed : _have_gdata (self w') = false -> gdata_outcome w w'
| gdata_fetched :
    Forall (fun k => is_Some (attrs (self w') !! k)) gdata_attr_names ->
    gdata_outcome w w'.

Lemma fetch_gdata_outcome w : gdata_outcome w (_fetch_gdata w).2.
Proof.
  destruct (_have_gdata (self w)) eqn:Hg.
  { apply gdata_skipped; [done|]. unfold _fetch_gdata. by rewrite sbind_get, Hg. }
  pose proof (fetch_gdata_fail_flag w Hg) as Hf.
  destruct (_fetch_gdata w) as [[[]| |] w'] eqn:Hr; cbn [snd];
    [|by apply gdata_failed..].
  by apply gdata_fetched, (fetch_gdata_Ok_facts w).
Qed.

(** ** The invariant *)

(** Installing a catalog on a handle that has none, or has one, leaves
    exactly the six lists of the new catalog. *)
Lemma catalog_map_install all h :
  lists h = ∅ \/ (exists all', lists h = catalog_map all') ->
  lists (install_catalog all h) = catalog_map all.
Proof.
  intros Hl. apply map_eq; intros k. unfold catalog_map, install_catalog.
  rewrite !lists_set_list, !lookup_insert.
  destruct Hl as [->|[all' ->]];
    [|unfold catalog_map, install_catalog; rewrite !lists_set_list, !lookup_insert];
    repeat case_decide; reflexivity.
Qed.

Lemma attrs_mono w w' ks :
  frame w w' -> Forall (fun k => is_Some (attrs (self w) !! k)) ks ->
  Forall (fun k => is_Some (attrs (self w') !! k)) ks.
Proof.
  intros Hf H. eapply Forall_impl; [exact H|]. intros k. apply (frame_attrs _ _ Hf).
Qed.

Lemma handle_inv_fresh w0 : fresh w0 -> handle_inv w0 w0.
Proof.
  intros (Hb & Hg & Hl). split; [apply frame_refl| | |by left];
    intros H; congruence.
Qed.

Lemma inv_fetch_basic w0 : preserves (handle_inv w0) _fetch_basic.
Proof.
  intros w [Hf Hb Hg Hc].
  pose proof (fetch_basic_frame w w (frame_refl w)) as Hf'.
  destruct (fetch_basic_keeps (_have_basic (self w)) (_have_gdata (self w))
              (lists (self w)) w)
    as (_ & Hg' & Hl'); [tauto|].
  destruct (fetch_basic_outcome w) as [_ ->|Hb0 Hb1|Hb0 Hb1 (He & Hx & Ha)];
    [done|split..]; try (by eapply frame_trans);
    try (rewrite Hg'; intros; by eapply attrs_mono; eauto);
    try (rewrite Hl'; destruct Hc as [|[? _]]; [by left | congruence]).
  - congruence.
  - intros _. unfold _ydl_opts in He.
    rewrite <-(frame_opts _ _ Hf), <-(frame_videoid _ _ Hf).
    split; [done|]. split; [|done]. exists (clock w). split; [|done].
    pose proof (frame_clock _ _ Hf). pose proof (frame_clock _ _ Hf'). lia.
Qed.

Lemma inv_fetch_gdata w0 : preserves (handle_inv w0) _fetch_gdata.
Proof.
  intros w [Hf Hb Hg Hc].
  pose proof (fetch_gdata_frame w w (frame_refl w)) as Hf'.
  destruct (fetch_gdata_keeps (_have_basic (self w)) (_have_gdata (self w))
              (_ydl_info (self w))
              (expiry (self w)) (lists (self w)) w)
    as (Hb' & _ & Hi' & He' & Hl'); [tauto|].
  split; [by eapply frame_trans| | |].
  - rewrite Hb', Hi', He'. intros H. destruct (Hb H) as (? & (t & ? & ?) & ?).
    pose proof (frame_clock _ _ Hf').
    split; [done|]. split; [exists t; split; [lia|done]|by eapply attrs_mono].
  - destruct (fetch_gdata_outcome w) as [Hg0 ->|Hg1|Ha]; [done|congruence|done].
  - by rewrite Hl', Hb', Hi', (frame_videoid _ _ Hf').
Qed.

(** Installing a catalog built from the stored info keeps the invariant
    of a handle whose basic data is there. *)
Lemma inv_install_catalog w0 w all :
  handle_inv w0 w -> _have_basic (self w) = true ->
  build_streams (_ydl_info (self w)) (videoid (self w)) = Ok all ->
  handle_inv w0 (set_self (install_catalog all) w).
Proof.
  intros [Hf Hb Hg Hc] Hb1 Hall.
  destruct (install_catalog_frame all (self w)) as (Hv & _ & Hhb & Hhg & Hi & Ha & He).
  split; rewrite ?self_set_self.
  - apply frame_set_self; [|done]. intros h.
    by destruct (install_catalog_frame all h) as (? & ? & _ & _ & _ & ? & _).
  - by rewrite Hhb, Hi, Ha, He.
  - by rewrite Hhg, Ha.
  - right. rewrite Hhb, Hi, Hv. split; [done|]. exists all. split; [done|].
    apply catalog_map_install. destruct Hc as [|(_ & all' & _ & ?)]; eauto.
Qed.

Lemma inv_process_streams w0 : preserves (handle_inv w0) _process_streams.
Proof.
  intros w Hw. rewrite process_streams_run.
  assert (exists r1 w1,
    (if _have_basic (self w) then (Ok tt, w) else _fetch_basic w) = (r1, w1) /\
    handle_inv w0 w1 /\ (is_Ok r1 = true -> _have_basic (self w1) = true))
    as (r1 & w1 & -> & Hw1 & Hb1).
  { destruct (_have_basic (self w)) eqn:Hb; [by eauto|].
    pose proof (inv_fetch_basic w0 w Hw) as Hi.
    destruct (_fetch_basic w) as [[[]| |] w1] eqn:Hr; do 2 eexists;
      (split; [done|split; [done|]]); try done.
    intros _. by apply (fetch_basic_Ok_flag w). }
  destruct r1 as [[]| |]; cbn [snd]; [|done..].
  destruct (build_streams _ _) eqn:Hall; cbn [snd]; [|done..].
  by apply inv_install_catalog; [|apply Hb1|].
Qed.

(** Time passes between two calls. *)
Lemma inv_at_time w0 w t :
  handle_inv w0 w -> (clock w <= t)%Z -> handle_inv w0 (at_time t w).
Proof.
  intros [Hf Hb Hg Hc] Ht. split; [by apply frame_at_time| |done..].
  intros H. destruct (Hb H) as (? & (t' & ? & ?) & ?).
  split; [done|]. split; [|done]. exists t'. split; [cbn; lia|done].
Qed.

Lemma inv_run_call w0 c : preserves (handle_inv w0) (run_call c).
Proof.
  destruct c; [apply inv_fetch_basic | apply inv_fetch_gdata
              | apply inv_process_streams].
Qed.

Lemma reachable_handle_inv w0 w : fresh w0 -> reachable w0 w -> handle_inv w0 w.
Proof.
  intros H0 Hr.
  apply (rtc_ind_r (R:=step) (handle_inv w0) w0);
    [by apply handle_inv_fresh| |exact Hr].
  intros w1 w2 _ (c & t & Ht & ->) IH. by apply inv_run_call, inv_at_time.
Qed.

(** C5 (invariant).  In every world a client can reach from a fresh
    handle by calls of the three methods in any order and at any times
    that do not go back, failed calls included: the identity and the
    shared options are those of the start; when the basic flag is set,
    the stored info is the backend's answer for this video, the expiry is
    the time of a call between the creation and now plus the lifespan,
    and the twelve attributes are assigned; when the secondary flag is
    set, its three attributes are assigned; and the stream lists are
    either all absent, or together the catalog built from the stored info
    with the basic flag set. *)
Theorem reachable_inv w0 w : fresh w0 -> reachable w0 w -> handle_inv w0 w.
Proof. apply reachable_handle_inv. Qed.

(** ** Flags are never cleared *)

Lemma step_flags w w' :
  step w w' ->
  (_have_basic (self w) = true -> _have_basic (self w') = true) /\
  (_have_gdata (self w) = true -> _have_gdata (self w') = true).
Proof.
  intros ([] & t & _ & ->); cbn [run_call].
  - destruct (fetch_basic_keeps (_have_basic (self w)) (_have_gdata (self w))
                (lists (self w)) (at_time t w)) as ([-> | ->] & -> & _); tauto.
  - destruct (fetch_gdata_keeps (_have_basic (self w)) (_have_gdata (self w))
                (_ydl_info (self w)) (expiry (self w)) (lists (self w)) (at_time t w))
      as (-> & [-> | ->] & _); tauto.
  - destruct (process_streams_keeps (_have_basic (self w)) (_have_gdata (self w))
                (at_time t w))
      as ([-> | ->] & ->); tauto.
Qed.

(** Along any sequence of calls a flag that is
    set stays set: nothing in this backend consults the expiry or clears
    fetched data, so a fetch that succeeded is never repeated. *)
Theorem flags_monotone w0 w :
  reachable w0 w ->
  (_have_basic (self w0) = true -> _have_basic (self w) = true) /\
  (_have_gdata (self w0) = true -> _have_gdata (self w) = true).
Proof.
  intros Hr. apply (rtc_ind_r (R:=step) (fun w =>
    (_have_basic (self w0) = true -> _have_basic (self w) = true) /\
    (_have_gdata (self w0) = true -> _have_gdata (self w) = true)) w0);
    [done| |exact Hr].
  intros w1 w2 _ Hs [IHb IHg]. destruct (step_flags _ _ Hs). auto.
Qed.

End Lifecycle.

(** ** Runs of the example backend *)


Lemma reachable_inv_witness :
  handle_inv (B:=ex_backend) (ex_world "vid")
    (_fetch_gdata (B:=ex_backend)
       (at_time 1060 (_process_streams (B:=ex_backend) (ex_world "vid")).2)).2.
Proof.
  apply (reachable_inv (B:=ex_backend)); [by vm_compute|].
  eapply rtc_l; [by exists CallProcessStreams, 1000%Z|].
  apply rtc_once. exists CallFetchGdata, 1060%Z. split; [|done].
  pose proof (call_clock (B:=ex_backend) CallProcessStreams 1000 (ex_world "vid")
                eq_refl) as Hc.
  etrans; [apply Z.eq_le_incl; exact Hc|lia].
Defined.

Lemma flags_monotone_witness :
  _have_basic (self (_fetch_gdata (B:=ex_backend)
                       (at_time 1060 (_fetch_basic (B:=ex_backend) (ex_world "vid")).2)).2)
  = true.
Proof.
  apply (flags_monotone (B:=ex_backend) (_fetch_basic (B:=ex_backend) (ex_world "vid")).2).
  - apply rtc_once. exists CallFetchGdata, 1060%Z. split; [|done].
    by rewrite (fetch_basic_clock (B:=ex_backend) 1000 (ex_world "vid") eq_refl).
  - by vm_compute.
Defined.
