(* ===== verification/Process.v ===== *)
(** * A process with several handles

    A client creates any number of handles and calls their methods in any
    order.  The handles are objects of one Python process: each has its
    own fields and its own callback, and all of them hold the same dict
    [g.def_ydl_opts], because line 33 of src/pafy/backend_youtube_dl.py
    stores the dict of module [g] itself in [self._ydl_opts].

    This file has the heap of handles with the state of module [g]
    ([process]), the instantiation of the class ([new], lines 31-36 on a
    new object of the heap) and a method called on one handle of the heap
    at a given time ([on]).  A schedule is a list of such calls, run by
    [run].

    The theorems: the process is the product of its handles as far as the
    three methods go ([run_projection]: at the end of a schedule each
    handle is what its own calls make of it, in their order, whatever was
    called on the others in between), so any two interleavings of the
    same calls lead to the same process; and the instantiation is where
    handles interfere, since the options given to a new handle change the
    options every handle that exists extracts with. *)

From Stdlib Require Import ZArith Lia.
From stdpp Require Import base tactics option list strings gmap relations.
From S2P Require Import Prelude PyValue Stream Pafy Lifecycle.

(** ** State *)

(** A handle in the heap: its fields and the invocations of its callback
    so far. *)
Record object : Type := mkObject {
  obj_fields : YtdlPafy;
  obj_log : list string
}.

(** The handles by the position at which they were created (a handle is
    never destroyed), and the dict [def_ydl_opts] of module [g]. *)
Record process : Type := mkProcess {
  heap : list object;
  g_def_ydl_opts : gmap string pyval
}.

(** The world a method of the handle [o] runs in at time [t]. *)
Definition world_of (o : object) (g : gmap string pyval) (t : Z) : world :=
  {| self := o.(obj_fields); def_ydl_opts := g; clock := t;
     cb_log := o.(obj_log) |}.

Definition object_of (w : world) : object :=
  {| obj_fields := self w; obj_log := cb_log w |}.

(** The handle at position [i] after a method left the world [w]. *)
Definition store (i : nat) (w : world) (p : process) : process :=
  {| heap := <[i := object_of w]> (heap p);
     g_def_ydl_opts := def_ydl_opts w |}.

(** [handle.m()] on the handle at position [i], at time [t].  A position
    that holds no handle is no object of the process. *)
Definition on {A} (i : nat) (t : Z) (m : method A) : pym process pyexn A :=
  fun p =>
    match heap p !! i with
    | Some o =>
        let r := m (world_of o (g_def_ydl_opts p) t) in
        (r.1, store i r.2 p)
    | None => (Undef, p)
    end.

(** [YtdlPafy(vid, callback=cb, ydl_opts=ydl_opts)]: lines 31-36 run on
    a new object, which is the value of the call.  The constructor does
    not read the clock. *)
Definition new (vid : string) (cb : bool) (ydl_opts : option (gmap string pyval)) :
    pym process pyexn nat :=
  fun p =>
    let w := YtdlPafy_init vid cb ydl_opts (g_def_ydl_opts p) 0 in
    (Ok (length (heap p)),
     {| heap := heap p ++ [object_of w]; g_def_ydl_opts := def_ydl_opts w |}).

(** ** Schedules *)

(** One call of a client: the handle, the time, the method. *)
Record invocation : Type := mkInvocation {
  inv_handle : nat;
  inv_time : Z;
  inv_call : call
}.

(** The calls of a schedule on the handle [j], with their times, in the
    order of the schedule. *)
Definition calls_of (j : nat) (s : list invocation) : list (Z * call) :=
  omap (fun l => if decide (inv_handle l = j)
                 then Some (inv_time l, inv_call l) else None) s.

Section Process.
Context `{B : Backend}.

(** The process after one call, whatever its outcome. *)
Definition step_on (l : invocation) (p : process) : process :=
  (on (inv_handle l) (inv_time l) (run_call (inv_call l)) p).2.

(** The process after the calls of a schedule, in order; a call that
    raised is followed by the next one, as for a client that handles the
    exception. *)
Definition run (s : list invocation) (p : process) : process :=
  foldl (fun p l => step_on l p) p s.

(** A handle on its own: one call at a time [tc.1], and a list of them,
    with the shared options [g]. *)
Definition call_object (g : gmap string pyval) (o : object) (tc : Z * call) :
    object :=
  object_of (run_call tc.2 (world_of o g tc.1)).2.

Definition calls_object (g : gmap string pyval) (o : object)
    (cs : list (Z * call)) : object :=
  foldl (call_object g) o cs.

(** ** One call *)

Lemma process_eq (p1 p2 : process) :
  heap p1 = heap p2 -> g_def_ydl_opts p1 = g_def_ydl_opts p2 -> p1 = p2.
Proof. destruct p1, p2; cbn; intros; by subst. Qed.

Lemma on_run {A} i t (m : method A) p o :
  heap p !! i = Some o ->
  on i t m p =
  ((m (world_of o (g_def_ydl_opts p) t)).1,
   store i (m (world_of o (g_def_ydl_opts p) t)).2 p).
Proof. unfold on. by intros ->. Qed.

Lemma on_missing {A} i t (m : method A) p :
  heap p !! i = None -> on i t m p = (Undef, p).
Proof. unfold on. by intros ->. Qed.

(** A call changes the handle it is made on, and nothing else: the
    shared options are those of before. *)
Lemma step_on_run l p o :
  heap p !! inv_handle l = Some o ->
  step_on l p =
  {| heap := <[inv_handle l :=
                 call_object (g_def_ydl_opts p) o (inv_time l, inv_call l)]> (heap p);
     g_def_ydl_opts := g_def_ydl_opts p |}.
Proof.
  intros Ho. unfold step_on. rewrite (on_run _ _ _ _ _ Ho).
  apply process_eq; [done|]. cbn.
  apply (frame_opts _ _ (frame_run_call _ (inv_call l) _
           (frame_refl (world_of o (g_def_ydl_opts p) (inv_time l))))).
Qed.

Lemma step_on_missing l p : heap p !! inv_handle l = None -> step_on l p = p.
Proof. intros Ho. unfold step_on. by rewrite (on_missing _ _ _ _ Ho). Qed.

Lemma step_on_opts l p : g_def_ydl_opts (step_on l p) = g_def_ydl_opts p.
Proof.
  destruct (heap p !! inv_handle l) as [o|] eqn:Ho.
  - by rewrite (step_on_run _ _ _ Ho).
  - by rewrite (step_on_missing _ _ Ho).
Qed.

Lemma step_on_lookup l p j :
  heap (step_on l p) !! j =
  if decide (inv_handle l = j)
  then (fun o => call_object (g_def_ydl_opts p) o (inv_time l, inv_call l))
         <$> heap p !! j
  else heap p !! j.
Proof.
  destruct (heap p !! inv_handle l) as [o|] eqn:Ho.
  - rewrite (step_on_run _ _ _ Ho). cbn. case_decide as Hj.
    + subst j. rewrite Ho. apply list_lookup_insert_eq. by eapply lookup_lt_Some.
    + by apply list_lookup_insert_ne.
  - rewrite (step_on_missing _ _ Ho). case_decide; [|done]. subst j. by rewrite Ho.
Qed.

(** ** Schedules *)

Lemma run_cons l s p : run (l :: s) p = run s (step_on l p).
Proof. reflexivity. Qed.

Lemma run_app s1 s2 p : run (s1 ++ s2) p = run s2 (run s1 p).
Proof. apply foldl_app. Qed.

Lemma calls_of_cons j l s :
  calls_of j (l :: s) =
  if decide (inv_handle l = j) then (inv_time l, inv_call l) :: calls_of j s
  else calls_of j s.
Proof. unfold calls_of. cbn. by case_decide. Qed.

Lemma calls_of_app j s1 s2 : calls_of j (s1 ++ s2) = calls_of j s1 ++ calls_of j s2.
Proof. apply omap_app. Qed.

Lemma run_opts s p : g_def_ydl_opts (run s p) = g_def_ydl_opts p.
Proof.
  revert p. induction s as [|l s IH]; intros p; [done|].
  by rewrite run_cons, IH, step_on_opts.
Qed.

(** The handle at [j] after a schedule is the handle of the start after
    the calls on [j]. *)
Lemma run_lookup s p j :
  heap (run s p) !! j =
  (fun o => calls_object (g_def_ydl_opts p) o (calls_of j s)) <$> heap p !! j.
Proof.
  revert p. induction s as [|l s IH]; intros p.
  - cbn. by destruct (heap p !! j).
  - rewrite run_cons, IH, step_on_opts, step_on_lookup, calls_of_cons.
    case_decide; [|done]. by destruct (heap p !! j).
Qed.

(** The process is the product of its handles.  At the end of any
    schedule of calls of
    the three methods, failed calls included, the handle at each position
    is the handle of the start after its own calls, made at their times
    and in their order on that handle alone, and the shared default
    options are those of the start: what is called on the other handles,
    and when, has no effect on it. *)
Theorem run_projection s p j :
  heap (run s p) !! j =
    (fun o => calls_object (g_def_ydl_opts p) o (calls_of j s)) <$> heap p !! j /\
  g_def_ydl_opts (run s p) = g_def_ydl_opts p.
Proof. split; [apply run_lookup | apply run_opts]. Qed.

(** C24 (interleavings).  Two schedules that make the same calls on every
    handle, at the same times and in the same order handle by handle,
    lead to the same process, however the calls on different handles are
    interleaved. *)
Theorem run_interleaving s1 s2 p :
  (forall j, calls_of j s1 = calls_of j s2) -> run s1 p = run s2 p.
Proof.
  intros Hs. apply process_eq; [|by rewrite !run_opts].
  apply list_eq; intros j. by rewrite !run_lookup, Hs.
Qed.

(** The outcome of a call after a schedule is its outcome on the handle
    alone after the calls that were made on it. *)
Theorem on_after_run {A} s p i t (m : method A) o :
  heap p !! i = Some o ->
  (on i t m (run s p)).1 =
  (m (world_of (calls_object (g_def_ydl_opts p) o (calls_of i s))
        (g_def_ydl_opts p) t)).1.
Proof.
  intros Ho.
  assert (heap (run s p) !! i =
          Some (calls_object (g_def_ydl_opts p) o (calls_of i s))) as Hr
    by (by rewrite run_lookup, Ho).
  by rewrite (on_run _ _ _ _ _ Hr), run_opts.
Qed.

(** Calls on other handles leave a handle as it is. *)
Corollary run_others s p j :
  calls_of j s = [] -> heap (run s p) !! j = heap p !! j.
Proof. intros Hs. rewrite run_lookup, Hs. by destruct (heap p !! j). Qed.

(** ** The life cycle of each handle *)

(** The times of a handle's calls do not go back from [t0]; the time of
    the last one. *)
Fixpoint ascending (t0 : Z) (cs : list (Z * call)) : Prop :=
  match cs with
  | [] => True
  | tc :: cs' => (t0 <= tc.1)%Z /\ ascending tc.1 cs'
  end.

Definition last_time (t0 : Z) (cs : list (Z * call)) : Z :=
  foldl (fun _ tc => tc.1) t0 cs.

Lemma world_of_object_of w :
  world_of (object_of w) (def_ydl_opts w) (clock w) = w.
Proof. by destruct w. Qed.

(** The world a call at time [t] leaves is the world of the handle it
    leaves, with the shared options and that time. *)
Lemma call_object_world g o t c :
  world_of (call_object g o (t, c)) g t = (run_call c (world_of o g t)).2.
Proof.
  unfold call_object. cbn [fst snd].
  rewrite <-(world_of_object_of (run_call c (world_of o g t)).2) at 2.
  f_equal.
  - symmetry. apply (frame_opts _ _ (frame_run_call _ c _ (frame_refl (world_of o g t)))).
  - symmetry. by apply call_clock.
Qed.

(** The calls of a schedule on one handle are steps of its life cycle. *)
Lemma calls_object_reachable g o t0 cs :
  ascending t0 cs ->
  reachable (world_of o g t0) (world_of (calls_object g o cs) g (last_time t0 cs)).
Proof.
  revert o t0. induction cs as [|[t c] cs IH]; intros o t0;
    [intros _; apply rtc_refl|].
  intros [Ht Hcs]. eapply rtc_l; [|apply (IH _ _ Hcs)].
  exists c, t. split; [done|]. cbn [fst]. apply call_object_world.
Qed.

(** C15 (life cycle in a process).  A handle of a process on which
    nothing was fetched satisfies the invariant of the life cycle at the
    end of every schedule whose calls on it are made at times that do not
    go back, whatever is called on the other handles: with the basic flag
    set its info is the backend's answer for its video and the shared
    options, its expiry is the time of one of its calls plus the
    lifespan, and its lists are the catalog of its info. *)
Theorem process_handle_inv s p j o t0 :
  heap p !! j = Some o -> fresh (world_of o (g_def_ydl_opts p) t0) ->
  ascending t0 (calls_of j s) ->
  exists o',
    heap (run s p) !! j = Some o' /\
    handle_inv (world_of o (g_def_ydl_opts p) t0)
      (world_of o' (g_def_ydl_opts p) (last_time t0 (calls_of j s))).
Proof.
  intros Ho Hf Hs. eexists. split; [by rewrite run_lookup, Ho|].
  by apply reachable_handle_inv, calls_object_reachable.
Qed.

(** ** Instantiation *)

(** The new handle is at the position [new] returns, with its flags
    cleared and nothing cached; the handles that exist keep their fields. *)
Lemma new_heap vid cb ydl_opts p :
  let p' := (new vid cb ydl_opts p).2 in
  (new vid cb ydl_opts p).1 = Ok (length (heap p)) /\
  heap p' !! length (heap p) = Some (mkObject (BasePafy_init vid cb) []) /\
  forall j o, heap p !! j = Some o -> heap p' !! j = Some o.
Proof.
  cbn. split; [done|]. split.
  - by rewrite lookup_app_r, Nat.sub_diag by done.
  - intros j o Ho. by apply lookup_app_l_Some.
Qed.

(** Without options, or with an empty dict, the shared defaults stay. *)
Lemma new_opts_none vid cb ydl_opts p :
  ydl_opts = None \/ ydl_opts = Some ∅ ->
  g_def_ydl_opts (new vid cb ydl_opts p).2 = g_def_ydl_opts p.
Proof. by intros [-> | ->]. Qed.

Lemma new_opts_some vid cb o p :
  o <> ∅ -> g_def_ydl_opts (new vid cb (Some o) p).2 = o ∪ g_def_ydl_opts p.
Proof.
  intros Ho. cbn.
  assert (Nat.eqb (size o) 0 = false) as ->; [|done].
  apply Nat.eqb_neq. by apply map_size_non_empty_iff.
Qed.

(** The value of [handle._ydl_opts] for the handle at [i]. *)
Definition ydl_opts_of (i : nat) (t : Z) : pym process pyexn (gmap string pyval) :=
  on i t (w <- sget ;; sret (_ydl_opts w))%pym.

Lemma store_same i o g t p :
  heap p !! i = Some o -> g_def_ydl_opts p = g ->
  store i (world_of o g t) p = p.
Proof.
  intros Ho <-. apply process_eq; [|done]. cbn.
  apply list_insert_id. by destruct o.
Qed.

Lemma new_then_on {A} vid cb o p j h t' (m : method A) :
  heap p !! j = Some h -> o <> ∅ ->
  on j t' m (new vid cb (Some o) p).2 =
  let r := m (world_of h (o ∪ g_def_ydl_opts p) t') in
  (r.1, store j r.2 (new vid cb (Some o) p).2).
Proof.
  intros Hj Ho.
  destruct (new_heap vid cb (Some o) p) as (_ & _ & Hk).
  by rewrite (on_run _ _ _ _ _ (Hk _ _ Hj)), new_opts_some.
Qed.

(** C16 (instantiation changes the other handles).  The options a handle
    is created with are written into the dict that every handle holds:
    after the instantiation, [_ydl_opts] of each handle that existed
    before is the new options over the old defaults, and its extraction,
    when it comes, is made with them. *)
Theorem new_changes_existing vid cb o p j h t' :
  heap p !! j = Some h -> o <> ∅ ->
  let p' := (new vid cb (Some o) p).2 in
  ydl_opts_of j t' p' = (Ok (o ∪ g_def_ydl_opts p), p') /\
  forall info,
    extract_info (o ∪ g_def_ydl_opts p) (videoid (obj_fields h)) = Ok info ->
    on j t' fetch_info p' = (Ok info, p').
Proof.
  intros Hj Ho p'. subst p'.
  destruct (new_heap vid cb (Some o) p) as (_ & _ & Hk).
  pose proof (new_opts_some vid cb o p Ho) as Hg. split.
  - unfold ydl_opts_of. rewrite (new_then_on _ _ _ _ _ _ _ _ Hj Ho). cbn zeta.
    rewrite sbind_get. cbn [sret fst snd]. f_equal.
    by apply store_same; [apply Hk|].
  - intros info He. rewrite (new_then_on _ _ _ _ _ _ _ _ Hj Ho). cbn zeta.
    rewrite (fetch_info_Ok _ info) by exact He. cbn [fst snd]. f_equal.
    by apply store_same; [apply Hk|].
Qed.

End Process.

(** ** Examples *)

(** The video of [ex_info_dict] as a backend reports it when asked for
    the best audio format only. *)
Definition ex_info_audio : gmap string pyval :=
  <["formats" := VList [VDict ex_opus]]> ex_info_dict.

(** A backend that honours the option "format". *)
Definition ex_backend_format : Backend :=
  {| extract_info := fun opts vid =>
       match opts !! "format" with
       | Some (VStr "bestaudio") => Ok (VDict ex_info_audio)
       | _ => Ok (VDict ex_info_dict)
       end;
     get_video_gdata := @get_video_gdata ex_backend;
     g_urls := @g_urls ex_backend;
     g_lifespan := @g_lifespan ex_backend |}.

(** A process with one handle, created without options. *)
Definition ex_process : process :=
  (new "vid" true None {| heap := []; g_def_ydl_opts := ∅ |}).2.

(** Two handles, and two interleavings of a fetch on each. *)
Definition ex_two : process := (new "thin" false None ex_process).2.

Definition ex_schedule : list invocation :=
  [mkInvocation 0 1002 CallProcessStreams; mkInvocation 1 1003 CallFetchBasic;
   mkInvocation 0 1004 CallFetchGdata].

Definition ex_schedule' : list invocation :=
  [mkInvocation 1 1003 CallFetchBasic; mkInvocation 0 1002 CallProcessStreams;
   mkInvocation 0 1004 CallFetchGdata].

Lemma run_interleaving_witness :
  run (B := ex_backend) ex_schedule ex_two = run (B := ex_backend) ex_schedule' ex_two.
Proof.
  apply (run_interleaving (B := ex_backend)). intros j.
  unfold calls_of, ex_schedule, ex_schedule'. cbn.
  by repeat case_decide; subst.
Defined.

Lemma process_handle_inv_witness :
  exists o',
    heap (run (B := ex_backend) ex_schedule ex_two) !! 0%nat = Some o' /\
    handle_inv (B := ex_backend)
      (world_of (mkObject (BasePafy_init "vid" true) []) ∅ 1000)
      (world_of o' ∅ 1004).
Proof.
  apply (process_handle_inv (B := ex_backend) ex_schedule ex_two 0
           (mkObject (BasePafy_init "vid" true) []) 1000).
  - reflexivity.
  - by vm_compute.
  - vm_compute. by repeat split.
Defined.

Lemma new_changes_existing_witness :
  let p' := (new "other" false (Some {[ "format" := VStr "bestaudio" ]})
               ex_process).2 in
  on 0 1002 (fetch_info (B := ex_backend_format)) p' = (Ok (VDict ex_info_audio), p').
Proof.
  intros p'.
  destruct (new_changes_existing (B := ex_backend_format) "other" false
              {[ "format" := VStr "bestaudio" ]} ex_process 0
              (mkObject (BasePafy_init "vid" true) []) 1002 eq_refl
              ltac:(apply map_non_empty_singleton)) as [_ H].
  by apply H.
Defined.

(** The first handle was created without options and asks for its
    streams after a second handle was created for audio only: it gets one
    stream where it would have got three. *)
Example ex_first_handle_audio_only :
  let p' := (new "other" false (Some {[ "format" := VStr "bestaudio" ]})
               ex_process).2 in
  (fun o => length (get_list (obj_fields o) "_allstreams")) <$>
    heap (on 0 1002 (_process_streams (B := ex_backend_format)) ex_process).2 !! 0%nat
    = Some 3%nat /\
  (fun o => length (get_list (obj_fields o) "_allstreams")) <$>
    heap (on 0 1002 (_process_streams (B := ex_backend_format)) p').2 !! 0%nat
    = Some 1%nat.
Proof. split; vm_compute; reflexivity. Qed.
