(* ===== verification/Effects.v ===== *)
(** * The outside world of a download

    [YtdlStream.download] writes to the terminal, calls the caller's
    progress callback, asks the operating system about paths, renames a
    file and starts the remux tool.  This file has the state these effects
    act on: the regular files with their sizes, the set of paths that name
    a directory, and the trace of the effects in the order they happened.
    The three [os] functions the source calls are modelled with their POSIX
    behaviour on file names as strings. *)

From Stdlib Require Import ZArith Lia Ascii.
From stdpp Require Import base tactics option list strings gmap.
From S2P Require Import Prelude PyValue.

(** ** Events and the world *)

Inductive event : Type :=
| EvStdout (s : string)
| EvCallback (args : list pyval)
| EvWrite (path : string) (size : Z)
| EvRename (src dst : string)
| EvRemux (infile outfile : string) (quiet : bool) (muxer : pyval).

(** [files] maps the path of a regular file to its size in bytes; [dirs]
    holds the paths for which [os.path.isdir] is true. *)
Record io : Type := mkIO {
  files : gmap string Z;
  dirs : gset string;
  trace : list event
}.

#[warnings="-notation-for-abbreviation"] Notation action := (pym io pyexn).

Definition set_files (f : gmap string Z -> gmap string Z) (w : io) : io :=
  {| files := f (files w); dirs := dirs w; trace := trace w |}.

Definition add_event (e : event) (w : io) : io :=
  {| files := files w; dirs := dirs w; trace := trace w ++ [e] |}.

Definition emit (e : event) : action unit := smodify (add_event e).

(** The carriage return of the progress line. *)
Definition CR : string := String "013"%char EmptyString.

(** The newline [print] ends its line with. *)
Definition LF : string := String "010"%char EmptyString.

(** ** Paths *)

Fixpoint str_ends_with (c : ascii) (s : string) : bool :=
  match s with
  | EmptyString => false
  | String c' EmptyString => Ascii.eqb c c'
  | String _ s' => str_ends_with c s'
  end.

(** [os.path.join(a, b)] on POSIX: an absolute [b] replaces [a]; a
    separator is put between the two unless [a] is empty or ends with
    one. *)
Definition os_path_join (a b : string) : string :=
  if String.prefix "/" b then b
  else if String.eqb a EmptyString || str_ends_with "/"%char a then a +:+ b
  else a +:+ "/" +:+ b.

(** [os.path.isdir(p)]. *)
Definition os_path_isdir (p : string) : action bool :=
  (w <- sget ;; sret (bool_decide (p ∈ dirs w)))%pym.

(** [os.rename(src, dst)] for a regular file [src]: the file is moved and
    replaces a regular file that was at [dst].  A missing [src] and a
    directory at [dst] raise; renaming a directory is outside the model. *)
Definition os_rename (src dst : string) : action unit :=
  (w <- sget ;;
   if bool_decide (src ∈ dirs w) then slift Undef else
   match files w !! src with
   | None => sraise (FileNotFoundError src)
   | Some size =>
       if bool_decide (dst ∈ dirs w) then sraise (IsADirectoryError dst) else
       smodify (set_files (fun f => <[dst := size]> (delete src f))) ;;
       emit (EvRename src dst)
   end)%pym.

(** ** Predicates on worlds and traces *)

(** No path is both a regular file and a directory. *)
Definition io_wf (w : io) : Prop :=
  forall p, p ∈ dirs w -> files w !! p = None.

Definition is_remux (e : event) : bool :=
  match e with EvRemux _ _ _ _ => true | _ => false end.

Definition is_rename (e : event) : bool :=
  match e with EvRename _ _ => true | _ => false end.

Definition is_stdout (e : event) : bool :=
  match e with EvStdout _ => true | _ => false end.

Definition is_callback (e : event) : bool :=
  match e with EvCallback _ => true | _ => false end.

(** What a run added to the trace: the later trace without the earlier
    one in front. *)
Definition emitted (w w' : io) : list event := drop (length (trace w)) (trace w').

(** How many events of one kind a trace holds. *)
Definition count_events (p : event -> bool) (l : list event) : nat :=
  length (List.filter p l).

(** The trace only grows, and directories are never made or removed. *)
Record extends (w w' : io) : Prop := mkExtends {
  ext_trace : trace w `prefix_of` trace w';
  ext_dirs : dirs w' = dirs w
}.

(** ** Lemmas *)

Lemma extends_refl w : extends w w.
Proof. by split. Qed.

Lemma extends_trans w1 w2 w3 : extends w1 w2 -> extends w2 w3 -> extends w1 w3.
Proof. intros [] []. split; [by etrans | congruence]. Qed.

Lemma extends_add_event w0 w e : extends w0 w -> extends w0 (add_event e w).
Proof. intros []. split; [by apply prefix_app_r | done]. Qed.

Lemma extends_set_files w0 w f : extends w0 w -> extends w0 (set_files f w).
Proof. by intros []. Qed.

Lemma emitted_refl w : emitted w w = [].
Proof. unfold emitted. by rewrite drop_all. Qed.

Lemma emitted_trace w w' : extends w w' -> trace w' = trace w ++ emitted w w'.
Proof.
  intros [[l Hl] _]. unfold emitted. by rewrite Hl, drop_app_length.
Qed.

Lemma emitted_app w w' l : trace w' = trace w ++ l -> emitted w w' = l.
Proof. intros H. unfold emitted. by rewrite H, drop_app_length. Qed.

Lemma count_events_app p l1 l2 :
  count_events p (l1 ++ l2) = (count_events p l1 + count_events p l2)%nat.
Proof. unfold count_events. by rewrite List.filter_app, length_app. Qed.

Lemma count_events_cons p e l :
  count_events p (e :: l) = ((if p e then 1 else 0) + count_events p l)%nat.
Proof. unfold count_events. cbn. by destruct (p e). Qed.

Lemma count_events_flat_map {A} p (f : A -> list event) n l :
  (forall a, count_events p (f a) = n) ->
  count_events p (flat_map f l) = (length l * n)%nat.
Proof.
  intros H. induction l as [|a l IH]; [done|].
  cbn [flat_map length]. rewrite count_events_app, H, IH. lia.
Qed.

Lemma emitted_add_event w w' e :
  extends w w' -> emitted w (add_event e w') = emitted w w' ++ [e].
Proof.
  intros H. unfold emitted at 1. cbn [add_event trace].
  rewrite (emitted_trace _ _ H), <-app_assoc. by rewrite drop_app_length.
Qed.

Lemma emitted_trans w1 w2 w3 :
  extends w1 w2 -> extends w2 w3 ->
  emitted w1 w3 = emitted w1 w2 ++ emitted w2 w3.
Proof.
  intros H12 H23. unfold emitted at 1.
  rewrite (emitted_trace _ _ H23), (emitted_trace _ _ H12), <-app_assoc.
  by rewrite drop_app_length.
Qed.

Lemma os_path_join_relative a b :
  String.prefix "/" b = false -> a <> EmptyString ->
  str_ends_with "/"%char a = false -> os_path_join a b = a +:+ "/" +:+ b.
Proof.
  intros Hb Ha He. unfold os_path_join. rewrite Hb, He.
  destruct a; [done|]. reflexivity.
Qed.

Lemma os_path_isdir_run p w :
  os_path_isdir p w = (Ok (bool_decide (p ∈ dirs w)), w).
Proof. reflexivity. Qed.

Lemma preserves_os_path_isdir (I : io -> Prop) p : preserves I (os_path_isdir p).
Proof. by intros w Hw. Qed.

(** A rename of an existing regular file onto a path that is no directory
    succeeds. *)
Lemma os_rename_Ok src dst size w :
  files w !! src = Some size -> src ∉ dirs w -> dst ∉ dirs w ->
  os_rename src dst w =
  (Ok tt, add_event (EvRename src dst)
            (set_files (fun f => <[dst := size]> (delete src f)) w)).
Proof.
  intros Hs Hsd Hdd. unfold os_rename. rewrite sbind_get.
  rewrite (bool_decide_eq_false_2 _ Hsd), Hs, (bool_decide_eq_false_2 _ Hdd).
  by rewrite sbind_modify.
Qed.

Lemma os_rename_missing src dst w :
  files w !! src = None -> src ∉ dirs w ->
  os_rename src dst w = (Raise (FileNotFoundError src), w).
Proof.
  intros Hs Hsd. unfold os_rename. rewrite sbind_get.
  by rewrite (bool_decide_eq_false_2 _ Hsd), Hs.
Qed.

Lemma os_rename_extends w0 src dst : preserves (extends w0) (os_rename src dst).
Proof.
  intros w Hw. unfold os_rename. rewrite sbind_get.
  case_bool_decide; [done|]. destruct (files w !! src); [|done].
  case_bool_decide; [done|]. rewrite sbind_modify.
  by apply extends_add_event, extends_set_files.
Qed.

Lemma os_rename_wf src dst : preserves io_wf (os_rename src dst).
Proof.
  intros w Hw. unfold os_rename. rewrite sbind_get.
  case_bool_decide; [done|]. destruct (files w !! src) eqn:Hs; [|done].
  case_bool_decide as Hd; [done|]. rewrite sbind_modify.
  intros p Hp. cbn in *. destruct (decide (p = dst)) as [->|Hne]; [done|].
  rewrite lookup_insert_ne by done. destruct (decide (p = src)) as [->|Hne'].
  - by rewrite lookup_delete_eq.
  - rewrite lookup_delete_ne by done. by apply Hw.
Qed.

#[export] Hint Resolve extends_refl extends_add_event extends_set_files : pafy.
