(* ===== verification/Progress.v ===== *)
(** * The progress hook of a download

    Lines 158-187 of src/pafy/backend_youtube_dl.py: the normalisation of
    the progress unit and the closure [progress_hook] that [download]
    attaches to the HTTP downloader.  The hook reads a status dict of the
    transport, computes the four progress figures, writes the status line
    unless the download is quiet and calls the caller's callback when there
    is one.  The helpers of [backend_shared] it calls ([get_size_done],
    [get_status_string]) and [str.format] are the fields of the class
    [Reporter]; [spec_reporter] is the instance the specification
    describes. *)

From Stdlib Require Import ZArith QArith Qcanon Lia.
From stdpp Require Import base tactics option list numbers strings gmap.
From S2P Require Import Prelude PyValue Effects.

(** ** Collaborators *)

(** [get_size_done(bytesdone, progress)], [get_status_string(progress)]
    and [status_string.format] applied to the figures. *)
Class Reporter : Type := {
  get_size_done : pyval -> pyval -> res pyval;
  get_status_string : pyval -> res pyval;
  str_format : pyval -> list pyval -> res string
}.

(** The caller's callback: what a call with these arguments does. *)
Definition callback_fn : Type := list pyval -> res unit.

(** ** The progress unit *)

Definition progress_available : list string := ["KB"; "MB"; "GB"].

(** Lines 160-162: anything but the three units becomes "Bytes". *)
Definition normalise_progress (progress : pyval) : pyval :=
  if negb (existsb (py_eq_str progress) progress_available)
  then VStr "Bytes" else progress.

(** The byte divisor of a unit (section 4.4 of the specification). *)
Definition unit_divisor (progress : pyval) : Z :=
  if py_eq_str progress "KB" then 1024
  else if py_eq_str progress "MB" then 1048576
  else if py_eq_str progress "GB" then 1073741824
  else 1.

(** The reporter of the specification: bytes done divided by the divisor
    of the unit, and a status string without replacement fields, which
    [format] prints as it is. *)
Definition spec_reporter : Reporter :=
  {| get_size_done := fun bytesdone progress =>
       py_truediv bytesdone (VInt (unit_divisor progress));
     get_status_string := fun _ => Ok (VStr "downloading");
     str_format := fun fmt _ =>
       match fmt with VStr f => Ok f | _ => Raise AttributeError end |}.

(** ** The hook *)

(** Line 171: [s["speed"] / 1024 if s.get("speed") is not None else 0]. *)
Definition hook_rate (s : pyval) : res pyval :=
  (speed <- py_get s "speed" VNone ;;
   if negb (py_is_none speed)
   then (sp <- py_getitem s "speed" ;; py_truediv sp (VInt 1024))
   else Ok (VInt 0))%res.

(** Line 172: [0 if s.get("eta") is None else s["eta"]]. *)
Definition hook_eta (s : pyval) : res pyval :=
  (eta <- py_get s "eta" VNone ;;
   if py_is_none eta then Ok (VInt 0) else py_getitem s "eta")%res.

(** Bytes done over total, as the hook computes it on ints. *)
Definition fraction_done (bytesdone total : Z) : Qc :=
  (Qc_of_Z bytesdone * 1 / Qc_of_Z total)%Qc.

Section Hook.
Context `{R : Reporter}.
Variables (quiet : bool) (progress status_string : pyval).
Variable callback : option callback_fn.

(** Lines 169-178: the two subscripts, rate, eta and the tuple, whose
    elements are evaluated from left to right. *)
Definition progress_stats (s : pyval) : res (pyval * list pyval) :=
  (bytesdone <- py_getitem s "downloaded_bytes" ;;
   total <- py_getitem s "total_bytes" ;;
   rate <- hook_rate s ;;
   eta <- hook_eta s ;;
   size <- get_size_done bytesdone progress ;;
   x <- py_mul_float bytesdone 1 ;;
   fraction <- py_truediv x total ;;
   Ok (total, [size; fraction; rate; eta]))%res.

(** Lines 166-185. *)
Definition progress_hook (s : pyval) : action unit :=
  (status <- slift (py_getitem s "status") ;;
   if negb (py_eq_str status "downloading") then sret tt else
   ts <- slift (progress_stats s) ;;
   let total := ts.1 in
   let stats := ts.2 in
   (if negb quiet
    then line <- slift (str_format status_string stats) ;;
         emit (EvStdout (CR +:+ line +:+ "    " +:+ CR))
    else sret tt) ;;
   match callback with
   | Some cb => emit (EvCallback (total :: stats)) ;; slift (cb (total :: stats))
   | None => sret tt
   end)%pym.

(** What a reporting run of the hook adds to the trace. *)
Definition hook_events (line : string) (total : pyval) (stats : list pyval) :
    list event :=
  (if quiet then [] else [EvStdout (CR +:+ line +:+ "    " +:+ CR)]) ++
  match callback with
  | Some _ => [EvCallback (total :: stats)]
  | None => []
  end.

End Hook.

(** The fraction done that an update passed to the callback, and the
    fractions a trace reports in order. *)
Definition reported_fraction (e : event) : option Qc :=
  match e with
  | EvCallback [_; _; VFloat q; _; _] => Some q
  | _ => None
  end.

Definition reported_fractions (l : list event) : list Qc := omap reported_fraction l.

(** Every figure of the list is above the one before it, from [prev] on. *)
Fixpoint rises (prev : Qc) (l : list Qc) : Prop :=
  match l with
  | [] => True
  | q :: l' => (prev < q)%Qc /\ rises q l'
  end.

(** ** The progress unit *)

(** The normalised unit is one of "KB", "MB", "GB"
    and "Bytes": each of the three units is kept, and every other value,
    string or not, becomes "Bytes". *)
Theorem normalise_progress_rule progress :
  (forall u, u ∈ progress_available -> normalise_progress (VStr u) = VStr u) /\
  ((forall u, u ∈ progress_available -> progress <> VStr u) ->
   normalise_progress progress = VStr "Bytes") /\
  (exists u, normalise_progress progress = VStr u /\
             u ∈ "Bytes" :: progress_available).
Proof.
  unfold normalise_progress, progress_available. split; [|split].
  - intros u Hu. set_unfold. by destruct Hu as [->|[->|[->|[]]]].
  - intros Hn. simpl.
    rewrite !(proj2 (py_eq_str_false _ _)); [done|apply Hn; set_solver..].
  - simpl. destruct (py_eq_str progress "KB") eqn:H1;
      [apply py_eq_str_spec in H1 as ->; exists "KB"; set_solver|].
    destruct (py_eq_str progress "MB") eqn:H2;
      [apply py_eq_str_spec in H2 as ->; exists "MB"; set_solver|].
    destruct (py_eq_str progress "GB") eqn:H3;
      [apply py_eq_str_spec in H3 as ->; exists "GB"; set_solver|].
    exists "Bytes". set_solver.
Qed.

(** ** Rate and time remaining *)

Lemma hook_rate_unreported (s : gmap string pyval) :
  s !! "speed" = None \/ s !! "speed" = Some VNone ->
  hook_rate (VDict s) = Ok (VInt 0).
Proof. unfold hook_rate, py_get, dict_get. by intros [-> | ->]. Qed.

Lemma hook_rate_number (s : gmap string pyval) v q :
  s !! "speed" = Some v -> py_num v = Some q ->
  hook_rate (VDict s) = Ok (VFloat (q / Qc_of_Z 1024)).
Proof.
  intros Hs Hq. unfold hook_rate, py_get, dict_get, py_getitem. rewrite Hs.
  destruct v; try done; simpl in *; simplify_eq; by rewrite ?Hq.
Qed.

Lemma hook_eta_unreported (s : gmap string pyval) :
  s !! "eta" = None \/ s !! "eta" = Some VNone ->
  hook_eta (VDict s) = Ok (VInt 0).
Proof. unfold hook_eta, py_get, dict_get. by intros [-> | ->]. Qed.

Lemma hook_eta_reported (s : gmap string pyval) v :
  s !! "eta" = Some v -> v <> VNone -> hook_eta (VDict s) = Ok v.
Proof.
  intros Hs Hv. unfold hook_eta, py_get, dict_get, py_getitem. rewrite Hs.
  by destruct v.
Qed.

(** ** The fraction done *)

Lemma Qc_of_Z_pos z : (0 < z)%Z -> (0 < Qc_of_Z z)%Qc.
Proof. intros H. by rewrite <-Z2Qc_inj_0, <-Z2Qc_inj_lt. Qed.

Lemma Qc_of_Z_ne_0 z : z <> 0%Z -> Qc_of_Z z <> 0%Qc.
Proof. intros H. rewrite <-Z2Qc_inj_0. by intros ?%Z2Qc_inj. Qed.

Lemma fraction_done_mul bytesdone total :
  total <> 0%Z ->
  (fraction_done bytesdone total * Qc_of_Z total = Qc_of_Z bytesdone)%Qc.
Proof.
  intros H%Qc_of_Z_ne_0. unfold fraction_done. by field.
Qed.

Lemma fraction_done_le d1 d2 total :
  (0 < total)%Z -> (d1 <= d2)%Z <->
  (fraction_done d1 total <= fraction_done d2 total)%Qc.
Proof.
  intros Ht. rewrite (Qcmult_le_mono_pos_r _ _ (Qc_of_Z total)) by by apply Qc_of_Z_pos.
  rewrite !fraction_done_mul by lia. apply Z2Qc_inj_le.
Qed.

Lemma fraction_done_total total : total <> 0%Z -> fraction_done total total = 1%Qc.
Proof. intros H%Qc_of_Z_ne_0. unfold fraction_done. by field. Qed.

Lemma fraction_done_0 total : fraction_done 0 total = 0%Qc.
Proof. unfold fraction_done. rewrite Z2Qc_inj_0. unfold Qcdiv. ring. Qed.

Lemma fraction_done_inj d1 d2 total :
  total <> 0%Z -> fraction_done d1 total = fraction_done d2 total -> d1 = d2.
Proof.
  intros Ht H. apply Z2Qc_inj.
  by rewrite <-(fraction_done_mul d1 total), <-(fraction_done_mul d2 total), H.
Qed.

Lemma fraction_done_lt d1 d2 total :
  (0 < total)%Z -> (d1 < d2)%Z <->
  (fraction_done d1 total < fraction_done d2 total)%Qc.
Proof.
  intros Ht. rewrite (Qcmult_lt_mono_pos_r _ _ (Qc_of_Z total)) by by apply Qc_of_Z_pos.
  rewrite !fraction_done_mul by lia. apply Z2Qc_inj_lt.
Qed.

(** ** What a trace reports *)

Lemma hook_events_callbacks quiet callback line total stats :
  count_events is_callback (hook_events quiet callback line total stats) =
  match callback with Some _ => 1%nat | None => 0%nat end.
Proof. by destruct quiet, callback. Qed.

Lemma hook_events_lines quiet callback line total stats :
  count_events is_stdout (hook_events quiet callback line total stats) =
  if quiet then 0%nat else 1%nat.
Proof. by destruct quiet, callback. Qed.

Lemma hook_events_fraction quiet cb line total size q rate eta :
  reported_fractions
    (hook_events quiet (Some cb) line total [size; VFloat q; rate; eta]) = [q].
Proof. by destruct quiet. Qed.

Lemma reported_fractions_app l1 l2 :
  reported_fractions (l1 ++ l2) = reported_fractions l1 ++ reported_fractions l2.
Proof. apply omap_app. Qed.

(** For a positive total and bytes done between 0
    and the total, the fraction done lies between 0 and 1, it is 1 exactly
    when all bytes are done, and it grows with the bytes done. *)
Theorem fraction_done_bounds bytesdone total :
  (0 < total)%Z -> (0 <= bytesdone <= total)%Z ->
  (0 <= fraction_done bytesdone total <= 1)%Qc /\
  (fraction_done bytesdone total = 1%Qc <-> bytesdone = total) /\
  (forall d, (bytesdone <= d)%Z ->
             (fraction_done bytesdone total <= fraction_done d total)%Qc).
Proof.
  intros Ht [H0 H1]. split; [split|split].
  - rewrite <-(fraction_done_0 total). by apply fraction_done_le.
  - rewrite <-(fraction_done_total total) by lia. by apply fraction_done_le.
  - rewrite <-(fraction_done_total total) by lia. split; [|by intros ->].
    apply fraction_done_inj. lia.
  - intros d Hd. by apply fraction_done_le.
Qed.

Lemma fraction_done_bounds_witness :
  (0 <= fraction_done 10485760 26214400 <= 1)%Qc.
Proof. apply (fraction_done_bounds 10485760 26214400); lia. Defined.

(** ** The statistics *)

Section HookFacts.
Context `{R : Reporter}.
Variables (quiet : bool) (progress status_string : pyval).
Variable callback : option callback_fn.
Implicit Types (s : gmap string pyval) (w : io).

(** For a status with integer byte counts and a total other than 0, the
    figures are the formatted size, bytes done divided by the total, the
    rate and the time remaining, in this order, and the total is passed on
    as it was reported. *)
Lemma progress_stats_rule s bytesdone total size rate eta :
  s !! "downloaded_bytes" = Some (VInt bytesdone) ->
  s !! "total_bytes" = Some (VInt total) -> total <> 0%Z ->
  hook_rate (VDict s) = Ok rate -> hook_eta (VDict s) = Ok eta ->
  get_size_done (VInt bytesdone) progress = Ok size ->
  progress_stats progress (VDict s) =
  Ok (VInt total, [size; VFloat (fraction_done bytesdone total); rate; eta]).
Proof.
  intros Hd Ht Hne Hr He Hs. unfold progress_stats, py_getitem.
  rewrite Hd, Ht, Hr, He. cbn [of_option rbind]. rewrite Hs.
  cbn [rbind py_mul_float py_num py_truediv].
  by rewrite decide_False by by apply Qc_of_Z_ne_0.
Qed.

(** A hook whose figures are computed reports them. *)
Lemma progress_hook_reports s w total stats line :
  s !! "status" = Some (VStr "downloading") ->
  progress_stats progress (VDict s) = Ok (total, stats) ->
  (quiet = false -> str_format status_string stats = Ok line) ->
  (forall cb, callback = Some cb -> cb (total :: stats) = Ok tt) ->
  progress_hook quiet progress status_string callback (VDict s) w =
  (Ok tt, {| files := files w; dirs := dirs w;
             trace := trace w ++ hook_events quiet callback line total stats |}).
Proof.
  intros Hst Hs Hf Hcb. unfold progress_hook, hook_events, py_getitem.
  rewrite Hst. cbn [of_option]. unfold sbind at 1, slift at 1.
  rewrite py_eq_str_refl. cbn [negb]. unfold sbind at 1, slift at 1.
  rewrite Hs. cbn [fst snd].
  destruct quiet, callback as [cb|]; cbn [negb];
    unfold sbind, slift, emit, smodify, sret, add_event; cbn [files dirs trace];
    rewrite ?(Hf eq_refl), ?(Hcb _ eq_refl); cbn [files dirs trace];
    rewrite ?app_nil_r, <-?app_assoc; try done.
  by destruct w.
Qed.

(** A status that is not "downloading" is ignored. *)
Lemma progress_hook_other_status s w status :
  s !! "status" = Some status -> status <> VStr "downloading" ->
  progress_hook quiet progress status_string callback (VDict s) w = (Ok tt, w).
Proof.
  intros Hst Hne. unfold progress_hook, py_getitem. rewrite Hst. cbn [of_option].
  unfold sbind at 1, slift at 1. by rewrite (proj2 (py_eq_str_false _ _) Hne).
Qed.

(** A hook whose figures raise reports nothing. *)
Lemma progress_hook_stats_raise s w e :
  s !! "status" = Some (VStr "downloading") ->
  progress_stats progress (VDict s) = Raise e ->
  progress_hook quiet progress status_string callback (VDict s) w = (Raise e, w).
Proof.
  intros Hst Hs. unfold progress_hook, py_getitem. rewrite Hst. cbn [of_option].
  unfold sbind at 1, slift at 1. rewrite py_eq_str_refl. cbn [negb].
  unfold sbind at 1, slift at 1. by rewrite Hs.
Qed.

(** The hook only adds to the trace. *)
Lemma progress_hook_extends w0 v :
  preserves (extends w0) (progress_hook quiet progress status_string callback v).
Proof.
  unfold progress_hook, emit.
  repeat preserves_step; try (destruct callback; repeat preserves_step);
    eauto with pafy.
Qed.

(** The hook touches neither files nor directories. *)
Lemma progress_hook_files (P : gmap string Z -> gset string -> Prop) v :
  preserves (fun w => P (files w) (dirs w))
    (progress_hook quiet progress status_string callback v).
Proof.
  unfold progress_hook, emit.
  repeat preserves_step; try (destruct callback; repeat preserves_step); done.
Qed.

(** C6 (progress report).  On a status "downloading" with integer byte
    counts and a total other than 0, the hook computes the formatted size,
    the fraction bytes done over total, the rate and the time remaining;
    unless the download is quiet it writes the formatted status between two
    carriage returns, padded with four spaces; then it calls the callback,
    when there is one, with the total and the four figures.  Nothing else
    happens. *)
Theorem progress_report_rule s w bytesdone total size rate eta line :
  s !! "status" = Some (VStr "downloading") ->
  s !! "downloaded_bytes" = Some (VInt bytesdone) ->
  s !! "total_bytes" = Some (VInt total) -> total <> 0%Z ->
  hook_rate (VDict s) = Ok rate -> hook_eta (VDict s) = Ok eta ->
  get_size_done (VInt bytesdone) progress = Ok size ->
  let stats := [size; VFloat (fraction_done bytesdone total); rate; eta] in
  (quiet = false -> str_format status_string stats = Ok line) ->
  (forall cb, callback = Some cb -> cb (VInt total :: stats) = Ok tt) ->
  progress_hook quiet progress status_string callback (VDict s) w =
  (Ok tt, {| files := files w; dirs := dirs w;
             trace := trace w ++ hook_events quiet callback line (VInt total) stats |}).
Proof.
  intros Hst Hd Ht Hne Hr He Hs stats Hf Hcb.
  apply progress_hook_reports; try done. by apply progress_stats_rule.
Qed.

(** C10 (a total that cannot be divided by).  The figures are computed
    before anything is reported, so a status "downloading" whose total
    is 0 makes the hook raise [ZeroDivisionError], one without the key
    [total_bytes] makes it raise [KeyError], and one whose total is None
    makes it raise [TypeError]: in the three cases nothing is written and
    the callback is not called, quiet or not. *)
Theorem hook_bad_total s w bytesdone size rate eta :
  s !! "status" = Some (VStr "downloading") ->
  s !! "downloaded_bytes" = Some (VInt bytesdone) ->
  hook_rate (VDict s) = Ok rate -> hook_eta (VDict s) = Ok eta ->
  get_size_done (VInt bytesdone) progress = Ok size ->
  (s !! "total_bytes" = Some (VInt 0) ->
   progress_hook quiet progress status_string callback (VDict s) w =
   (Raise ZeroDivisionError, w)) /\
  (s !! "total_bytes" = None ->
   progress_hook quiet progress status_string callback (VDict s) w =
   (Raise (KeyError (VStr "total_bytes")), w)) /\
  (s !! "total_bytes" = Some VNone ->
   progress_hook quiet progress status_string callback (VDict s) w =
   (Raise TypeError, w)).
Proof.
  intros Hst Hd Hr He Hs.
  repeat split; intros Ht; apply progress_hook_stats_raise; try done;
    unfold progress_stats, py_getitem; rewrite Hd, Ht; try done;
    rewrite Hr, He; cbn [of_option rbind]; rewrite Hs; [|done].
  cbn [rbind py_mul_float py_num py_truediv].
  by rewrite decide_True by apply Z2Qc_inj_0.
Qed.

End HookFacts.

(** ** Example statuses *)

Definition ex_status (bytesdone total : Z) : gmap string pyval :=
  {[ "status" := VStr "downloading"; "downloaded_bytes" := VInt bytesdone;
     "total_bytes" := VInt total ]}.

Definition ex_status_no_total (bytesdone : Z) : gmap string pyval :=
  {[ "status" := VStr "downloading"; "downloaded_bytes" := VInt bytesdone ]}.

Definition ex_io : io := {| files := ∅; dirs := {[ "/tmp" ]}; trace := [] |}.

Lemma normalise_progress_rule_witness :
  normalise_progress (VStr "kB") = VStr "Bytes".
Proof.
  apply (normalise_progress_rule (VStr "kB")).
  intros u Hu. unfold progress_available in Hu. set_unfold.
  by destruct Hu as [->|[->|[->|[]]]].
Defined.

Lemma spec_size_done bytesdone progress :
  get_size_done (Reporter := spec_reporter) (VInt bytesdone) progress =
  Ok (VFloat (Qc_of_Z bytesdone / Qc_of_Z (unit_divisor progress))).
Proof.
  cbn [get_size_done spec_reporter py_truediv py_num].
  rewrite decide_False; [done|]. apply Qc_of_Z_ne_0. unfold unit_divisor.
  by repeat case_match.
Qed.

(** Discharge the side conditions of the hook's theorems on a concrete
    status. *)
Ltac hook_side :=
  first [ done | apply hook_rate_unreported; by left
        | apply hook_eta_unreported; by left | apply spec_size_done
        | by intros ? [= <-] ].

Lemma progress_report_rule_witness :
  progress_hook (R := spec_reporter) false (VStr "MB") (VStr "downloading")
    (Some (fun _ => Ok tt)) (VDict (ex_status 10485760 26214400)) ex_io =
  (Ok tt,
   {| files := ∅; dirs := {[ "/tmp" ]};
      trace := [EvStdout (CR +:+ "downloading" +:+ "    " +:+ CR);
                EvCallback [VInt 26214400;
                            VFloat (Qc_of_Z 10485760 / Qc_of_Z 1048576);
                            VFloat (fraction_done 10485760 26214400);
                            VInt 0; VInt 0]] |}).
Proof.
  apply (progress_report_rule (R := spec_reporter) false (VStr "MB")
           (VStr "downloading") (Some (fun _ => Ok tt))
           (ex_status 10485760 26214400) ex_io 10485760 26214400 _ (VInt 0)
           (VInt 0) "downloading"); hook_side.
Defined.

Lemma hook_bad_total_witness :
  progress_hook (R := spec_reporter) false (VStr "Bytes") (VStr "downloading")
    None (VDict (ex_status 0 0)) ex_io = (Raise ZeroDivisionError, ex_io) /\
  progress_hook (R := spec_reporter) true (VStr "Bytes") (VStr "downloading")
    None (VDict (ex_status_no_total 5)) ex_io =
  (Raise (KeyError (VStr "total_bytes")), ex_io).
Proof.
  split.
  - apply (hook_bad_total (R := spec_reporter) false (VStr "Bytes")
             (VStr "downloading") None (ex_status 0 0) ex_io 0
             (VFloat (Qc_of_Z 0 / Qc_of_Z (unit_divisor (VStr "Bytes"))))
             (VInt 0) (VInt 0));
      hook_side.
  - apply (hook_bad_total (R := spec_reporter) true (VStr "Bytes")
             (VStr "downloading") None (ex_status_no_total 5) ex_io 5
             (VFloat (Qc_of_Z 5 / Qc_of_Z (unit_divisor (VStr "Bytes"))))
             (VInt 0) (VInt 0)); hook_side.
Defined.
