(* ===== verification/Transport.v ===== *)
(** * The HTTP transport and its host object

    [download] hands the transfer to [yt_dlp.downloader.http.HttpFD], a
    library that is not in the sources.  The class [Transport] is all that
    [download] assumes of it: the downloader is constructed or the
    construction raises, and a call with the chunk size, the progress
    hooks, the target path and the info dict acts on the world and returns
    a value or raises.

    [chunked_download] is the transport the specification describes
    (section 4.3): the resource behind the url is fetched in chunks of a
    fixed size and written to the target sequentially, every progress hook
    is called with a status "downloading" after each chunk and with
    "finished" at the end, and a connection that breaks raises and leaves
    the bytes written so far.  Its loop over the chunk offsets is defined
    by well-founded recursion on the bytes that remain.

    The class [ydl] of lines 211-228 is the host object the source passes
    to the library: [urlopen] delegates to the opener of module [g] (the
    class [Net]) and the five reporting methods do nothing. *)

From Stdlib Require Import ZArith Lia.
From Equations Require Import Equations.
From stdpp Require Import base tactics option list strings gmap.
From S2P Require Import Prelude PyValue Effects.

Local Open Scope Z_scope.

(** ** Interfaces *)

(** A progress hook: what a call with a status dict does. *)
Definition hook : Type := pyval -> action unit.

(** [HttpFD_new c] is the construction [HttpFD(ydl(), {"http_chunk_size": c})],
    which returns the downloader or raises; [HttpFD_download c hooks] is
    that downloader with [_progress_hooks] set to [hooks], called as
    [download(filepath, infodict)]. *)
Class Transport : Type := {
  HttpFD_new : Z -> res unit;
  HttpFD_download : Z -> list hook -> string -> pyval -> action pyval
}.

(** What is behind a url: the size of the resource in bytes, and the byte
    after which the connection breaks, if it does. *)
Record resource : Type := mkResource {
  res_size : Z;
  res_breaks : option Z
}.

(** [g.opener.open(url)]. *)
Class Net : Type := {
  opener_open : pyval -> res resource
}.

(** ** The host object (lines 211-228) *)

Inductive ydl_report : Type :=
| to_screen | to_console_title | trouble | report_warning | report_error.

(** Lines 212-213. *)
Definition ydl_urlopen `{Net} (url : pyval) : res resource := opener_open url.

(** Lines 215-228: each of the five methods takes any arguments, does
    nothing and returns None. *)
Definition ydl_call (m : ydl_report) (args : list pyval) : action pyval :=
  sret VNone.

(** ** The chunked transport of the specification *)

(** The offsets at which a transfer that has [done] bytes of [total]
    reports: after every chunk, the last one cut at the total. *)
Equations? chunk_offsets (chunk total done : Z) : list Z
    by wf (Z.to_nat (total - done)) lt :=
  chunk_offsets chunk total done :=
    match decide (0 < chunk /\ done < total) with
    | left _ => Z.min (done + chunk) total ::
                chunk_offsets chunk total (Z.min (done + chunk) total)
    | right _ => []
    end.
Proof. lia. Qed.

(** The number of chunks left: the bytes that remain over the chunk size,
    rounded up. *)
Definition chunks_left (chunk total done : Z) : nat :=
  Z.to_nat ((total - done + chunk - 1) / chunk).

(** The status dict of an update. *)
Definition status_dict (status : string) (done total : Z) : pyval :=
  VDict {[ "status" := VStr status; "downloaded_bytes" := VInt done;
           "total_bytes" := VInt total ]}.

Definition run_hooks (hooks : list hook) (s : pyval) : action unit :=
  sforeach hooks (fun h => h s).

(** The target holds [size] bytes. *)
Definition write_to (path : string) (size : Z) (w : io) : io :=
  add_event (EvWrite path size) (set_files <[path := size]> w).

(** The connection breaks before offset [d] is reached. *)
Definition breaks_before (breaks : option Z) (d : Z) : option Z :=
  match breaks with
  | Some b => if decide (b < d) then Some b else None
  | None => None
  end.

(** One chunk: the bytes up to [d] are written and the hooks told, or the
    connection breaks on the way. *)
Definition transfer_chunk (breaks : option Z) (hooks : list hook)
    (path : string) (total d : Z) : action unit :=
  match breaks_before breaks d with
  | Some b => (smodify (write_to path b) ;;
               sraise (DownloadError "TransferError"))%pym
  | None => (smodify (write_to path d) ;;
             run_hooks hooks (status_dict "downloading" d total))%pym
  end.

Section Chunked.
Context `{N : Net}.

Definition chunked_download (chunk : Z) (hooks : list hook) (path : string)
    (infodict : pyval) : action pyval :=
  (url <- slift (py_getitem infodict "url") ;;
   r <- slift (ydl_urlopen url) ;;
   isdir <- os_path_isdir path ;;
   if isdir : bool then sraise (IsADirectoryError path) else
   smodify (write_to path 0) ;;
   sforeach (chunk_offsets chunk (res_size r) 0)
     (transfer_chunk (res_breaks r) hooks path (res_size r)) ;;
   run_hooks hooks (status_dict "finished" (res_size r) (res_size r)) ;;
   sret (VBool true))%pym.

#[export] Instance chunked_transport : Transport :=
  {| HttpFD_new := fun _ => Ok tt; HttpFD_download := chunked_download |}.

End Chunked.

(** ** The chunk offsets *)

Lemma chunk_offsets_step chunk total done :
  0 < chunk -> done < total ->
  chunk_offsets chunk total done =
  Z.min (done + chunk) total ::
  chunk_offsets chunk total (Z.min (done + chunk) total).
Proof.
  intros. rewrite chunk_offsets_equation_1 at 1. by rewrite decide_True.
Qed.

Lemma chunk_offsets_end chunk total done :
  chunk <= 0 \/ total <= done -> chunk_offsets chunk total done = [].
Proof.
  intros. rewrite chunk_offsets_equation_1. rewrite decide_False; [done|lia].
Qed.

Lemma chunks_left_step chunk total done :
  0 < chunk -> done < total ->
  chunks_left chunk total done =
  S (chunks_left chunk total (Z.min (done + chunk) total)).
Proof.
  intros Hc Hd. unfold chunks_left.
  destruct (Z.min_spec (done + chunk) total) as [[Hlt ->]|[Hge ->]].
  - replace (total - done + chunk - 1)
      with (total - (done + chunk) + chunk - 1 + 1 * chunk) by lia.
    rewrite Z.div_add; [|lia].
    assert (0 <= (total - (done + chunk) + chunk - 1) / chunk)
      by (apply Z.div_pos; lia).
    lia.
  - replace (total - total + chunk - 1) with (chunk - 1) by lia.
    rewrite (Z.div_small (chunk - 1)); [|lia].
    replace (total - done + chunk - 1) with (total - done - 1 + 1 * chunk) by lia.
    rewrite Z.div_add; [|lia]. rewrite Z.div_small; [done|lia].
Qed.

Lemma chunks_left_end chunk total done :
  0 < chunk -> total <= done -> chunks_left chunk total done = 0%nat.
Proof.
  intros Hc Hd. unfold chunks_left.
  assert ((total - done + chunk - 1) / chunk <= 0); [|lia].
  apply Z.lt_succ_r, Z.div_lt_upper_bound; lia.
Qed.

(** The loop of the chunked transfer ends after as many chunks as the
    bytes that remain, divided by the chunk size and rounded up: 3 chunks
    of 10 MiB for 25 MiB. *)
Lemma chunk_offsets_length chunk total done :
  0 < chunk -> length (chunk_offsets chunk total done) = chunks_left chunk total done.
Proof.
  intros Hc. funelim (chunk_offsets chunk total done). clear Heqcall.
  destruct (decide _) as [[_ Hd]|Hn].
  - cbn [length]. rewrite chunks_left_step by done. f_equal. by apply H.
  - symmetry. apply chunks_left_end; lia.
Qed.

Example chunk_offsets_25MiB :
  chunk_offsets 10485760 26214400 0 = [10485760; 20971520; 26214400].
Proof. reflexivity. Qed.

(** The offsets lie after [done] and reach the total. *)
Lemma chunk_offsets_bounds chunk total done :
  Forall (fun d => done < d <= total) (chunk_offsets chunk total done).
Proof.
  funelim (chunk_offsets chunk total done). clear Heqcall.
  destruct (decide _) as [[Hc Hd]|Hn]; [|done].
  constructor; [lia|]. eapply Forall_impl; [by apply H|]. simpl. lia.
Qed.

Lemma chunk_offsets_last chunk total done :
  0 < chunk -> done < total -> last (chunk_offsets chunk total done) = Some total.
Proof.
  intros Hc. funelim (chunk_offsets chunk total done). clear Heqcall. intros Hd.
  rewrite decide_True by done.
  destruct (decide (Z.min (done + chunk) total < total)) as [Hlt|Hge].
  - rewrite last_cons, H by done. reflexivity.
  - rewrite chunk_offsets_end by lia. cbn. f_equal. lia.
Qed.

(** Consecutive offsets, from [done] on, grow by at least one byte and
    at most one chunk. *)
Fixpoint steps_within (chunk prev : Z) (l : list Z) : Prop :=
  match l with
  | [] => True
  | d :: l' => prev < d <= prev + chunk /\ steps_within chunk d l'
  end.

Lemma chunk_offsets_steps chunk total done :
  steps_within chunk done (chunk_offsets chunk total done).
Proof.
  funelim (chunk_offsets chunk total done). clear Heqcall.
  destruct (decide _) as [[Hc Hd]|Hn]; [|done].
  split; [lia|]. by apply H.
Qed.

Lemma steps_within_above chunk prev l :
  steps_within chunk prev l -> Forall (fun d => prev < d) l.
Proof.
  revert prev. induction l as [|d l IH]; intros prev; [done|].
  intros [Hd Hl]. constructor; [lia|].
  eapply Forall_impl; [by apply IH|]. simpl. lia.
Qed.

Lemma filter_upto_above (b : Z) l :
  Forall (fun d => b < d) l -> filter (fun d => d <= b) l = [].
Proof.
  induction 1 as [|d l Hd _ IH]; [done|].
  rewrite filter_cons_False by lia. done.
Qed.

(** A list of rising offsets that ends above [b] splits at the first
    offset above [b]: the offsets before it are those up to [b]. *)
Lemma steps_within_split chunk prev b total l :
  steps_within chunk prev l -> last l = Some total -> b < total ->
  exists a l2, l = filter (fun d => d <= b) l ++ a :: l2 /\ b < a.
Proof.
  revert prev. induction l as [|d l IH]; intros prev; [done|].
  intros [Hd Hl] Hlast Hb. destruct (decide (d <= b)) as [Hdb|Hdb].
  - rewrite filter_cons_True by done. destruct l as [|d' l].
    { injection Hlast as ->. lia. }
    rewrite last_cons_cons in Hlast.
    destruct (IH d Hl Hlast Hb) as (a & l2 & Heq & Ha).
    exists a, l2. split; [|done]. cbn [app]. by f_equal.
  - exists d, l. rewrite filter_cons_False by done. split; [|lia].
    rewrite filter_upto_above; [done|].
    eapply Forall_impl; [by eapply steps_within_above|]. simpl. lia.
Qed.

Lemma chunk_offsets_split chunk total b :
  0 < chunk -> 0 <= b < total ->
  exists a l2,
    chunk_offsets chunk total 0 =
    filter (fun d => d <= b) (chunk_offsets chunk total 0) ++ a :: l2 /\ b < a.
Proof.
  intros Hc Hb. apply (steps_within_split chunk 0 b total); [|by apply chunk_offsets_last; lia|lia].
  apply chunk_offsets_steps.
Qed.

(** ** The host object *)

(** The reporting methods of the host object change nothing. *)
Lemma ydl_call_run m args w : ydl_call m args w = (Ok VNone, w).
Proof. reflexivity. Qed.

(** ** Runs of the chunked transport *)

Lemma status_dict_lookup status done total :
  let s := match status_dict status done total with VDict d => d | _ => ∅ end in
  s !! "status" = Some (VStr status) /\
  s !! "downloaded_bytes" = Some (VInt done) /\
  s !! "total_bytes" = Some (VInt total) /\
  s !! "speed" = None /\ s !! "eta" = None.
Proof. cbn. by repeat split. Qed.

Lemma write_to_extends w0 w path size :
  extends w0 w -> extends w0 (write_to path size w).
Proof. intros. by apply extends_add_event, extends_set_files. Qed.

Lemma write_to_wf w path size : path ∉ dirs w -> io_wf w -> io_wf (write_to path size w).
Proof.
  intros Hp Hw p Hd. cbn in *. rewrite lookup_insert_ne; [by apply Hw|].
  by intros ->.
Qed.

Lemma preserves_run_hooks (I : io -> Prop) hooks s :
  (forall h, h ∈ hooks -> preserves I (h s)) -> preserves I (run_hooks hooks s).
Proof. apply preserves_foreach. Qed.

Lemma transfer_chunk_Ok hooks path total d w :
  transfer_chunk None hooks path total d w =
  run_hooks hooks (status_dict "downloading" d total) (write_to path d w).
Proof. reflexivity. Qed.

Lemma transfer_chunk_breaks b hooks path total d w :
  b < d ->
  transfer_chunk (Some b) hooks path total d w =
  (Raise (DownloadError "TransferError"), write_to path b w).
Proof.
  intros Hb. unfold transfer_chunk, breaks_before. by rewrite decide_True.
Qed.

Lemma transfer_chunk_before b hooks path total d w :
  d <= b ->
  transfer_chunk (Some b) hooks path total d w =
  transfer_chunk None hooks path total d w.
Proof.
  intros Hb. unfold transfer_chunk, breaks_before. rewrite decide_False; [done|lia].
Qed.

Section ChunkedFacts.
Context `{N : Net}.
Implicit Types (w : io) (hooks : list hook).

(** The chunked transport keeps every invariant that writing the target
    and the hooks keep. *)
Lemma chunked_download_preserves (I : io -> Prop) chunk hooks path infodict :
  (forall size w, path ∉ dirs w -> I w -> I (write_to path size w)) ->
  (forall h s, h ∈ hooks -> preserves (fun w => I w /\ path ∉ dirs w) (h s)) ->
  preserves I (chunked_download chunk hooks path infodict).
Proof.
  intros Hw Hh w HI. unfold chunked_download.
  destruct (py_getitem infodict "url") as [url| |]; [|done..].
  rewrite (sbind_lift_Ok _ _ _ _ eq_refl).
  destruct (ydl_urlopen url) as [r| |]; [|done..].
  rewrite (sbind_lift_Ok _ _ _ _ eq_refl).
  rewrite (sbind_Ok _ _ _ _ _ (os_path_isdir_run _ _)).
  case_bool_decide as Hd; [done|]. rewrite sbind_modify.
  enough (preserves (fun w => I w /\ path ∉ dirs w)
    (sforeach (chunk_offsets chunk (res_size r) 0)
       (transfer_chunk (res_breaks r) hooks path (res_size r)) ;;
     run_hooks hooks (status_dict "finished" (res_size r) (res_size r)) ;;
     sret (VBool true))%pym) as Hp by (apply Hp; split; [by apply Hw | done]).
  apply preserves_bind; [|intros _; apply preserves_bind;
    [by apply preserves_run_hooks; auto | intros _; apply preserves_ret]].
  apply preserves_foreach. intros d _. unfold transfer_chunk.
  destruct (breaks_before _ _);
    (apply preserves_bind; [apply preserves_modify; intros ? [? ?]; split; auto|intros _]);
    [apply preserves_raise | by apply preserves_run_hooks; auto].
Qed.

(** A transfer without a break, whose hooks return and act on the world
    as [g] does, runs through every chunk and returns. *)
Lemma chunked_download_Ok (I : io -> Prop) (g : Z -> io -> io)
    chunk hooks path infodict url r w :
  py_getitem infodict "url" = Ok url -> opener_open url = Ok r ->
  res_breaks r = None -> path ∉ dirs w -> I (write_to path 0 w) ->
  (forall d w', d ∈ chunk_offsets chunk (res_size r) 0 -> I w' ->
     run_hooks hooks (status_dict "downloading" d (res_size r)) (write_to path d w')
     = (Ok tt, g d w') /\ I (g d w')) ->
  (forall w', I w' ->
     run_hooks hooks (status_dict "finished" (res_size r) (res_size r)) w'
     = (Ok tt, w')) ->
  chunked_download chunk hooks path infodict w =
  (Ok (VBool true),
   foldl (fun w d => g d w) (write_to path 0 w) (chunk_offsets chunk (res_size r) 0)).
Proof.
  intros Hu Hr Hb Hp HI Hg Hf. unfold chunked_download, ydl_urlopen.
  rewrite (sbind_lift_Ok _ _ _ _ Hu), (sbind_lift_Ok _ _ _ _ Hr), Hb.
  rewrite (sbind_Ok _ _ _ _ _ (os_path_isdir_run _ _)).
  rewrite bool_decide_eq_false_2 by done. rewrite sbind_modify.
  destruct (sforeach_Ok I (chunk_offsets chunk (res_size r) 0)
              (transfer_chunk None hooks path (res_size r)) g _ HI) as [Hrun HI'].
  { intros d w' Hd Hw'. rewrite transfer_chunk_Ok. by apply Hg. }
  rewrite (sbind_Ok _ _ _ _ _ Hrun). by rewrite (sbind_Ok _ _ _ _ _ (Hf _ HI')).
Qed.

(** A transfer whose connection breaks after [b] bytes runs through the
    chunks that end at or before [b], writes the [b] bytes and raises. *)
Lemma chunked_download_breaks (I : io -> Prop) (g : Z -> io -> io)
    chunk hooks path infodict url r b w :
  py_getitem infodict "url" = Ok url -> opener_open url = Ok r ->
  res_breaks r = Some b -> 0 < chunk -> 0 <= b < res_size r ->
  path ∉ dirs w -> I (write_to path 0 w) ->
  (forall d w', d ∈ chunk_offsets chunk (res_size r) 0 -> I w' ->
     run_hooks hooks (status_dict "downloading" d (res_size r)) (write_to path d w')
     = (Ok tt, g d w') /\ I (g d w')) ->
  chunked_download chunk hooks path infodict w =
  (Raise (DownloadError "TransferError"),
   write_to path b
     (foldl (fun w d => g d w) (write_to path 0 w)
        (filter (fun d => d <= b) (chunk_offsets chunk (res_size r) 0)))).
Proof.
  intros Hu Hr Hb Hc Hbr Hp HI Hg. unfold chunked_download, ydl_urlopen.
  rewrite (sbind_lift_Ok _ _ _ _ Hu), (sbind_lift_Ok _ _ _ _ Hr), Hb.
  rewrite (sbind_Ok _ _ _ _ _ (os_path_isdir_run _ _)).
  rewrite bool_decide_eq_false_2 by done. rewrite sbind_modify.
  destruct (chunk_offsets_split chunk (res_size r) b Hc Hbr) as (a & l2 & Heq & Ha).
  set (l1 := filter _ _) in *.
  destruct (sforeach_Ok I l1 (transfer_chunk (Some b) hooks path (res_size r)) g _ HI)
    as [Hrun _].
  { intros d w' [Hd Hdb]%list_elem_of_filter Hw'.
    rewrite transfer_chunk_before by done. rewrite transfer_chunk_Ok. by apply Hg. }
  rewrite Heq at 1.
  by rewrite (sbind_Raise _ _ _ _ _
    (sforeach_Raise _ l2 _ a _ _ _ _ Hrun (transfer_chunk_breaks b _ _ _ a _ Ha))).
Qed.

End ChunkedFacts.
