(* ===== verification/Download.v ===== *)
(** * YtdlStream.download

    Lines 149-208 of src/pafy/backend_youtube_dl.py.  [download]
    constructs the downloader, normalises the progress unit, builds the
    progress hook, resolves the
    target path, hands the transfer to the HTTP downloader, prints a
    newline and, for an audio stream with a remux container, renames the
    file to a temporary name and starts the remux tool.

    The method is written against three interfaces: [Reporter] (file
    Progress), [Transport] (file Transport) and [Shared], the two members
    of [backend_shared] it calls ([generate_filename] and [remux]).  The
    theorems of the first part hold for every instance; the last part runs
    [download] over the chunked transport of the specification. *)

From Stdlib Require Import ZArith QArith Qcanon Lia Ascii.
From stdpp Require Import base tactics option list numbers strings gmap.
From S2P Require Import Prelude PyValue Stream Effects Progress Transport.

(** ** Collaborators *)

(** [self.generate_filename(meta=..., max_length=...)] of [BaseStream]
    and [remux(infile, outfile, quiet=..., muxer=...)]. *)
Class Shared : Type := {
  generate_filename : YtdlStream -> bool -> Z -> res string;
  remux : string -> string -> bool -> pyval -> action unit
}.

(** ** Constants *)

(** Line 158. *)
Definition http_chunk_size : Z := 10485760.

Definition temp_suffix : string := ".temp".

(** Lines 190 and 197: [256 - len(".temp")]. *)
Definition max_filename : Z := 256 - Z.of_nat (String.length temp_suffix).

Section Download.
Context `{R : Reporter} `{T : Transport} `{Sh : Shared}.

(** Lines 189-197: a directory gets a generated name inside it, a path
    that is no directory is taken as it is, no path at all is a generated
    name. *)
Definition resolve_target (self : YtdlStream) (filepath : string) (meta : bool) :
    action string :=
  (isdir <- (if py_truthy (VStr filepath) then os_path_isdir filepath
             else sret false) ;;
   if py_truthy (VStr filepath) && isdir then
     filename <- slift (generate_filename self false max_filename) ;;
     sret (os_path_join filepath filename)
   else if py_truthy (VStr filepath) then sret filepath
   else slift (generate_filename self meta max_filename))%pym.

(** Lines 204-206. *)
Definition remux_step (self : YtdlStream) (filepath : string) (quiet : bool)
    (remux_audio : pyval) : action unit :=
  (if py_truthy remux_audio && String.eqb (mediatype_str (_mediatype self)) "audio"
   then os_rename filepath (filepath +:+ temp_suffix) ;;
        emit (EvRemux (filepath +:+ temp_suffix) filepath quiet remux_audio) ;;
        remux (filepath +:+ temp_suffix) filepath quiet remux_audio
   else sret tt)%pym.

(** Lines 149-208. *)
Definition download (self : YtdlStream) (filepath : string) (quiet : bool)
    (progress : pyval) (callback : option callback_fn) (meta : bool)
    (remux_audio : pyval) : action string :=
  (slift (HttpFD_new http_chunk_size) ;;
   let progress := normalise_progress progress in
   status_string <- slift (get_status_string progress) ;;
   let progress_hook := progress_hook quiet progress status_string callback in
   filepath <- resolve_target self filepath meta ;;
   let infodict := VDict {[ "url" := _url self ]} in
   HttpFD_download http_chunk_size [progress_hook] filepath infodict ;;
   emit (EvStdout LF) ;;
   remux_step self filepath quiet remux_audio ;;
   sret filepath)%pym.

(** The call the transport receives from [download]. *)
Definition transfer_call (self : YtdlStream) (quiet : bool) (progress : pyval)
    (status_string : pyval) (callback : option callback_fn) (path : string) :
    action pyval :=
  HttpFD_download http_chunk_size
    [progress_hook quiet (normalise_progress progress) status_string callback]
    path (VDict {[ "url" := _url self ]}).

(** ** The target path *)

Lemma nonempty_truthy (s : string) : s <> EmptyString -> py_truthy (VStr s) = true.
Proof. intros H. cbn. by destruct s. Qed.

(** The three cases of the target. *)
Lemma resolve_target_cases self filepath meta w :
  (filepath = EmptyString ->
   resolve_target self filepath meta w =
   (generate_filename self meta 251, w)) /\
  (filepath <> EmptyString -> filepath ∈ dirs w ->
   resolve_target self filepath meta w =
   (rmap (os_path_join filepath) (generate_filename self false 251), w)) /\
  (filepath <> EmptyString -> filepath ∉ dirs w ->
   resolve_target self filepath meta w = (Ok filepath, w)).
Proof.
  unfold resolve_target. split; [|split].
  - intros ->. reflexivity.
  - intros Hne Hd. rewrite (nonempty_truthy _ Hne).
    rewrite (sbind_Ok _ _ _ _ _ (os_path_isdir_run _ _)).
    rewrite bool_decide_eq_true_2 by done. cbn [andb].
    unfold sbind, slift, sret, rmap. change max_filename with 251%Z.
    by destruct (generate_filename self false 251).
  - intros Hne Hd. rewrite (nonempty_truthy _ Hne).
    rewrite (sbind_Ok _ _ _ _ _ (os_path_isdir_run _ _)).
    by rewrite bool_decide_eq_false_2 by done.
Qed.

(** C28 (target path).  An empty path gives the generated file name, with
    the caller's [meta]; a path that names a directory gives the generated
    name joined to it, always without [meta]; any other path is used as it
    is.  The name is generated for at most 251 characters, and resolving
    the target changes nothing. *)
Theorem resolve_target_rule self filepath meta w :
  (filepath = EmptyString ->
   resolve_target self filepath meta w =
   (generate_filename self meta 251, w)) /\
  (filepath <> EmptyString -> filepath ∈ dirs w ->
   resolve_target self filepath meta w =
   (rmap (os_path_join filepath) (generate_filename self false 251), w)) /\
  (filepath <> EmptyString -> filepath ∉ dirs w ->
   resolve_target self filepath meta w = (Ok filepath, w)).
Proof. apply resolve_target_cases. Qed.

Lemma resolve_target_state self filepath meta w :
  (resolve_target self filepath meta w).2 = w.
Proof.
  destruct (resolve_target_cases self filepath meta w) as (H1 & H2 & H3).
  destruct (decide (filepath = EmptyString)) as [He|Hne]; [by rewrite H1|].
  destruct (decide (filepath ∈ dirs w)); [by rewrite H2 | by rewrite H3].
Qed.

Lemma os_path_join_length a b :
  String.prefix "/" b = false -> a <> EmptyString ->
  str_ends_with "/"%char a = false ->
  String.length (os_path_join a b) = (String.length a + 1 + String.length b)%nat.
Proof.
  intros Hb Ha He. rewrite os_path_join_relative by done.
  rewrite !str_length_app. cbn. lia.
Qed.

(** C29 (path length).  When [generate_filename] keeps to the length it
    is given, a target generated for an empty path has at most 251
    characters, so that the temporary name of the remux has at most 256.
    A target generated inside a directory is the directory, a separator
    and the generated name: its length is not bounded by 256. *)
Theorem target_length_bound self filepath meta w path :
  (forall s m name, generate_filename s m 251 = Ok name ->
                    (String.length name <= 251)%nat) ->
  resolve_target self filepath meta w = (Ok path, w) ->
  (filepath = EmptyString ->
   (String.length (path +:+ temp_suffix) <= 256)%nat) /\
  (filepath <> EmptyString -> filepath ∈ dirs w ->
   str_ends_with "/"%char filepath = false ->
   exists name, generate_filename self false 251 = Ok name /\
     (String.prefix "/" name = false ->
      String.length path = (String.length filepath + 1 + String.length name)%nat)).
Proof.
  intros Hg Hp. destruct (resolve_target_cases self filepath meta w) as (H1 & H2 & _).
  split.
  - intros He. rewrite (H1 He) in Hp. injection Hp as Hp.
    apply Hg in Hp. rewrite str_length_app. cbn. lia.
  - intros Hne Hd He. rewrite (H2 Hne Hd) in Hp. injection Hp as Hp.
    destruct (generate_filename self false 251) as [name| |]; [|done..].
    injection Hp as <-. exists name. split; [done|].
    intros Hn. by apply os_path_join_length.
Qed.

(** ** The remux decision *)

Lemma mediatype_is_audio (m : mediatype) :
  String.eqb (mediatype_str m) "audio" = bool_decide (m = audio).
Proof. by destruct m. Qed.

Lemma remux_step_skip self filepath quiet remux_audio w :
  py_truthy remux_audio = false \/ _mediatype self <> audio ->
  remux_step self filepath quiet remux_audio w = (Ok tt, w).
Proof.
  intros H. unfold remux_step. rewrite mediatype_is_audio.
  destruct H as [-> | H]; [done|].
  by rewrite (bool_decide_eq_false_2 _ H), andb_false_r.
Qed.

Lemma remux_step_audio self filepath quiet remux_audio size w :
  py_truthy remux_audio = true -> _mediatype self = audio ->
  files w !! filepath = Some size -> filepath ∉ dirs w ->
  (filepath +:+ temp_suffix) ∉ dirs w ->
  remux_step self filepath quiet remux_audio w =
  remux (filepath +:+ temp_suffix) filepath quiet remux_audio
    (add_event (EvRemux (filepath +:+ temp_suffix) filepath quiet remux_audio)
       (add_event (EvRename filepath (filepath +:+ temp_suffix))
          (set_files (fun f => <[filepath +:+ temp_suffix := size]> (delete filepath f)) w))).
Proof.
  intros Hr Hm Hf Hd Ht. unfold remux_step. rewrite mediatype_is_audio, Hr.
  rewrite bool_decide_eq_true_2 by done. cbn [andb].
  rewrite (sbind_Ok _ _ _ _ _ (os_rename_Ok _ _ _ _ Hf Hd Ht)).
  unfold emit. by rewrite sbind_modify.
Qed.

(** ** Errors before the transfer *)

Lemma download_new_raises self filepath quiet progress callback meta remux_audio e w :
  HttpFD_new http_chunk_size = Raise e ->
  download self filepath quiet progress callback meta remux_audio w = (Raise e, w).
Proof. intros H. unfold download. by rewrite (sbind_lift_Raise _ _ _ _ H). Qed.

Lemma download_status_raises self filepath quiet progress callback meta remux_audio
    e w :
  HttpFD_new http_chunk_size = Ok tt ->
  get_status_string (normalise_progress progress) = Raise e ->
  download self filepath quiet progress callback meta remux_audio w = (Raise e, w).
Proof.
  intros Hn H. unfold download. rewrite (sbind_lift_Ok _ _ _ _ Hn). cbn zeta.
  by rewrite (sbind_lift_Raise _ _ _ _ H).
Qed.

Lemma download_target_raises self filepath quiet progress callback meta remux_audio
    status_string e w w1 :
  HttpFD_new http_chunk_size = Ok tt ->
  get_status_string (normalise_progress progress) = Ok status_string ->
  resolve_target self filepath meta w = (Raise e, w1) ->
  download self filepath quiet progress callback meta remux_audio w = (Raise e, w1).
Proof.
  intros Hn Hs H. unfold download. rewrite (sbind_lift_Ok _ _ _ _ Hn). cbn zeta.
  rewrite (sbind_lift_Ok _ _ _ _ Hs). by rewrite (sbind_Raise _ _ _ _ _ H).
Qed.

(** An exception of the construction of the downloader,
    of the status string or of the file name generator is the exception
    of [download], and the world is untouched: no file is created, nothing
    is printed, the transport is not called. *)
Theorem download_fails_early self filepath quiet progress callback meta remux_audio
    e w :
  HttpFD_new http_chunk_size = Raise e \/
  HttpFD_new http_chunk_size = Ok tt /\
    (get_status_string (normalise_progress progress) = Raise e \/
     is_Ok (get_status_string (normalise_progress progress)) = true /\
       (resolve_target self filepath meta w).1 = Raise e) ->
  download self filepath quiet progress callback meta remux_audio w = (Raise e, w).
Proof.
  intros [H | [Hn [H | [Hs H]]]];
    [by apply download_new_raises | by apply download_status_raises |].
  destruct (get_status_string _) as [st| |] eqn:Hst; [|done..].
  apply (download_target_raises _ _ _ _ _ _ _ st); [done..|].
  rewrite <-(resolve_target_state self filepath meta w) at 2.
  rewrite <-H. by destruct (resolve_target _ _ _ _).
Qed.

(** ** Downloads that reach the transfer *)

Section Started.
Variables (self : YtdlStream) (filepath : string) (quiet : bool) (progress : pyval).
Variables (callback : option callback_fn) (meta : bool) (remux_audio : pyval).
Variables (status_string : pyval) (path : string) (w : io).

(** The downloader is constructed, the reporter knows the unit, and the
    target resolves to [path] (the name generator acts on no file). *)
Hypothesis Hnew : HttpFD_new http_chunk_size = Ok tt.
Hypothesis Hstatus : get_status_string (normalise_progress progress) = Ok status_string.
Hypothesis Htarget : resolve_target self filepath meta w = (Ok path, w).

(** [download] up to the transfer: the status string, the target, and
    the call of the transport. *)
Lemma download_run :
  download self filepath quiet progress callback meta remux_audio w =
  (transfer_call self quiet progress status_string callback path ;;
   emit (EvStdout LF) ;;
   remux_step self path quiet remux_audio ;;
   sret path)%pym w.
Proof.
  unfold download. rewrite (sbind_lift_Ok _ _ _ _ Hnew). cbn zeta.
  rewrite (sbind_lift_Ok _ _ _ _ Hstatus). by rewrite (sbind_Ok _ _ _ _ _ Htarget).
Qed.

(** After a transfer that returned: the newline, the remux decision and
    the path. *)
Lemma download_after_transfer v w1 :
  transfer_call self quiet progress status_string callback path w = (Ok v, w1) ->
  download self filepath quiet progress callback meta remux_audio w =
  (remux_step self path quiet remux_audio ;; sret path)%pym
    (add_event (EvStdout LF) w1).
Proof.
  intros Ht. rewrite download_run.
  rewrite (sbind_Ok _ _ _ _ _ Ht). unfold emit. by rewrite sbind_modify.
Qed.

(** Without a remux container, or for a stream that is not audio, the
    transfer and the newline are all. *)
Lemma download_skips v w1 :
  transfer_call self quiet progress status_string callback path w = (Ok v, w1) ->
  py_truthy remux_audio = false \/ _mediatype self <> audio ->
  download self filepath quiet progress callback meta remux_audio w =
  (Ok path, add_event (EvStdout LF) w1).
Proof.
  intros Ht Hr. rewrite (download_after_transfer _ _ Ht).
  by rewrite (sbind_Ok _ _ _ _ _ (remux_step_skip _ _ _ _ _ Hr)).
Qed.

(** C8 (remux only for audio).  When no remux container is given, or
    the stream is not audio, [download] is the transfer followed by a
    newline: whatever the transport returns, the target path is returned,
    nothing is renamed and the remux tool is not started. *)
Theorem download_no_remux v w1 :
  transfer_call self quiet progress status_string callback path w = (Ok v, w1) ->
  py_truthy remux_audio = false \/ _mediatype self <> audio ->
  download self filepath quiet progress callback meta remux_audio w =
  (Ok path, add_event (EvStdout LF) w1).
Proof. apply download_skips. Qed.

(** The world in which the remux tool starts. *)
Lemma download_remuxes v size w1 :
  transfer_call self quiet progress status_string callback path w = (Ok v, w1) ->
  py_truthy remux_audio = true -> _mediatype self = audio ->
  files w1 !! path = Some size -> path ∉ dirs w1 ->
  (path +:+ temp_suffix) ∉ dirs w1 ->
  let temp := path +:+ temp_suffix in
  let w2 := add_event (EvRemux temp path quiet remux_audio)
              (add_event (EvRename path temp)
                 (set_files (fun f => <[temp := size]> (delete path f))
                    (add_event (EvStdout LF) w1))) in
  files w2 !! temp = Some size /\
  download self filepath quiet progress callback meta remux_audio w =
  (rmap (fun _ => path) (remux temp path quiet remux_audio w2).1,
   (remux temp path quiet remux_audio w2).2).
Proof.
  intros Ht Hr Hm Hf Hd Hdt temp w2. split; [apply lookup_insert_eq|].
  rewrite (download_after_transfer _ _ Ht).
  unfold sbind at 1.
  rewrite (remux_step_audio _ _ _ _ size) by done. fold temp w2.
  by destruct (remux temp path quiet remux_audio w2) as [[[]| |] w3].
Qed.

(** C7 (remux of audio).  For an audio stream with a remux container,
    after the transfer left a regular file at the target, [download]
    prints the newline, renames the file to the target plus ".temp" and
    starts the remux tool on (temporary name, target, quiet, container).
    The outcome is the tool's: when it returns, the target path is
    returned; when it raises, the exception is passed on and the world is
    as the tool left it, the renamed file included. *)
Theorem download_remux_audio v size w1 :
  transfer_call self quiet progress status_string callback path w = (Ok v, w1) ->
  py_truthy remux_audio = true -> _mediatype self = audio ->
  files w1 !! path = Some size -> path ∉ dirs w1 ->
  (path +:+ temp_suffix) ∉ dirs w1 ->
  let temp := path +:+ temp_suffix in
  let w2 := add_event (EvRemux temp path quiet remux_audio)
              (add_event (EvRename path temp)
                 (set_files (fun f => <[temp := size]> (delete path f))
                    (add_event (EvStdout LF) w1))) in
  files w2 !! temp = Some size /\
  download self filepath quiet progress callback meta remux_audio w =
  (rmap (fun _ => path) (remux temp path quiet remux_audio w2).1,
   (remux temp path quiet remux_audio w2).2).
Proof. apply download_remuxes. Qed.

(** When the transport raises, [download] raises
    the same exception and leaves the world as the transport left it: the
    partial file stays, no newline is printed, nothing is renamed. *)
Theorem download_transfer_error e w1 :
  transfer_call self quiet progress status_string callback path w = (Raise e, w1) ->
  download self filepath quiet progress callback meta remux_audio w = (Raise e, w1).
Proof.
  intros Ht. rewrite download_run.
  by rewrite (sbind_Raise _ _ _ _ _ Ht).
Qed.

End Started.

End Download.

(** ** Downloads over the chunked transport *)

Section Chunked.
Context `{R : Reporter} `{N : Net} `{Sh : Shared}.
Variables (quiet : bool) (progress status_string : pyval).
Variable callback : option callback_fn.
Variables (size_of : Z -> pyval) (line_of : list pyval -> string).

(** The reporter formats every byte count and every line, and the
    callback returns. *)
Hypothesis Hsize : forall d,
  get_size_done (VInt d) (normalise_progress progress) = Ok (size_of d).
Hypothesis Hline : forall stats,
  quiet = false -> str_format status_string stats = Ok (line_of stats).
Hypothesis Hcb : forall cb args, callback = Some cb -> cb args = Ok tt.

(** The figures of the update at [d] bytes of [total]: no rate and no
    time remaining are reported by this transport. *)
Definition figures (total d : Z) : list pyval :=
  [size_of d; VFloat (fraction_done d total); VInt 0; VInt 0].

(** What the chunk that ends at [d] adds to the trace. *)
Definition chunk_events (path : string) (total d : Z) : list event :=
  EvWrite path d ::
  hook_events quiet callback (line_of (figures total d)) (VInt total) (figures total d).

Definition chunk_report (path : string) (total d : Z) (w : io) : io :=
  {| files := <[path := d]> (files w); dirs := dirs w;
     trace := trace w ++ chunk_events path total d |}.

#[warnings="-notation-for-abbreviation"] Local Notation the_hook :=
  (progress_hook quiet (normalise_progress progress) status_string callback).

Lemma run_hooks_one (h : hook) s w : run_hooks [h] s w = h s w.
Proof.
  unfold run_hooks. cbn [sforeach]. unfold sbind, sret.
  by destruct (h s w) as [[[]| |] w'].
Qed.

Lemma hook_on_chunk path total d w :
  total <> 0%Z ->
  run_hooks [the_hook] (status_dict "downloading" d total) (write_to path d w)
  = (Ok tt, chunk_report path total d w).
Proof.
  intros Ht. rewrite run_hooks_one.
  destruct (status_dict_lookup "downloading" d total) as (Hst & Hd & Htot & Hsp & Heta).
  unfold status_dict.
  rewrite (progress_hook_reports _ _ _ _ _ _ (VInt total) (figures total d)
             (line_of (figures total d))); [| done | | by auto | by eauto].
  - unfold chunk_report, chunk_events, write_to. cbn [files dirs trace add_event set_files].
    by rewrite <-app_assoc.
  - apply progress_stats_rule; hook_side.
Qed.

Lemma hook_on_finished total w :
  run_hooks [the_hook] (status_dict "finished" total total) w = (Ok tt, w).
Proof.
  rewrite run_hooks_one.
  destruct (status_dict_lookup "finished" total total) as (Hst & _).
  unfold status_dict. by rewrite (progress_hook_other_status _ _ _ _ _ _ _ Hst).
Qed.

Lemma foldl_chunk_report path total l w0 :
  foldl (fun w d => chunk_report path total d w) w0 l =
  {| files := match last l with
              | Some d => <[path := d]> (files w0)
              | None => files w0
              end;
     dirs := dirs w0;
     trace := trace w0 ++ flat_map (chunk_events path total) l |}.
Proof.
  revert w0. induction l as [|d l IH]; intros w0.
  - cbn. rewrite app_nil_r. by destruct w0.
  - cbn [foldl flat_map]. rewrite IH, last_cons. cbn [chunk_report files dirs trace].
    rewrite <-app_assoc. destruct (last l); by rewrite ?insert_insert_eq.
Qed.

(** What a download adds to the trace: the creation of the file, the
    report of every chunk, the final newline. *)
Definition download_events (path : string) (total : Z) : list event :=
  EvWrite path 0 ::
  flat_map (chunk_events path total) (chunk_offsets http_chunk_size total 0) ++
  [EvStdout LF].

Lemma download_chunked_run self filepath meta remux_audio path r w :
  get_status_string (normalise_progress progress) = Ok status_string ->
  resolve_target self filepath meta w = (Ok path, w) -> path ∉ dirs w ->
  opener_open (_url self) = Ok r -> res_breaks r = None -> (0 < res_size r)%Z ->
  py_truthy remux_audio = false \/ _mediatype self <> audio ->
  download (T := chunked_transport) self filepath quiet progress callback meta
    remux_audio w =
  (Ok path,
   {| files := <[path := res_size r]> (files w); dirs := dirs w;
      trace := trace w ++ download_events path (res_size r) |}).
Proof.
  intros Hs Hp Hd Ho Hb Ht Hr.
  assert (transfer_call (T := chunked_transport) self quiet progress status_string
            callback path w =
          (Ok (VBool true),
           foldl (fun w d => chunk_report path (res_size r) d w) (write_to path 0 w)
             (chunk_offsets http_chunk_size (res_size r) 0))) as Hrun.
  { apply (chunked_download_Ok (fun _ => True) _ _ _ _ _ (_url self)); try done;
      first [ intros w' _; apply hook_on_finished
            | intros d w' _ _; split; [apply hook_on_chunk; lia | done] ]. }
  rewrite (download_after_transfer (T := chunked_transport)
             _ _ _ _ _ _ _ _ _ _ eq_refl Hs Hp _ _ Hrun).
  rewrite (sbind_Ok _ _ _ _ _ (remux_step_skip _ _ _ _ _ Hr)).
  rewrite foldl_chunk_report, chunk_offsets_last by done.
  unfold sret, add_event, write_to, download_events. cbn [files dirs trace add_event set_files].
  by rewrite insert_insert_eq, <-!app_assoc.
Qed.


(** The trace that a download of the section added. *)
Lemma download_chunked_emitted self filepath meta remux_audio path r w :
  get_status_string (normalise_progress progress) = Ok status_string ->
  resolve_target self filepath meta w = (Ok path, w) -> path ∉ dirs w ->
  opener_open (_url self) = Ok r -> res_breaks r = None -> (0 < res_size r)%Z ->
  py_truthy remux_audio = false \/ _mediatype self <> audio ->
  exists w',
    download (T := chunked_transport) self filepath quiet progress callback meta
      remux_audio w = (Ok path, w') /\
    emitted w w' = download_events path (res_size r).
Proof.
  intros Hs Hp Hd Ho Hb Ht Hr. eexists. split; [by eapply download_chunked_run|].
  by apply emitted_app.
Qed.

Lemma chunk_events_callbacks path total d :
  count_events is_callback (chunk_events path total d) =
  match callback with Some _ => 1%nat | None => 0%nat end.
Proof. apply hook_events_callbacks. Qed.

Lemma chunk_events_lines path total d :
  count_events is_stdout (chunk_events path total d) =
  if quiet then 0%nat else 1%nat.
Proof. apply hook_events_lines. Qed.

Lemma chunk_events_fraction path total d cb :
  callback = Some cb ->
  reported_fractions (chunk_events path total d) = [fraction_done d total].
Proof.
  intros H. unfold chunk_events, figures. rewrite H.
  change (reported_fractions (?e :: ?l)) with (reported_fractions l).
  apply hook_events_fraction.
Qed.

Lemma download_events_callbacks path total :
  count_events is_callback (download_events path total) =
  match callback with
  | Some _ => chunks_left http_chunk_size total 0
  | None => 0%nat
  end.
Proof.
  unfold download_events. rewrite count_events_cons, count_events_app.
  rewrite (count_events_flat_map _ _ _ _ (chunk_events_callbacks path total)).
  rewrite chunk_offsets_length by done. cbn. destruct callback; lia.
Qed.

Lemma download_events_lines path total :
  count_events is_stdout (download_events path total) =
  S (if quiet then 0%nat else chunks_left http_chunk_size total 0).
Proof.
  unfold download_events. rewrite count_events_cons, count_events_app.
  rewrite (count_events_flat_map _ _ _ _ (chunk_events_lines path total)).
  rewrite chunk_offsets_length by done. cbn. destruct quiet; lia.
Qed.

Lemma download_events_fractions path total cb :
  callback = Some cb ->
  reported_fractions (download_events path total) =
  map (fun d => fraction_done d total) (chunk_offsets http_chunk_size total 0).
Proof.
  intros Hcb'. unfold download_events.
  change (reported_fractions (?e :: ?l)) with (reported_fractions l).
  rewrite reported_fractions_app, app_nil_r.
  induction (chunk_offsets _ _ _) as [|d l IH]; [done|].
  cbn [flat_map map].
  by rewrite reported_fractions_app, IH, (chunk_events_fraction _ _ _ _ Hcb').
Qed.

Lemma steps_within_rises chunk total prev l :
  (0 < total)%Z -> steps_within chunk prev l ->
  rises (fraction_done prev total) (map (fun d => fraction_done d total) l).
Proof.
  intros Ht. revert prev. induction l as [|d l IH]; intros prev; [done|].
  intros [[Hd _] Hl]. split; [by apply fraction_done_lt | by apply IH].
Qed.

(** C23 (a download completes).  Over the chunked transport, for a
    resource of positive size whose connection does not break, a target
    that is no directory and no remux, [download] returns the target path.
    The file then holds the whole resource, and the trace has, in this
    order, the creation of the file, for every chunk the write followed by
    the status line and the callback for that chunk, and the final
    newline. *)
Theorem download_chunked_completes self filepath meta remux_audio path r w :
  get_status_string (normalise_progress progress) = Ok status_string ->
  resolve_target self filepath meta w = (Ok path, w) -> path ∉ dirs w ->
  opener_open (_url self) = Ok r -> res_breaks r = None -> (0 < res_size r)%Z ->
  py_truthy remux_audio = false \/ _mediatype self <> audio ->
  download (T := chunked_transport) self filepath quiet progress callback meta
    remux_audio w =
  (Ok path,
   {| files := <[path := res_size r]> (files w); dirs := dirs w;
      trace := trace w ++ EvWrite path 0 ::
               flat_map (chunk_events path (res_size r))
                 (chunk_offsets http_chunk_size (res_size r) 0) ++
               [EvStdout LF] |}).
Proof. apply download_chunked_run. Qed.

(** C30 (number of updates).  Under the same conditions the download ends
    after as many chunks of 10 MiB as the size of the resource, rounded
    up: the callback, when there is one, is called once per chunk, and
    the standard output receives one status line per chunk unless quiet,
    and the final newline. *)
Theorem download_update_count self filepath meta remux_audio path r w :
  get_status_string (normalise_progress progress) = Ok status_string ->
  resolve_target self filepath meta w = (Ok path, w) -> path ∉ dirs w ->
  opener_open (_url self) = Ok r -> res_breaks r = None -> (0 < res_size r)%Z ->
  py_truthy remux_audio = false \/ _mediatype self <> audio ->
  exists w',
    download (T := chunked_transport) self filepath quiet progress callback meta
      remux_audio w = (Ok path, w') /\
    count_events is_callback (emitted w w') =
      match callback with
      | Some _ => Z.to_nat ((res_size r + 10485759) / 10485760)
      | None => 0%nat
      end /\
    count_events is_stdout (emitted w w') =
      S (if quiet then 0%nat else Z.to_nat ((res_size r + 10485759) / 10485760)).
Proof.
  intros Hs Hp Hd Ho Hb Ht Hr.
  destruct (download_chunked_emitted _ _ _ _ _ _ _ Hs Hp Hd Ho Hb Ht Hr)
    as (w' & Hrun & He).
  exists w'. rewrite He, download_events_callbacks, download_events_lines.
  split; [done|]. unfold chunks_left, http_chunk_size.
  by replace (res_size r - 0 + 10485760 - 1)%Z with (res_size r + 10485759)%Z by lia.
Qed.

(** C31 (progress of the fraction).  Under the same conditions and with a
    callback, the fractions done that the callback receives rise strictly
    from update to update, starting above 0, and the last one is 1. *)
Theorem download_fractions_rise self filepath meta remux_audio path r w cb :
  get_status_string (normalise_progress progress) = Ok status_string ->
  resolve_target self filepath meta w = (Ok path, w) -> path ∉ dirs w ->
  opener_open (_url self) = Ok r -> res_breaks r = None -> (0 < res_size r)%Z ->
  py_truthy remux_audio = false \/ _mediatype self <> audio ->
  callback = Some cb ->
  exists w',
    download (T := chunked_transport) self filepath quiet progress callback meta
      remux_audio w = (Ok path, w') /\
    rises 0 (reported_fractions (emitted w w')) /\
    last (reported_fractions (emitted w w')) = Some 1%Qc.
Proof.
  intros Hs Hp Hd Ho Hb Ht Hr Hc.
  destruct (download_chunked_emitted _ _ _ _ _ _ _ Hs Hp Hd Ho Hb Ht Hr)
    as (w' & Hrun & He).
  exists w'. rewrite He, (download_events_fractions _ _ cb Hc).
  split; [done|]. split.
  - rewrite <-(fraction_done_0 (res_size r)).
    by apply (steps_within_rises http_chunk_size), chunk_offsets_steps.
  - change (map ?f ?l) with (f <$> l).
    rewrite fmap_last, chunk_offsets_last by done.
    cbn. f_equal. apply fraction_done_total. lia.
Qed.

Lemma download_chunked_break_run self filepath meta remux_audio path r b w :
  get_status_string (normalise_progress progress) = Ok status_string ->
  resolve_target self filepath meta w = (Ok path, w) -> path ∉ dirs w ->
  opener_open (_url self) = Ok r -> res_breaks r = Some b ->
  (0 <= b < res_size r)%Z ->
  download (T := chunked_transport) self filepath quiet progress callback meta
    remux_audio w =
  (Raise (DownloadError "TransferError"),
   {| files := <[path := b]> (files w); dirs := dirs w;
      trace := trace w ++ EvWrite path 0 ::
               flat_map (chunk_events path (res_size r))
                 (filter (fun d => (d <= b)%Z)
                    (chunk_offsets http_chunk_size (res_size r) 0)) ++
               [EvWrite path b] |}).
Proof.
  intros Hs Hp Hd Ho Hb Ht.
  rewrite (download_run (T := chunked_transport) _ _ _ _ _ _ _ _ _ _ eq_refl Hs Hp).
  erewrite sbind_Raise; [reflexivity|].
  unfold transfer_call. cbn [HttpFD_download chunked_transport].
  rewrite (chunked_download_breaks (fun _ => True)
             (fun d w => chunk_report path (res_size r) d w) _ _ _ _
             (_url self) r b); try done;
    [|intros d w' _ _; split; [apply hook_on_chunk; lia | done]].
  rewrite foldl_chunk_report. unfold write_to, add_event, set_files.
  cbn [files dirs trace]. f_equal. f_equal.
  - destruct (last _); by rewrite !insert_insert_eq.
  - by rewrite <-!app_assoc.
Qed.

(** C20 (a broken connection).  Over the chunked transport, when the
    connection breaks after [b] bytes, [download] raises the transfer
    error.  The partial file stays with its [b] bytes; the updates of the
    chunks that ended at or before [b] were reported; no newline is
    printed, nothing is renamed and the remux tool is not started. *)
Theorem download_chunked_breaks self filepath meta remux_audio path r b w :
  get_status_string (normalise_progress progress) = Ok status_string ->
  resolve_target self filepath meta w = (Ok path, w) -> path ∉ dirs w ->
  opener_open (_url self) = Ok r -> res_breaks r = Some b ->
  (0 <= b < res_size r)%Z ->
  download (T := chunked_transport) self filepath quiet progress callback meta
    remux_audio w =
  (Raise (DownloadError "TransferError"),
   {| files := <[path := b]> (files w); dirs := dirs w;
      trace := trace w ++ EvWrite path 0 ::
               flat_map (chunk_events path (res_size r))
                 (filter (fun d => (d <= b)%Z)
                    (chunk_offsets http_chunk_size (res_size r) 0)) ++
               [EvWrite path b] |}).
Proof. apply download_chunked_break_run. Qed.

End Chunked.

(** ** Example collaborators and runs *)

Definition ex_stream (mt : mediatype) (ext url : string) : YtdlStream :=
  {| _parent := "vid"; _itag := VStr "251"; _mediatype := mt; _threed := false;
     _rawbitrate := VInt 163840%Z; _resolution := "0x0";
     _dimensions := (VInt 0, VInt 0); _bitrate := "160k"; _quality := "160k";
     _extension := VStr ext; _notes := VStr EmptyString; _url := VStr url;
     _info := ∅ |}.

Definition ex_audio : YtdlStream := ex_stream audio "ogg" "https://r1.example/audio".
Definition ex_video : YtdlStream := ex_stream video "webm" "https://r1.example/audio".
Definition ex_broken : YtdlStream := ex_stream audio "ogg" "https://r1.example/broken".

(** A network with a resource of 25 MiB, and one whose connection breaks
    after 15 MiB. *)
Definition ex_net : Net :=
  {| opener_open := fun url =>
       if py_eq_str url "https://r1.example/audio"
       then Ok {| res_size := 26214400%Z; res_breaks := None |}
       else if py_eq_str url "https://r1.example/broken"
       then Ok {| res_size := 26214400%Z; res_breaks := Some 15728640%Z |}
       else Raise (DownloadError "HTTP Error 404") |}.

Fixpoint str_take (n : nat) (s : string) : string :=
  match n, s with
  | S n', String c s' => String c (str_take n' s')
  | _, _ => EmptyString
  end.

Lemma str_take_length n s : (String.length (str_take n s) <= n)%nat.
Proof.
  revert s. induction n as [|n IH]; intros [|c s]; cbn; try lia.
  specialize (IH s). lia.
Qed.

(** File names "Song.<ext>" cut at the length asked for. *)
Definition ex_filename (s : YtdlStream) (max_length : Z) : res string :=
  match _extension s with
  | VStr ext => Ok (str_take (Z.to_nat max_length) ("Song." +:+ ext))
  | _ => Raise TypeError
  end.

Lemma ex_filename_length s k name :
  ex_filename s k = Ok name -> (String.length name <= Z.to_nat k)%nat.
Proof.
  unfold ex_filename. destruct (_extension s); try discriminate.
  intros [= <-]. apply str_take_length.
Qed.

(** A remux tool that knows the container "ffmpeg": it writes the output
    file and removes the input file. *)
Definition ex_shared : Shared :=
  {| generate_filename := fun s meta max_length => ex_filename s max_length;
     remux := fun infile outfile _ muxer =>
       (if py_eq_str muxer "ffmpeg"
        then w <- sget ;;
             match files w !! infile with
             | Some size =>
                 smodify (set_files (fun f => <[outfile := size]> (delete infile f)))
             | None => sraise (FileNotFoundError infile)
             end
        else sraise (IOError "no such muxer"))%pym |}.

Definition ex_download (self : YtdlStream) (filepath : string) (quiet : bool)
    (callback : option callback_fn) (remux_audio : pyval) : result pyexn string * io :=
  download (R := spec_reporter) (T := chunked_transport (N := ex_net))
    (Sh := ex_shared) self filepath quiet (VStr "MB") callback false remux_audio
    ex_io.

Lemma resolve_target_rule_witness :
  resolve_target (Sh := ex_shared) ex_audio "/tmp" true ex_io =
  (Ok "/tmp/Song.ogg", ex_io).
Proof.
  apply (resolve_target_rule (Sh := ex_shared) ex_audio "/tmp" true ex_io);
    [done | set_solver].
Defined.

Lemma target_length_bound_witness :
  (String.length ("Song.ogg" +:+ temp_suffix) <= 256)%nat.
Proof.
  apply (target_length_bound (Sh := ex_shared) ex_audio EmptyString false ex_io
           "Song.ogg"); [|done..].
  intros s m name H. apply (ex_filename_length s 251 name H).
Defined.

(** The transfer [download] starts on the examples. *)
Definition ex_transfer (self : YtdlStream) (quiet : bool)
    (callback : option callback_fn) (path : string) : result pyexn pyval * io :=
  transfer_call (R := spec_reporter) (T := chunked_transport (N := ex_net))
    self quiet (VStr "MB") (VStr "downloading") callback path ex_io.

(** The directories of the example world are left alone. *)
Ltac ex_dirs :=
  match goal with
  | |- _ ∉ dirs ?w =>
      replace (dirs w) with ({[ "/tmp" ]} : gset string) by reflexivity;
      apply (proj2 (not_elem_of_singleton _ _)); discriminate
  end.

Lemma download_no_remux_witness :
  ex_download ex_video "/tmp" true None (VStr "ffmpeg") =
  (Ok "/tmp/Song.webm",
   add_event (EvStdout LF) (ex_transfer ex_video true None "/tmp/Song.webm").2).
Proof.
  apply (download_no_remux (R := spec_reporter)
           (T := chunked_transport (N := ex_net)) (Sh := ex_shared)
           ex_video "/tmp" true (VStr "MB") None false (VStr "ffmpeg")
           (VStr "downloading") "/tmp/Song.webm" ex_io
           eq_refl eq_refl eq_refl (VBool true));
    [reflexivity | right; discriminate].
Defined.

Lemma download_remux_audio_witness :
  (ex_download ex_audio "/tmp" true None (VStr "ffmpeg")).1 = Ok "/tmp/Song.ogg" /\
  files (ex_download ex_audio "/tmp" true None (VStr "ffmpeg")).2 !! "/tmp/Song.ogg"
  = Some 26214400%Z.
Proof.
  unfold ex_download.
  rewrite (proj2 (download_remux_audio (R := spec_reporter)
             (T := chunked_transport (N := ex_net)) (Sh := ex_shared)
             ex_audio "/tmp" true (VStr "MB") None false (VStr "ffmpeg")
             (VStr "downloading") "/tmp/Song.ogg" ex_io
             eq_refl eq_refl eq_refl (VBool true) 26214400
             (ex_transfer ex_audio true None "/tmp/Song.ogg").2
             eq_refl eq_refl eq_refl eq_refl
             ltac:(ex_dirs) ltac:(ex_dirs))).
  split; reflexivity.
Defined.

Lemma download_transfer_error_witness :
  (ex_download ex_broken "/tmp" true None VNone).1 =
  Raise (DownloadError "TransferError") /\
  files (ex_download ex_broken "/tmp" true None VNone).2 !! "/tmp/Song.ogg"
  = Some 15728640%Z.
Proof.
  unfold ex_download.
  rewrite (download_transfer_error (R := spec_reporter)
             (T := chunked_transport (N := ex_net)) (Sh := ex_shared)
             ex_broken "/tmp" true (VStr "MB") None false VNone
             (VStr "downloading") "/tmp/Song.ogg" ex_io
             eq_refl eq_refl eq_refl (DownloadError "TransferError")
             (ex_transfer ex_broken true None "/tmp/Song.ogg").2);
    [split; reflexivity | reflexivity].
Defined.

Lemma download_chunked_completes_witness :
  (ex_download ex_audio "/tmp" false (Some (fun _ => Ok tt)) VNone).1 =
  Ok "/tmp/Song.ogg" /\
  files (ex_download ex_audio "/tmp" false (Some (fun _ => Ok tt)) VNone).2
    !! "/tmp/Song.ogg" = Some 26214400%Z.
Proof.
  unfold ex_download.
  rewrite (download_chunked_completes (R := spec_reporter) (N := ex_net)
             (Sh := ex_shared) false (VStr "MB") (VStr "downloading")
             (Some (fun _ => Ok tt))
             (fun d => VFloat (Qc_of_Z d / Qc_of_Z (unit_divisor (VStr "MB"))))
             (fun _ => "downloading")
             (fun d => spec_size_done d (VStr "MB")) (fun _ _ => eq_refl)
             ltac:(by intros ? ? [= <-])
             ex_audio "/tmp" false VNone "/tmp/Song.ogg"
             {| res_size := 26214400; res_breaks := None |} ex_io);
    [split; [reflexivity | apply lookup_insert_eq] | try reflexivity..];
    [ex_dirs | by left].
Defined.

Lemma download_update_count_witness :
  exists w',
    ex_download ex_audio "/tmp" false (Some (fun _ => Ok tt)) VNone =
    (Ok "/tmp/Song.ogg", w') /\
    count_events is_callback (emitted ex_io w') = 3%nat /\
    count_events is_stdout (emitted ex_io w') = 4%nat.
Proof.
  apply (download_update_count (R := spec_reporter) (N := ex_net)
           (Sh := ex_shared) false (VStr "MB") (VStr "downloading")
           (Some (fun _ => Ok tt))
           (fun d => VFloat (Qc_of_Z d / Qc_of_Z (unit_divisor (VStr "MB"))))
           (fun _ => "downloading")
           (fun d => spec_size_done d (VStr "MB")) (fun _ _ => eq_refl)
           ltac:(by intros ? ? [= <-])
           ex_audio "/tmp" false VNone "/tmp/Song.ogg"
           {| res_size := 26214400; res_breaks := None |} ex_io);
    try reflexivity; [ex_dirs | by left].
Defined.

Lemma download_fractions_rise_witness :
  exists w',
    ex_download ex_audio "/tmp" false (Some (fun _ => Ok tt)) VNone =
    (Ok "/tmp/Song.ogg", w') /\
    rises 0 (reported_fractions (emitted ex_io w')) /\
    last (reported_fractions (emitted ex_io w')) = Some 1%Qc.
Proof.
  apply (download_fractions_rise (R := spec_reporter) (N := ex_net)
           (Sh := ex_shared) false (VStr "MB") (VStr "downloading")
           (Some (fun _ => Ok tt))
           (fun d => VFloat (Qc_of_Z d / Qc_of_Z (unit_divisor (VStr "MB"))))
           (fun _ => "downloading")
           (fun d => spec_size_done d (VStr "MB")) (fun _ _ => eq_refl)
           ltac:(by intros ? ? [= <-])
           ex_audio "/tmp" false VNone "/tmp/Song.ogg"
           {| res_size := 26214400; res_breaks := None |} ex_io (fun _ => Ok tt));
    try reflexivity; [ex_dirs | by left].
Defined.

(** A site on which the extraction library is missing: the construction
    of the downloader raises. *)
Definition ex_no_library : Transport :=
  {| HttpFD_new := fun _ => Raise (NameError "yt_dlp");
     HttpFD_download := chunked_download (N := ex_net) |}.

Lemma download_fails_early_witness :
  download (R := spec_reporter) (T := ex_no_library) (Sh := ex_shared)
    ex_audio "/tmp" true (VStr "MB") None false VNone ex_io =
  (Raise (NameError "yt_dlp"), ex_io).
Proof.
  apply (download_fails_early (R := spec_reporter) (T := ex_no_library)
           (Sh := ex_shared) ex_audio "/tmp" true (VStr "MB") None false VNone
           (NameError "yt_dlp") ex_io).
  by left.
Defined.

Lemma download_chunked_breaks_witness :
  (ex_download ex_broken "/tmp" true None VNone).1 =
  Raise (DownloadError "TransferError") /\
  files (ex_download ex_broken "/tmp" true None VNone).2 !! "/tmp/Song.ogg"
  = Some 15728640%Z.
Proof.
  unfold ex_download.
  rewrite (download_chunked_breaks (R := spec_reporter) (N := ex_net)
             (Sh := ex_shared) true (VStr "MB") (VStr "downloading") None
             (fun d => VFloat (Qc_of_Z d / Qc_of_Z (unit_divisor (VStr "MB"))))
             (fun _ => "downloading")
             (fun d => spec_size_done d (VStr "MB"))
             ltac:(by intros ? [=]) ltac:(by intros ? ? [=])
             ex_broken "/tmp" false VNone "/tmp/Song.ogg"
             {| res_size := 26214400%Z; res_breaks := Some 15728640%Z |}
             15728640%Z ex_io);
    [split; [reflexivity | apply lookup_insert_eq] | try reflexivity..];
    [ex_dirs | cbn [res_size]; lia].
Defined.
