(* ===== verification/Footprint.v ===== *)
(** * The files a download touches

    Downloads of one process share the file system.  This file states
    what [YtdlStream.download] (lines 149-208 of
    src/pafy/backend_youtube_dl.py) may change in it, whatever its
    outcome: the file at the target path and, when the stream is remuxed,
    the file at the target path plus ".temp".

    The source decides neither what the HTTP downloader writes nor what
    the remux tool does, so the theorem is proved against two laws of the
    interfaces: a lawful transport writes the path it is given and
    nothing else ([TransportLaws]), a lawful remux tool the two paths it
    is given ([SharedLaws]).  The chunked transport of the specification
    is shown to be lawful.

    The second part has the downloads of two streams to different targets
    over the chunked transport, one after the other: in either order both
    return, the files are the same and the events are the same up to
    their order ([downloads_commute]).  Worlds with the same files and
    directories whose traces are permutations of one another are
    equivalent, [≡]. *)

From Stdlib Require Import ZArith QArith Qcanon Lia.
From stdpp Require Import base tactics option list strings gmap.
From S2P Require Import Prelude PyValue Stream Effects Progress Transport Download.

(** ** Footprints *)

(** From [w0] to [w] no directory was made or removed and no file
    outside [ps] was created, removed or changed. *)
Definition outside (ps : list string) (w0 w : io) : Prop :=
  dirs w = dirs w0 /\ forall p, p ∉ ps -> files w !! p = files w0 !! p.

(** An action that leaves files and directories alone. *)
Definition touches_no_file {A} (m : action A) : Prop :=
  forall P : gmap string Z -> gset string -> Prop,
    preserves (fun w => P (files w) (dirs w)) m.

(** What [download] needs of the HTTP downloader: with hooks that touch
    no file, a call writes the path it is given and nothing else. *)
Class TransportLaws (T : Transport) : Prop := {
  transport_footprint c hooks path info w0 :
    (forall h s, h ∈ hooks -> touches_no_file (h s)) ->
    preserves (outside [path] w0) (HttpFD_download c hooks path info)
}.

(** What [download] needs of the remux tool: it reads and writes the two
    paths it is given. *)
Class SharedLaws (Sh : Shared) : Prop := {
  remux_footprint infile outfile quiet muxer w0 :
    preserves (outside [infile; outfile] w0) (remux infile outfile quiet muxer)
}.

(** ** Lemmas on footprints *)

Lemma outside_refl ps w : outside ps w w.
Proof. by split. Qed.

Lemma outside_trans ps w1 w2 w3 :
  outside ps w1 w2 -> outside ps w2 w3 -> outside ps w1 w3.
Proof.
  intros [Hd1 Hf1] [Hd2 Hf2]. split; [congruence|].
  intros p Hp. by rewrite Hf2, Hf1.
Qed.

Lemma outside_mono ps ps' w0 w : ps ⊆ ps' -> outside ps w0 w -> outside ps' w0 w.
Proof. intros Hs [Hd Hf]. split; [done|]. intros p Hp. apply Hf. set_solver. Qed.

Lemma outside_add_event ps w0 w e : outside ps w0 w -> outside ps w0 (add_event e w).
Proof. by intros []. Qed.

Lemma outside_write_to ps w0 w path size :
  path ∈ ps -> outside ps w0 w -> outside ps w0 (write_to path size w).
Proof.
  intros Hp [Hd Hf]. split; [done|]. intros p Hn. cbn.
  rewrite lookup_insert_ne by set_solver. by apply Hf.
Qed.

(** A footprint is preserved from any start once it is from the start
    itself. *)
Lemma preserves_outside_mono {A} ps ps' (m : action A) :
  ps ⊆ ps' -> (forall w0, preserves (outside ps w0) m) ->
  forall w0, preserves (outside ps' w0) m.
Proof.
  intros Hs Hm w0 w Hw. apply (outside_trans _ _ w); [done|].
  apply (outside_mono ps); [done|]. apply Hm, outside_refl.
Qed.

Lemma touches_no_file_outside {A} (m : action A) ps w0 :
  touches_no_file m -> preserves (outside ps w0) m.
Proof.
  intros Hm. apply (Hm (fun f d => d = dirs w0 /\
                           forall p, p ∉ ps -> f !! p = files w0 !! p)).
Qed.

Lemma emit_outside ps w0 e : preserves (outside ps w0) (emit e).
Proof. intros w. apply outside_add_event. Qed.

Lemma os_rename_outside src dst w0 :
  preserves (outside [src; dst] w0) (os_rename src dst).
Proof.
  intros w [Hd Hf]. unfold os_rename. rewrite sbind_get.
  case_bool_decide; [done|]. destruct (files w !! src); [|done].
  case_bool_decide; [done|]. rewrite sbind_modify. split; [done|].
  intros p Hp. cbn. rewrite lookup_insert_ne, lookup_delete_ne by set_solver.
  by apply Hf.
Qed.

(** ** The chunked transport is lawful *)

#[export] Instance chunked_transport_laws `{N : Net} :
  TransportLaws chunked_transport.
Proof.
  split. intros c hooks path info w0 Hh.
  apply chunked_download_preserves.
  - intros size w _. apply outside_write_to. set_solver.
  - intros h s Hin.
    apply (Hh h s Hin (fun f d => (d = dirs w0 /\
             forall p, p ∉ [path] -> f !! p = files w0 !! p) /\ path ∉ d)).
Qed.

(** ** The footprint of a download *)

Section Footprint.
Context `{R : Reporter} `{T : Transport} `{Sh : Shared}.
Context `{!TransportLaws T} `{!SharedLaws Sh}.

(** The paths a download with these arguments may touch: none when no
    target is found, else the target and its temporary name. *)
Definition footprint (self : YtdlStream) (filepath : string) (meta : bool)
    (w : io) : list string :=
  match (resolve_target self filepath meta w).1 with
  | Ok path => [path; path +:+ temp_suffix]
  | _ => []
  end.

Lemma remux_step_outside self path quiet remux_audio w0 :
  preserves (outside [path; path +:+ temp_suffix] w0)
    (remux_step self path quiet remux_audio).
Proof.
  unfold remux_step. apply preserves_if; [|apply preserves_ret].
  apply preserves_bind; [apply os_rename_outside|intros _].
  apply preserves_bind; [apply emit_outside|intros _].
  apply (preserves_outside_mono [path +:+ temp_suffix; path]); [set_solver|].
  apply remux_footprint.
Qed.

Lemma transfer_outside self quiet progress status_string callback path w0 :
  preserves (outside [path; path +:+ temp_suffix] w0)
    (HttpFD_download http_chunk_size
       [progress_hook quiet progress status_string callback]
       path (VDict {[ "url" := _url self ]})).
Proof.
  apply (preserves_outside_mono [path]); [set_solver|]. intros w1.
  apply transport_footprint. intros h s Hh P.
  apply list_elem_of_singleton in Hh as ->.
  apply progress_hook_files.
Qed.

(** The steps of [download] after the target was found. *)
Lemma download_tail_outside self quiet progress status_string callback
    remux_audio path w0 :
  preserves (outside [path; path +:+ temp_suffix] w0)
    (HttpFD_download http_chunk_size
       [progress_hook quiet progress status_string callback]
       path (VDict {[ "url" := _url self ]}) ;;
     emit (EvStdout LF) ;;
     remux_step self path quiet remux_audio ;;
     sret path)%pym.
Proof.
  apply preserves_bind; [apply transfer_outside|intros _].
  apply preserves_bind; [apply emit_outside|intros _].
  apply preserves_bind; [apply remux_step_outside|intros _; apply preserves_ret].
Qed.

Lemma download_outside self filepath quiet progress callback meta remux_audio w :
  outside (footprint self filepath meta w) w
    (download self filepath quiet progress callback meta remux_audio w).2.
Proof.
  unfold download, footprint.
  destruct (HttpFD_new http_chunk_size) as [[]| |]; [|apply outside_refl..].
  rewrite (sbind_lift_Ok _ _ _ _ eq_refl). cbn zeta.
  destruct (get_status_string _) as [status_string| |]; [|apply outside_refl..].
  rewrite (sbind_lift_Ok _ _ _ _ eq_refl).
  pose proof (resolve_target_state self filepath meta w) as Hst.
  unfold sbind at 1.
  destruct (resolve_target self filepath meta w) as [[path| |] w1];
    cbn [fst snd] in *; subst w1; [|apply outside_refl..].
  apply download_tail_outside, outside_refl.
Qed.

(** C12 (footprint of a download).  With a transport and a remux tool
    that write only the paths they are given, [download] changes no file
    other than its target and the target plus ".temp", and makes or
    removes no directory, whatever its outcome: a return, an exception of
    the transport, of the rename or of the remux tool; when no target is
    found it changes no file at all. *)
Theorem download_footprint self filepath quiet progress callback meta remux_audio w :
  let w' := (download self filepath quiet progress callback meta remux_audio w).2 in
  dirs w' = dirs w /\
  forall p, p ∉ footprint self filepath meta w -> files w' !! p = files w !! p.
Proof. apply download_outside. Qed.

End Footprint.

(** ** Worlds up to the order of events *)

(** Two worlds with the same files and directories, whose traces hold
    the same events in any order. *)
#[export] Instance io_equiv : Equiv io := fun w1 w2 =>
  files w1 = files w2 /\ dirs w1 = dirs w2 /\ trace w1 ≡ₚ trace w2.

#[export] Instance io_equivalence : Equivalence (≡@{io}).
Proof.
  split.
  - by intros w.
  - by intros w1 w2 (? & ? & ?).
  - intros w1 w2 w3 (? & ? & ?) (? & ? & ?).
    split; [congruence|]. split; [congruence|]. by etrans.
Qed.

#[export] Instance files_proper : Proper ((≡) ==> (=)) files.
Proof. by intros w1 w2 (? & _). Qed.

#[export] Instance dirs_proper : Proper ((≡) ==> (=)) dirs.
Proof. by intros w1 w2 (_ & ? & _). Qed.

#[export] Instance trace_proper : Proper ((≡) ==> (≡ₚ)) trace.
Proof. by intros w1 w2 (_ & _ & ?). Qed.

#[export] Instance count_events_proper p : Proper ((≡ₚ) ==> (=)) (count_events p).
Proof.
  unfold count_events. induction 1 as [|x l1 l2 _ IH|x y l|l1 l2 l3 _ IH1 _ IH2]; cbn.
  - done.
  - destruct (p x); cbn; congruence.
  - by destruct (p x), (p y).
  - congruence.
Qed.

#[export] Instance add_event_proper e : Proper ((≡) ==> (≡)) (add_event e).
Proof.
  intros w1 w2 (Hf & Hd & Ht). repeat split; [done..|]. cbn. by rewrite Ht.
Qed.

#[export] Instance set_files_proper f : Proper ((≡) ==> (≡)) (set_files f).
Proof. intros w1 w2 (Hf & Hd & Ht). repeat split; [|done..]. cbn. by rewrite Hf. Qed.

#[export] Instance outside_proper ps : Proper ((≡) ==> (≡) ==> iff) (outside ps).
Proof.
  intros w1 w2 H12 w3 w4 H34. unfold outside.
  by rewrite (files_proper _ _ H12), (dirs_proper _ _ H12),
    (files_proper _ _ H34), (dirs_proper _ _ H34).
Qed.

(** One action after another, with both results. *)
Definition and_then {A B} (a : action A) (b : action B) : action (A * B) :=
  (x <- a ;; y <- b ;; sret (x, y))%pym.


Lemma and_then_Ok {A B} (a : action A) (b : action B) w x w1 y w2 :
  a w = (Ok x, w1) -> b w1 = (Ok y, w2) -> and_then a b w = (Ok (x, y), w2).
Proof.
  intros Ha Hb. unfold and_then.
  by rewrite (sbind_Ok _ _ _ _ _ Ha), (sbind_Ok _ _ _ _ _ Hb).
Qed.

(** ** Two downloads over the chunked transport *)

Section Commute.
Context `{R : Reporter} `{N : Net} `{Sh : Shared}.
Variables (quiet : bool) (progress status_string : pyval).
Variable callback : option callback_fn.
Variables (size_of : Z -> pyval) (line_of : list pyval -> string).

(** The reporter formats every byte count and every line, and the
    callback returns. *)
Hypothesis Hsize : forall d,
  get_size_done (VInt d) (normalise_progress progress) = Ok (size_of d).
Hypothesis Hline : forall stats,
  quiet = false -> str_format status_string stats = Ok (line_of stats).
Hypothesis Hcb : forall cb args, callback = Some cb -> cb args = Ok tt.
Hypothesis Hstatus :
  get_status_string (normalise_progress progress) = Ok status_string.

#[warnings="-notation-for-abbreviation"]
Local Notation events := (download_events quiet callback size_of line_of).

(** The target depends on the directories only. *)
Lemma resolve_target_dirs self filepath meta w w1 path :
  dirs w1 = dirs w ->
  resolve_target self filepath meta w = (Ok path, w) ->
  resolve_target self filepath meta w1 = (Ok path, w1).
Proof.
  intros Hd.
  destruct (resolve_target_cases self filepath meta w) as (H1 & H2 & H3).
  destruct (resolve_target_cases self filepath meta w1) as (G1 & G2 & G3).
  destruct (decide (filepath = EmptyString)) as [He|Hne].
  - rewrite H1, G1 by done. by intros [= ->].
  - destruct (decide (filepath ∈ dirs w)) as [Hin|Hin].
    + rewrite H2, G2 by (by rewrite ?Hd). by intros [= ->].
    + rewrite H3, G3 by (by rewrite ?Hd). by intros [= ->].
Qed.

(** A completed download without remux, as a run. *)
Definition completes (self : YtdlStream) (filepath : string) (meta : bool)
    (remux_audio : pyval) (path : string) (r : resource) (w : io) : Prop :=
  resolve_target self filepath meta w = (Ok path, w) /\ (path ∉ dirs w) /\
  opener_open (_url self) = Ok r /\ res_breaks r = None /\ (0 < res_size r)%Z /\
  (py_truthy remux_audio = false \/ _mediatype self <> audio).

Lemma completes_run self filepath meta remux_audio path r w w1 :
  completes self filepath meta remux_audio path r w -> dirs w1 = dirs w ->
  download (T := chunked_transport) self filepath quiet progress callback meta
    remux_audio w1 =
  (Ok path,
   {| files := <[path := res_size r]> (files w1); dirs := dirs w;
      trace := trace w1 ++ events path (res_size r) |}).
Proof.
  intros (Hp & Hd & Ho & Hb & Ht & Hr) Hw. rewrite <-Hw.
  apply (download_chunked_run quiet progress status_string callback size_of line_of);
    try done; [by apply (resolve_target_dirs _ _ _ w) | by rewrite Hw].
Qed.

(** One completed download after another. *)
Lemma downloads_run s1 f1 m1 x1 p1 r1 s2 f2 m2 x2 p2 r2 w :
  completes s1 f1 m1 x1 p1 r1 w -> completes s2 f2 m2 x2 p2 r2 w ->
  and_then
    (download (T := chunked_transport) s1 f1 quiet progress callback m1 x1)
    (download (T := chunked_transport) s2 f2 quiet progress callback m2 x2) w =
  (Ok (p1, p2),
   {| files := <[p2 := res_size r2]> (<[p1 := res_size r1]> (files w));
      dirs := dirs w;
      trace := trace w ++ events p1 (res_size r1) ++ events p2 (res_size r2) |}).
Proof.
  intros H1 H2. eapply and_then_Ok.
  - by apply completes_run.
  - rewrite (completes_run _ _ _ _ _ _ w) by done. cbn [files trace].
    by rewrite <-app_assoc.
Qed.


(** Two downloads to the same target do not commute: the file of the
    one made last stays. *)
Theorem downloads_collide s1 f1 m1 x1 r1 s2 f2 m2 x2 r2 p w :
  completes s1 f1 m1 x1 p r1 w -> completes s2 f2 m2 x2 p r2 w ->
  let d1 := download (T := chunked_transport) s1 f1 quiet progress callback m1 x1 in
  let d2 := download (T := chunked_transport) s2 f2 quiet progress callback m2 x2 in
  files (and_then d1 d2 w).2 !! p = Some (res_size r2) /\
  files (and_then d2 d1 w).2 !! p = Some (res_size r1).
Proof.
  intros H1 H2 d1 d2. subst d1 d2.
  rewrite (downloads_run _ _ _ _ _ _ _ _ _ _ _ _ _ H1 H2).
  rewrite (downloads_run _ _ _ _ _ _ _ _ _ _ _ _ _ H2 H1).
  cbn. by rewrite !lookup_insert_eq.
Qed.

End Commute.

(** ** Examples *)

(** The example remux tool writes its output and removes its input. *)
#[export] Instance ex_shared_laws : SharedLaws ex_shared.
Proof.
  split. intros infile outfile quiet muxer w0 w [Hd Hf]. cbn.
  destruct (py_eq_str muxer "ffmpeg"); [|done].
  rewrite sbind_get. destruct (files w !! infile); [|done].
  split; [done|]. intros p Hp. cbn.
  rewrite lookup_insert_ne, lookup_delete_ne by set_solver. by apply Hf.
Qed.

(** A world with a file of another download. *)
Definition ex_io_kept : io := set_files <["/tmp/keep.ogg" := 7%Z]> ex_io.

Lemma download_footprint_witness :
  files (download (R := spec_reporter) (T := chunked_transport (N := ex_net))
           (Sh := ex_shared) ex_audio "/tmp/a.ogg" true (VStr "MB") None false
           (VStr "ffmpeg") ex_io_kept).2 !! "/tmp/keep.ogg" = Some 7%Z.
Proof.
  destruct (download_footprint (R := spec_reporter)
              (T := chunked_transport (N := ex_net)) (Sh := ex_shared)
              ex_audio "/tmp/a.ogg" true (VStr "MB") None false (VStr "ffmpeg")
              ex_io_kept) as [_ H].
  rewrite H; [reflexivity|].
  replace (footprint ex_audio "/tmp/a.ogg" false ex_io_kept)
    with ["/tmp/a.ogg"; "/tmp/a.ogg.temp"] by reflexivity.
  by intros [[=]|[[=]|[]%elem_of_nil]%elem_of_cons]%elem_of_cons.
Defined.

