(* ===== verification/Session.v ===== *)
(** * Sessions: the imported module, a handle, its catalog, a download

    The components meet in three places.  The methods of
    src/pafy/backend_youtube_dl.py reach the extraction library through
    the global name [yt_dlp], which the import of the module binds or
    leaves unbound (file Setup): [linked_backend] and [linked_transport]
    are the collaborators of [YtdlPafy] and of [download] as seen through
    a namespace (lines 43 and 158), given what each installed module
    provides.  The streams that [download] is
    called on are those that [_process_streams] built (lines 97-104), so
    the media kind that decides the remux is the one the catalog was
    filtered by: [download_from] is the caller's flow of the
    specification, a list of the catalog through the accessor
    [streams_of], a stream of it by position, its download, on a state
    that pairs the handle with the file system.

    The theorems: with the library unbound, the first fetch and every
    download raise [NameError] and change nothing; with the library
    bound, the methods run on the module the import chose; the catalog
    is built on the first access only; a failed extraction or a position
    past the end of the list ends the flow before a file is touched; a
    stream taken from the audio list is remuxed and a stream taken from
    the normal or the video list never is; on every outcome the flow
    keeps the invariant of the handle (file Lifecycle) and stays within
    the footprint of the selected stream (file Footprint), the two
    guarantees of the components taken together. *)

From Stdlib Require Import ZArith Lia.
From stdpp Require Import base tactics option list strings gmap.
From S2P Require Import Prelude PyValue Setup Stream Pafy Lifecycle Effects.
From S2P Require Import Progress Transport Download Footprint.

(** ** Collaborators seen through the module's namespace *)

(** A handle's collaborators with the extraction call replaced. *)
Definition with_extractor (f : gmap string pyval -> string -> res pyval)
    (B : Backend) : Backend :=
  {| extract_info := f;
     get_video_gdata := @get_video_gdata B;
     g_urls := @g_urls B;
     g_lifespan := @g_lifespan B |}.

Section Linked.
Variable ns : gmap string binding.

(** What each installed module provides: its extractor and its
    downloader. *)
Variable extractor : string -> gmap string pyval -> string -> res pyval.
Variable downloader : string -> Transport.

(** The module that the name [yt_dlp] stands for when a method runs. *)
Definition library : res string :=
  (b <- global_name ns "yt_dlp" ;;
   match b with
   | BModule m => Ok m
   | _ => Undef
   end)%res.

(** Line 43: [yt_dlp.YoutubeDL(...)] looks the global name up and calls
    the module it finds. *)
Definition linked_backend (B : Backend) : Backend :=
  with_extractor (fun opts vid => (m <- library ;; extractor m opts vid)%res) B.

(** Line 158: [yt_dlp.downloader.http.HttpFD(...)] does the same; the
    downloader constructed is that module's. *)
Definition linked_transport : Transport :=
  {| HttpFD_new := fun c => (m <- library ;; @HttpFD_new (downloader m) c)%res;
     HttpFD_download := fun c hooks path info =>
       match library with
       | Ok m => @HttpFD_download (downloader m) c hooks path info
       | Raise e => sraise e
       | Undef => slift Undef
       end |}.

Context (B : Backend) `{R : Reporter} `{Sh : Shared}.

Lemma library_unbound : ns !! "yt_dlp" = None -> library = Raise (NameError "yt_dlp").
Proof. intros H. unfold library, global_name. by rewrite H. Qed.

Lemma library_bound m : ns !! "yt_dlp" = Some (BModule m) -> library = Ok m.
Proof. intros H. unfold library, global_name. by rewrite H. Qed.

(** *** The name is unbound *)

Lemma fetch_info_unbound w :
  ns !! "yt_dlp" = None ->
  @fetch_info (linked_backend B) w = (Raise (NameError "yt_dlp"), w).
Proof.
  intros H%library_unbound. unfold fetch_info. rewrite sbind_get.
  unfold scatch, slift. cbn [extract_info linked_backend with_extractor].
  by rewrite H.
Qed.

Lemma fetch_basic_unbound w :
  ns !! "yt_dlp" = None -> _have_basic (self w) = false ->
  @_fetch_basic (linked_backend B) w = (Raise (NameError "yt_dlp"), w).
Proof.
  intros H Hb. unfold _fetch_basic. rewrite sbind_get, Hb.
  by rewrite (sbind_Raise _ _ _ _ _ (fetch_info_unbound w H)).
Qed.

Lemma process_streams_unbound w :
  ns !! "yt_dlp" = None -> _have_basic (self w) = false ->
  @_process_streams (linked_backend B) w = (Raise (NameError "yt_dlp"), w).
Proof.
  intros H Hb. rewrite process_streams_run, Hb.
  by rewrite (fetch_basic_unbound w H Hb).
Qed.

Lemma download_unbound self filepath quiet progress callback meta remux_audio io :
  ns !! "yt_dlp" = None ->
  download (T := linked_transport) self filepath quiet progress callback meta
    remux_audio io = (Raise (NameError "yt_dlp"), io).
Proof.
  intros H%library_unbound. apply download_new_raises.
  cbn [HttpFD_new linked_transport]. by rewrite H.
Qed.

(** *** The name is bound *)

Lemma fetch_info_bound m w :
  ns !! "yt_dlp" = Some (BModule m) ->
  @fetch_info (linked_backend B) w = @fetch_info (with_extractor (extractor m) B) w.
Proof.
  intros H%library_bound. unfold fetch_info. rewrite !sbind_get.
  cbn [extract_info linked_backend with_extractor]. by rewrite H.
Qed.

Lemma fetch_basic_bound m w :
  ns !! "yt_dlp" = Some (BModule m) ->
  @_fetch_basic (linked_backend B) w = @_fetch_basic (with_extractor (extractor m) B) w.
Proof.
  intros H. unfold _fetch_basic. rewrite !sbind_get.
  destruct (_have_basic (self w)); [done|].
  apply sbind_cong, (fetch_info_bound m w H).
Qed.

Lemma process_streams_bound m w :
  ns !! "yt_dlp" = Some (BModule m) ->
  @_process_streams (linked_backend B) w =
  @_process_streams (with_extractor (extractor m) B) w.
Proof. intros H. by rewrite !process_streams_run, (fetch_basic_bound m w H). Qed.

Lemma download_bound m self filepath quiet progress callback meta remux_audio io :
  ns !! "yt_dlp" = Some (BModule m) ->
  download (T := linked_transport) self filepath quiet progress callback meta
    remux_audio io =
  download (T := downloader m) self filepath quiet progress callback meta
    remux_audio io.
Proof.
  intros H%library_bound. unfold download.
  cbn [HttpFD_new HttpFD_download linked_transport]. by rewrite H.
Qed.

End Linked.

(** ** The import and the methods *)

Section Imported.
Context (py : interpreter) (ns : gmap string binding).
Context (extractor : string -> gmap string pyval -> string -> res pyval).
Context (downloader : string -> Transport).
Context (B : Backend) `{R : Reporter} `{Sh : Shared}.
Hypothesis Hload : load_module py = Ok ns.

Lemma imported_backend : ns !! "yt_dlp" = BModule <$> backend_of py.
Proof.
  destruct (load_module_Ok py ns Hload) as [_ ->]. apply module_namespace_backend.
Qed.

(** C19 (no extraction library).  When neither [yt_dlp] nor [youtube_dl]
    is found, the import still succeeds, and the failure shows at the
    first use: [_fetch_basic] and [_process_streams] on a handle without
    basic data, and every [download], raise [NameError] for the name
    [yt_dlp] and leave the handle and the files as they were. *)
Theorem unbound_backend_raises w self filepath quiet progress callback meta
    remux_audio io :
  backend_of py = None ->
  (_have_basic (Pafy.self w) = false ->
   @_fetch_basic (linked_backend ns extractor B) w = (Raise (NameError "yt_dlp"), w) /\
   @_process_streams (linked_backend ns extractor B) w =
     (Raise (NameError "yt_dlp"), w)) /\
  download (T := linked_transport ns downloader) self filepath quiet progress
    callback meta remux_audio io = (Raise (NameError "yt_dlp"), io).
Proof.
  intros Hb. pose proof imported_backend as Hn. rewrite Hb in Hn.
  split; [intros Hw; split|];
    [by apply fetch_basic_unbound | by apply process_streams_unbound
    | by apply download_unbound].
Qed.

(** The library that runs.  When the import found an extraction library,
    the methods run on that module's extractor and downloader: on
    [yt_dlp]'s when it is installed, else on [youtube_dl]'s. *)
Theorem linked_library_equiv m w self filepath quiet progress callback meta
    remux_audio io :
  backend_of py = Some m ->
  @_fetch_basic (linked_backend ns extractor B) w =
    @_fetch_basic (with_extractor (extractor m) B) w /\
  @_process_streams (linked_backend ns extractor B) w =
    @_process_streams (with_extractor (extractor m) B) w /\
  download (T := linked_transport ns downloader) self filepath quiet progress
    callback meta remux_audio io =
  download (T := downloader m) self filepath quiet progress callback meta
    remux_audio io.
Proof.
  intros Hb. pose proof imported_backend as Hn. rewrite Hb in Hn.
  split; [|split];
    [by apply fetch_basic_bound | by apply process_streams_bound
    | by apply download_bound].
Qed.

End Imported.

(** ** From the catalog to the download *)

(** The handle and the file system of one session. *)
Definition session : Type := world * io.

(** A method of the handle and an action on the files, as steps of a
    session: each leaves the other half alone. *)
Definition on_handle {A} (m : method A) : pym session pyexn A :=
  fun s => ((m s.1).1, ((m s.1).2, s.2)).

Definition on_files {A} (m : action A) : pym session pyexn A :=
  fun s => ((m s.2).1, (s.1, (m s.2).2)).

Section Flow.
Context `{B : Backend} `{R : Reporter} `{T : Transport} `{Sh : Shared}.

(** Section 4.1 of the specification: the accessor of one of the six
    lists builds the catalog on the first access and returns the cached
    list afterwards.  The accessors are code of the shared base class. *)
Definition streams_of (k : string) : method (list YtdlStream) :=
  (w <- sget ;;
   match lists (Pafy.self w) !! "_allstreams" with
   | None => _process_streams
   | Some _ => sret tt
   end ;;
   w' <- sget ;;
   sret (get_list (Pafy.self w') k))%pym.

(** The data flow of the specification, [handle.<k>[n].download(...)]:
    the caller takes a list of the catalog, selects a stream of it by
    position and downloads it. *)
Definition download_from (k : string) (n : nat) (filepath : string)
    (quiet : bool) (progress : pyval) (callback : option callback_fn)
    (meta : bool) (remux_audio : pyval) : pym session pyexn string :=
  (l <- on_handle (streams_of k) ;;
   s <- slift (of_option IndexError (l !! n)) ;;
   on_files (download s filepath quiet progress callback meta remux_audio))%pym.

(** *** The accessor *)

Lemma streams_of_run k w :
  streams_of k w =
  match lists (Pafy.self w) !! "_allstreams" with
  | Some _ => (Ok (get_list (Pafy.self w) k), w)
  | None =>
      match _process_streams w with
      | (Ok _, w') => (Ok (get_list (Pafy.self w') k), w')
      | (Raise e, w') => (Raise e, w')
      | (Undef, w') => (Undef, w')
      end
  end.
Proof.
  unfold streams_of. rewrite sbind_get.
  destruct (lists _ !! _); [reflexivity|]. unfold sbind at 1.
  by destruct (_process_streams w) as [[[]| |] w'].
Qed.

(** A list the accessor returns is a list of an installed catalog, on
    the first access and on the later ones. *)
Lemma streams_of_catalog w0 w w' k l :
  handle_inv w0 w -> streams_of k w = (Ok l, w') ->
  lists (Pafy.self w') !! "_allstreams" <> None /\
  exists all h, l = get_list (install_catalog all h) k /\
                lists (Pafy.self w') = lists (install_catalog all h).
Proof.
  intros Hinv. rewrite streams_of_run.
  destruct (lists (Pafy.self w) !! "_allstreams") eqn:Hl.
  - intros [= <- <-]. split; [by rewrite Hl|].
    destruct (inv_catalog _ _ Hinv) as [He|(_ & all & _ & Hc)];
      [by rewrite He in Hl|].
    exists all, (BasePafy_init EmptyString false).
    split; [unfold get_list; by rewrite Hc|exact Hc].
  - destruct (_process_streams w) as [[[]| |] w1] eqn:Hp; intros [= <- <-].
    apply process_streams_Ok in Hp as (w2 & all & _ & _ & ->).
    rewrite self_set_self. split; [|by exists all, (Pafy.self w2)].
    unfold install_catalog. by rewrite lists_set_list, lookup_insert_eq.
Qed.

(** The three lists by media kind hold streams of that kind only. *)
Lemma streams_of_kind w0 w w' k l s :
  handle_inv w0 w -> streams_of k w = (Ok l, w') -> s ∈ l ->
  (k = "_streams" -> _mediatype s = normal) /\
  (k = "_audiostreams" -> _mediatype s = audio) /\
  (k = "_videostreams" -> _mediatype s = video).
Proof.
  intros Hinv Hrun Hs.
  destruct (streams_of_catalog _ _ _ _ _ Hinv Hrun) as (_ & all & h & -> & _).
  destruct (install_catalog_lists all h) as (_ & Hn & Ha & Hv & _).
  repeat split; intros ->; [rewrite Hn in Hs|rewrite Ha in Hs|rewrite Hv in Hs];
    by apply list_elem_of_filter in Hs as [? _].
Qed.

(** The catalog is built once: after an access that returned, every
    accessor returns the cached list and leaves the handle as it is. *)
Theorem streams_of_cached w0 w w' k l k' :
  handle_inv w0 w -> streams_of k w = (Ok l, w') ->
  streams_of k' w' = (Ok (get_list (Pafy.self w') k'), w').
Proof.
  intros Hinv Hrun.
  destruct (streams_of_catalog _ _ _ _ _ Hinv Hrun) as (Hl & _).
  rewrite streams_of_run. by destruct (lists (Pafy.self w') !! "_allstreams").
Qed.

(** *** Selection and download *)

(** The flow by the outcome of the accessor and the position. *)
Lemma download_from_cases w io k n filepath quiet progress callback meta
    remux_audio :
  download_from k n filepath quiet progress callback meta remux_audio (w, io) =
  match streams_of k w with
  | (Ok l, w') =>
      match l !! n with
      | Some s =>
          let r := download s filepath quiet progress callback meta remux_audio io in
          (r.1, (w', r.2))
      | None => (Raise IndexError, (w', io))
      end
  | (Raise e, w') => (Raise e, (w', io))
  | (Undef, w') => (Undef, (w', io))
  end.
Proof.
  unfold download_from, sbind at 1.
  change (on_handle (streams_of k) (w, io))
    with ((streams_of k w).1, ((streams_of k w).2, io)).
  destruct (streams_of k w) as [[l| |] w']; cbn [fst snd]; [|done..].
  destruct (l !! n) as [s|]; [|done].
  by rewrite (sbind_lift_Ok _ _ _ s).
Qed.

Lemma download_from_run w w' io k n l s filepath quiet progress callback meta
    remux_audio :
  streams_of k w = (Ok l, w') -> l !! n = Some s ->
  download_from k n filepath quiet progress callback meta remux_audio (w, io) =
  let r := download s filepath quiet progress callback meta remux_audio io in
  (r.1, (w', r.2)).
Proof. intros Hrun Hn. by rewrite download_from_cases, Hrun, Hn. Qed.

(** A position past the end of the list raises [IndexError] before any
    file is touched; the catalog stays built. *)
Theorem download_from_out_of_range w w' io k n l filepath quiet progress
    callback meta remux_audio :
  streams_of k w = (Ok l, w') -> length l <= n ->
  download_from k n filepath quiet progress callback meta remux_audio (w, io) =
  (Raise IndexError, (w', io)).
Proof.
  intros Hrun Hn%lookup_ge_None_2. by rewrite download_from_cases, Hrun, Hn.
Qed.

(** An extraction that fails on the first access fails the whole flow
    with the same error, and the file system is not touched. *)
Theorem download_from_no_catalog w w' io k n e filepath quiet progress callback
    meta remux_audio :
  streams_of k w = (Raise e, w') ->
  download_from k n filepath quiet progress callback meta remux_audio (w, io) =
  (Raise e, (w', io)).
Proof. intros Hrun. by rewrite download_from_cases, Hrun. Qed.

(** C11 (catalog and remux).  On a handle that satisfies the invariant
    of the life cycle, a caller takes the [n]-th stream of the list [k]
    through the accessor and downloads it with a remux container.  When
    the transfer reaches its end, the remux tool is started exactly on the
    streams of the audio list: a stream taken from [_audiostreams] is
    renamed to the temporary name and handed to the tool, a stream taken
    from [_streams] or from [_videostreams] is never renamed or remuxed
    and the target path is returned; in both cases the handle keeps the
    catalog that the access built or found. *)
Theorem catalog_download_remux w0 w w' k n l s filepath quiet progress callback
    meta remux_audio status_string path io v size io1 :
  handle_inv w0 w ->
  streams_of k w = (Ok l, w') -> l !! n = Some s ->
  HttpFD_new http_chunk_size = Ok tt ->
  get_status_string (normalise_progress progress) = Ok status_string ->
  resolve_target s filepath meta io = (Ok path, io) ->
  transfer_call s quiet progress status_string callback path io = (Ok v, io1) ->
  py_truthy remux_audio = true ->
  files io1 !! path = Some size -> path ∉ dirs io1 ->
  (path +:+ temp_suffix) ∉ dirs io1 ->
  let temp := path +:+ temp_suffix in
  let io2 := add_event (EvRemux temp path quiet remux_audio)
               (add_event (EvRename path temp)
                  (set_files (fun f => <[temp := size]> (delete path f))
                     (add_event (EvStdout LF) io1))) in
  (k = "_audiostreams" ->
   download_from k n filepath quiet progress callback meta remux_audio (w, io) =
   (rmap (fun _ => path) (remux temp path quiet remux_audio io2).1,
    (w', (remux temp path quiet remux_audio io2).2))) /\
  (k = "_streams" \/ k = "_videostreams" ->
   download_from k n filepath quiet progress callback meta remux_audio (w, io) =
   (Ok path, (w', add_event (EvStdout LF) io1))).
Proof.
  intros Hinv Hrun Hl Hn Hst Hp Ht Hr Hf Hd Hdt temp io2.
  destruct (streams_of_kind _ _ _ _ _ s Hinv Hrun (list_elem_of_lookup_2 _ _ _ Hl))
    as (Hno & Ha & Hv).
  rewrite (download_from_run _ _ _ _ _ _ _ _ _ _ _ _ _ Hrun Hl). split; intros Hk.
  - by destruct (download_remuxes s filepath quiet progress callback meta
                  remux_audio status_string path io Hn Hst Hp v size io1
                  Ht Hr (Ha Hk) Hf Hd Hdt) as [_ ->].
  - rewrite (download_skips _ _ _ _ _ _ _ _ _ _ Hn Hst Hp v io1 Ht); [done|].
    right. destruct Hk as [Hk|Hk]; [rewrite (Hno Hk)|rewrite (Hv Hk)]; done.
Qed.

End Flow.

(** *** What the flow keeps *)

Section FlowSafety.
Context `{B : Backend} `{R : Reporter} `{T : Transport} `{Sh : Shared}.
Context `{!TransportLaws T} `{!SharedLaws Sh}.

Lemma streams_of_inv w0 k : preserves (handle_inv w0) (streams_of k).
Proof.
  intros w Hw. rewrite streams_of_run.
  destruct (lists _ !! _); [done|].
  pose proof (inv_process_streams w0 w Hw) as H.
  by destruct (_process_streams w) as [[[]| |] w'].
Qed.

(** The paths the flow may touch: those of the download of the stream it
    selects, when the accessor returns and the position is in the list. *)
Definition flow_footprint (k : string) (n : nat) (filepath : string)
    (meta : bool) (s : session) : list string :=
  match streams_of k s.1 with
  | (Ok l, _) =>
      match l !! n with
      | Some x => footprint x filepath meta s.2
      | None => []
      end
  | _ => []
  end.

(** C13 (the flow is safe).  Whatever its outcome, the caller's flow
    leaves a handle that satisfies the invariant of the life cycle when
    the handle it started from does, and, with a lawful transport and
    remux tool, a file system in which no directory was made or removed
    and no file changed but the target of the selected stream and that
    target plus ".temp"; when the extraction fails or the position is
    past the end of the list, no file at all. *)
Theorem download_from_safe w0 k n filepath quiet progress callback meta
    remux_audio (s : session) :
  handle_inv w0 s.1 ->
  let s' := (download_from k n filepath quiet progress callback meta
               remux_audio s).2 in
  handle_inv w0 s'.1 /\ outside (flow_footprint k n filepath meta s) s.2 s'.2.
Proof.
  destruct s as [w io]. intros Hw. cbn [fst snd] in Hw.
  pose proof (streams_of_inv w0 k w Hw) as Hi.
  rewrite download_from_cases. unfold flow_footprint. cbn [fst snd].
  destruct (streams_of k w) as [[l| |] w'];
    cbn [fst snd] in *; [|by split; [|apply outside_refl]..].
  destruct (l !! n) as [x|]; cbn [fst snd]; [|by split; [|apply outside_refl]].
  split; [done|apply download_outside].
Qed.

End FlowSafety.

(** ** Example sessions *)

Lemma ex_load_none :
  load_module (ex_interpreter ex_base) = Ok (module_namespace None).
Proof. rewrite load_module_eq. reflexivity. Qed.

Lemma ex_load_yt_dlp :
  load_module (ex_interpreter ("yt_dlp" :: ex_base)) =
  Ok (module_namespace (Some "yt_dlp")).
Proof. rewrite load_module_eq. reflexivity. Qed.

(** A network that serves the formats of [ex_info_dict]: a video of
    25 MiB and an audio track of 3 MiB. *)
Definition ex_site : Net :=
  {| opener_open := fun url =>
       if py_eq_str url "https://r1.googlevideo.com/videoplayback"
       then Ok {| res_size := 26214400%Z; res_breaks := None |}
       else if py_eq_str url "https://r1.googlevideo.com/audio"
       then Ok {| res_size := 3145728%Z; res_breaks := None |}
       else Raise (DownloadError "HTTP Error 404") |}.

(** The catalog of the video "vid" and the first stream of its video
    list. *)
Definition ex_catalog : world :=
  (@_process_streams ex_backend (ex_world "vid")).2.

Definition ex_catalog_video : YtdlStream :=
  default ex_video (get_list (Pafy.self ex_catalog) "_videostreams" !! 0%nat).

(** A site with a current [yt_dlp] and an outdated [youtube_dl]. *)
Definition ex_extractor (m : string) : gmap string pyval -> string -> res pyval :=
  if String.eqb m "yt_dlp" then @extract_info ex_backend
  else fun _ _ => Raise (DownloadError "ERROR: YouTube said: Unable to extract").

Definition ex_downloader (m : string) : Transport := chunked_transport (N := ex_net).

Lemma unbound_backend_raises_witness :
  @_fetch_basic (linked_backend (module_namespace None) ex_extractor ex_backend)
    (ex_world "vid")
  = (Raise (NameError "yt_dlp"), ex_world "vid").
Proof.
  destruct (unbound_backend_raises (R := spec_reporter) (Sh := ex_shared)
              (ex_interpreter ex_base) (module_namespace None) ex_extractor
              ex_downloader ex_backend ex_load_none (ex_world "vid")
              ex_audio "/tmp" true (VStr "MB") None false VNone ex_io eq_refl)
    as [H _].
  by apply H.
Defined.

Lemma linked_library_equiv_witness :
  @_process_streams
    (linked_backend (module_namespace (Some "yt_dlp")) ex_extractor ex_backend)
    (ex_world "vid") =
  @_process_streams (with_extractor (ex_extractor "yt_dlp") ex_backend) (ex_world "vid").
Proof.
  apply (linked_library_equiv (R := spec_reporter) (Sh := ex_shared)
           (ex_interpreter ("yt_dlp" :: ex_base)) (module_namespace (Some "yt_dlp"))
           ex_extractor ex_downloader ex_backend ex_load_yt_dlp "yt_dlp"
           (ex_world "vid") ex_audio "/tmp" true (VStr "MB") None false VNone ex_io
           eq_refl).
Defined.

(** The scenario of the specification: a remux container on a video-only
    stream of the catalog starts no remux. *)
Lemma ex_catalog_run :
  @_process_streams ex_backend (ex_world "vid") = (Ok tt, ex_catalog).
Proof.
  apply (run_eta (@_process_streams ex_backend) (ex_world "vid")).
  vm_compute. reflexivity.
Qed.

Lemma ex_videostreams_run :
  @streams_of ex_backend "_videostreams" (ex_world "vid") =
  (Ok (get_list (Pafy.self ex_catalog) "_videostreams"), ex_catalog).
Proof. rewrite streams_of_run, ex_catalog_run. reflexivity. Qed.

Lemma ex_videostreams_first :
  get_list (Pafy.self ex_catalog) "_videostreams" !! 0%nat = Some ex_catalog_video.
Proof.
  unfold ex_catalog_video.
  destruct (proj2 (lookup_lt_is_Some
              (get_list (Pafy.self ex_catalog) "_videostreams") 0)) as [s Hs];
    [vm_compute; lia|].
  by rewrite Hs.
Qed.

Lemma ex_world_fresh : fresh (ex_world "vid").
Proof. by vm_compute. Qed.

Lemma catalog_download_remux_witness :
  let io1 := (transfer_call (R := spec_reporter) (T := chunked_transport (N := ex_site))
                ex_catalog_video true (VStr "MB") (VStr "downloading") None
                "/tmp/v.webm" ex_io).2 in
  download_from (B := ex_backend) (R := spec_reporter)
    (T := chunked_transport (N := ex_site)) (Sh := ex_shared)
    "_videostreams" 0 "/tmp/v.webm" true (VStr "MB") None false (VStr "ffmpeg")
    (ex_world "vid", ex_io) =
  (Ok "/tmp/v.webm", (ex_catalog, add_event (EvStdout LF) io1)).
Proof.
  intros io1.
  pose proof (catalog_download_remux (B := ex_backend) (R := spec_reporter)
                (T := chunked_transport (N := ex_site)) (Sh := ex_shared)
                (ex_world "vid") (ex_world "vid") ex_catalog "_videostreams" 0 _
                ex_catalog_video "/tmp/v.webm" true
                (VStr "MB") None false (VStr "ffmpeg") (VStr "downloading")
                "/tmp/v.webm" ex_io (VBool true) 26214400%Z io1
                (handle_inv_fresh _ ex_world_fresh)
                ex_videostreams_run ex_videostreams_first eq_refl eq_refl eq_refl
                eq_refl eq_refl eq_refl ltac:(ex_dirs) ltac:(ex_dirs)) as H.
  cbv zeta in H. destruct H as [_ H]. apply H. by right.
Defined.

Lemma ex_flow_footprint :
  flow_footprint (B := ex_backend) (Sh := ex_shared) "_audiostreams" 0 "/tmp/a.ogg" false
    (ex_world "vid", ex_io_kept) = ["/tmp/a.ogg"; "/tmp/a.ogg.temp"].
Proof. by vm_compute. Qed.

Lemma download_from_safe_witness :
  let s' := (download_from (B := ex_backend) (R := spec_reporter)
               (T := chunked_transport (N := ex_site)) (Sh := ex_shared)
               "_audiostreams" 0 "/tmp/a.ogg" true (VStr "MB") None false
               (VStr "ffmpeg") (ex_world "vid", ex_io_kept)).2 in
  handle_inv (B := ex_backend) (ex_world "vid") s'.1 /\
  files s'.2 !! "/tmp/keep.ogg" = Some 7%Z.
Proof.
  intros s'.
  destruct (download_from_safe (B := ex_backend) (R := spec_reporter)
              (T := chunked_transport (N := ex_site)) (Sh := ex_shared)
              (ex_world "vid") "_audiostreams" 0 "/tmp/a.ogg" true (VStr "MB")
              None false (VStr "ffmpeg") (ex_world "vid", ex_io_kept)
              (handle_inv_fresh _ ex_world_fresh)) as [Hi [_ Hf]].
  split; [exact Hi|]. subst s'. rewrite Hf; [reflexivity|].
  rewrite ex_flow_footprint.
  by intros [[=]|[[=]|[]%elem_of_nil]%elem_of_cons]%elem_of_cons.
Defined.

(** The scenario of the specification: the audio-only format in the
    container "ogg", the second of the video "vid", is in the audio list
    and in the ogg list of the catalog. *)
Example ex_opus_audio_and_ogg s :
  get_list (Pafy.self ex_catalog) "_allstreams" !! 1%nat = Some s ->
  s ∈ get_list (Pafy.self ex_catalog) "_audiostreams" /\
  s ∈ get_list (Pafy.self ex_catalog) "_oggstreams".
Proof.
  intros Hs.
  assert (_mediatype <$> get_list (Pafy.self ex_catalog) "_allstreams" !! 1%nat
          = Some audio) as Hm by (vm_compute; reflexivity).
  assert (_extension <$> get_list (Pafy.self ex_catalog) "_allstreams" !! 1%nat
          = Some (VStr "ogg")) as He by (vm_compute; reflexivity).
  rewrite Hs in Hm, He. injection Hm as Hm. injection He as He.
  destruct (catalog_kind _ _ s ex_catalog_run (list_elem_of_lookup_2 _ _ _ Hs))
    as (_ & Ha & _ & _ & Ho).
  split; [by apply Ha | apply Ho; by rewrite He].
Qed.
